(** * Worktree state engine and session tracker

    A shallow embedding of the TypeScript sources
      - [src/services/GitService.ts]      (module [GitService]),
      - [src/services/TerminalTracker.ts] (module [TerminalTracker]),
      - [src/services/WorktreeManager.ts] (module [WorktreeManager]),
      - [src/providers/WorktreeProvider.ts] (module [WorktreeProvider]),
    followed by the properties of the specification that were checked
    against them.

    Conventions of the embedding.
      - A JavaScript string is a Rocq [string]; every [ascii] stands for one
        code unit in the range 0..255.
      - [undefined] is [None]; an optional field [f?: T] is an [option T].
      - An [async] method is a computation in the monad [M]: it threads the
        state of the host ([World]) and either returns a value or rejects
        with a thrown value ([Exn]).  Effects made before a throw persist.
      - The external tool (simple-git), the collation order of the host and
        the few built-ins whose full definition is outside the repository
        are taken as interfaces ([Host], [Builtins]). *)

From Stdlib Require Import String Ascii List ZArith QArith Bool Lia Arith.
From Stdlib Require Import Permutation Sorted DecimalString.
Import ListNotations.

Local Open Scope string_scope.
Local Open Scope list_scope.
Local Open Scope Z_scope.

Notation "s1 +++ s2" := (String.append s1 s2)
  (at level 60, right associativity) : string_scope.

(* ===================================================================== *)
(** * JavaScript strings *)
(* ===================================================================== *)

Module JsString.

(** The check mark U+2713 that opens the success notifications.  It has no
    code unit below 256 and stands here as the three bytes of its UTF-8
    form. *)
Definition check_mark : string :=
  String (ascii_of_nat 226) (String (ascii_of_nat 156)
    (String (ascii_of_nat 147) EmptyString)).

(** The double quote, code unit 34. *)
Definition dquote : string := String (ascii_of_nat 34) EmptyString.

(** The line feed, code unit 10: the separator of [split('\n')]. *)
Definition LF : ascii := ascii_of_nat 10.

(** WhiteSpace and LineTerminator code units below 256, the ones
    [String.prototype.trim] strips: TAB, LF, VT, FF, CR, SP, NBSP. *)
Definition is_whitespace (c : ascii) : bool :=
  let n := nat_of_ascii c in
  (Nat.eqb n 9 || Nat.eqb n 10 || Nat.eqb n 11 || Nat.eqb n 12
   || Nat.eqb n 13 || Nat.eqb n 32 || Nat.eqb n 160)%bool.

Fixpoint trimStart (s : string) : string :=
  match s with
  | EmptyString => EmptyString
  | String c s' => if is_whitespace c then trimStart s' else s
  end.

Fixpoint rev_string (acc s : string) : string :=
  match s with
  | EmptyString => acc
  | String c s' => rev_string (String c acc) s'
  end.

(** [s.trim()] *)
Definition trim (s : string) : string :=
  rev_string "" (trimStart (rev_string "" (trimStart s))).

(** Truthiness of a string: only the empty string is falsy. *)
Definition truthy (s : string) : bool :=
  match s with EmptyString => false | _ => true end.

(** Truthiness of a possibly undefined string. *)
Definition truthy_opt (o : option string) : bool :=
  match o with Some s => truthy s | None => false end.

(** [s.startsWith(p)] *)
Fixpoint startsWith (s p : string) {struct p} : bool :=
  match p with
  | EmptyString => true
  | String b p' =>
      match s with
      | EmptyString => false
      | String a s' => (Ascii.eqb a b && startsWith s' p')%bool
      end
  end.

(** [s.substring(n)] for [0 <= n]: the suffix from index [n]. *)
Fixpoint substring_from (n : nat) (s : string) : string :=
  match n, s with
  | O, _ => s
  | S n', String _ s' => substring_from n' s'
  | S _, EmptyString => EmptyString
  end.

(** [s.split(sep)] for a separator of one code unit.  The result is never
    empty: [''.split(sep)] is [['']]. *)
Fixpoint split (sep : ascii) (s : string) : list string :=
  match s with
  | EmptyString => [EmptyString]
  | String c s' =>
      if Ascii.eqb c sep then EmptyString :: split sep s'
      else match split sep s' with
           | hd :: tl => String c hd :: tl
           | [] => [String c EmptyString]
           end
  end.

(** [xs.includes(x)] on an array of strings. *)
Definition includes (xs : list string) (x : string) : bool :=
  existsb (String.eqb x) xs.

(** [\d] of a regular expression without the unicode flag. *)
Definition is_digit (c : ascii) : bool :=
  let n := nat_of_ascii c in (Nat.leb 48 n && Nat.leb n 57)%bool.

(** [[a-zA-Z0-9-_]] *)
Definition is_name_char (c : ascii) : bool :=
  let n := nat_of_ascii c in
  ((Nat.leb 97 n && Nat.leb n 122) || (Nat.leb 65 n && Nat.leb n 90)
   || (Nat.leb 48 n && Nat.leb n 57) || Nat.eqb n 45 || Nat.eqb n 95)%bool.

Fixpoint forallb_string (p : ascii -> bool) (s : string) : bool :=
  match s with
  | EmptyString => true
  | String c s' => (p c && forallb_string p s')%bool
  end.

(** [s.includes(c)] for one code unit [c]. *)
Fixpoint contains (c : ascii) (s : string) : bool :=
  match s with
  | EmptyString => false
  | String x s' => (Ascii.eqb x c || contains c s')%bool
  end.

(** Decimal rendering of an integer, as in a template literal. *)
Definition of_Z (z : Z) : string := NilZero.string_of_int (Z.to_int z).

End JsString.

(* ===================================================================== *)
(** * Data model, [src/types/index.ts] *)
(* ===================================================================== *)

(** [WorktreeInfo].  [branch] and [commit] are declared [string], but the
    parser builds records through a cast from [Partial<WorktreeInfo>], so
    they are [undefined] when the listing has no such line.  [activeCLIs] is
    the extra field the tree provider adds. *)
Record WorktreeInfo : Type := mkWorktreeInfo {
  path : string;
  branch : option string;
  commit : option string;
  isMain : bool;
  isLocked : bool;
  changes : option Z;
  activeCLIs : option (list string)
}.

(** [GitOperationResult] *)
Record GitOperationResult : Type := mkGitOperationResult {
  success : bool;
  error : option string;
  output : option string
}.

(** [WorktreeCreateOptions] *)
Record WorktreeCreateOptions : Type := mkWorktreeCreateOptions {
  name : string;
  opt_branch : string;
  basePath : string;
  createBranch : bool;
  cliTools : list string;
  openInNewWindow : bool;
  autoStartTerminal : bool
}.

(* ===================================================================== *)
(** * The porcelain parser, [GitService.parseWorktreeList] *)
(* ===================================================================== *)

Module Parser.
Import JsString.

(** [Partial<WorktreeInfo>]: the accumulator of the parser. *)
Record PartialWorktree : Type := mkPartial {
  p_path : option string;
  p_branch : option string;
  p_commit : option string;
  p_isMain : option bool;
  p_isLocked : option bool
}.

(** [{}] *)
Definition empty_partial : PartialWorktree :=
  mkPartial None None None None None.

(** [currentWorktree as WorktreeInfo].  The cast is only reached when
    [path] is truthy, hence after a [worktree] line has set [path],
    [isMain] and [isLocked]; the defaults below stand for the falsy
    [undefined] of the fields that would be missing otherwise. *)
Definition as_WorktreeInfo (p : PartialWorktree) : WorktreeInfo :=
  mkWorktreeInfo
    (match p_path p with Some s => s | None => "" end)
    (p_branch p) (p_commit p)
    (match p_isMain p with Some b => b | None => false end)
    (match p_isLocked p with Some b => b | None => false end)
    None None.

(** [output.split('\n').filter(line => line.trim())] *)
Definition lines_of (output : string) : list string :=
  filter (fun line => truthy (trim line)) (split LF output).

(** The [if (currentWorktree.path) worktrees.push(...)] of the loop body
    and of the end of input. *)
Definition flush (worktrees : list WorktreeInfo) (cur : PartialWorktree)
  : list WorktreeInfo :=
  if truthy_opt (p_path cur) then worktrees ++ [as_WorktreeInfo cur]
  else worktrees.

(** One iteration of [for (const line of lines)]. *)
Definition step (st : list WorktreeInfo * PartialWorktree) (line : string)
  : list WorktreeInfo * PartialWorktree :=
  let (worktrees, cur) := st in
  if startsWith line "worktree " then
    (flush worktrees cur,
     mkPartial (Some (substring_from 9 line)) None None
               (Some false) (Some false))
  else if startsWith line "HEAD " then
    (worktrees,
     mkPartial (p_path cur) (p_branch cur) (Some (substring_from 5 line))
               (p_isMain cur) (p_isLocked cur))
  else if startsWith line "branch " then
    (worktrees,
     mkPartial (p_path cur) (Some (substring_from 7 line)) (p_commit cur)
               (p_isMain cur) (p_isLocked cur))
  else if String.eqb line "bare" then
    (worktrees,
     mkPartial (p_path cur) (p_branch cur) (p_commit cur)
               (Some true) (p_isLocked cur))
  else if startsWith line "locked" then
    (worktrees,
     mkPartial (p_path cur) (p_branch cur) (p_commit cur)
               (p_isMain cur) (Some true))
  else st.

Definition parseWorktreeList (output : string) : list WorktreeInfo :=
  let (worktrees, cur) :=
    fold_left step (lines_of output) ([], empty_partial) in
  flush worktrees cur.

End Parser.

(* ===================================================================== *)
(** * JavaScript numbers and the built-ins taken as an interface *)
(* ===================================================================== *)

(** A Number value: NaN, a finite value (every finite double is a
    rational), or an infinity. *)
Inductive jsnum : Type :=
| NaN : jsnum
| Fin (q : Q) : jsnum
| PosInf : jsnum
| NegInf : jsnum.

(** [a < b] on Numbers: false as soon as one side is NaN. *)
Definition js_lt (a b : jsnum) : bool :=
  match a, b with
  | NaN, _ | _, NaN => false
  | Fin x, Fin y => negb (Qle_bool y x)
  | Fin _, PosInf => true
  | Fin _, NegInf => false
  | PosInf, _ => false
  | NegInf, NegInf => false
  | NegInf, _ => true
  end.

(** [a > b] *)
Definition js_gt (a b : jsnum) : bool := js_lt b a.

(** The double nearest to a non-negative integer (round to nearest, ties
    to even; 53 bits of significand, overflow at 2^1024). *)
Definition round_binary64 (n : Z) : jsnum :=
  if n <? 2 ^ 53 then Fin (inject_Z n)
  else
    let e := Z.log2 n - 52 in
    let q := n / 2 ^ e in
    let r := n mod 2 ^ e in
    let half := 2 ^ (e - 1) in
    let q' := if r <? half then q
              else if half <? r then q + 1
              else if Z.even q then q else q + 1 in
    let v := q' * 2 ^ e in
    if 2 ^ 1024 <=? v then PosInf else Fin (inject_Z v).

(** The value of a run of decimal digits, most significant first. *)
Fixpoint decimal_value (acc : Z) (s : string) : Z :=
  match s with
  | EmptyString => acc
  | String c s' =>
      decimal_value (10 * acc + (Z.of_nat (nat_of_ascii c) - 48)) s'
  end.

(** Built-ins of the JavaScript runtime and of Node that the sources call
    and whose definition lies outside the repository:
    [Number(s)] on a string, [a.localeCompare(b)], [path.join(...)] and
    [path.basename(p)]. *)
Class Builtins : Type := {
  Number : string -> jsnum;
  localeCompare : string -> string -> Z;
  path_join : list string -> string;
  path_basename : string -> string
}.

(** What the theorems on versions assume of [Number]: on a non-empty run of
    decimal digits it is the nearest double of the denoted integer. *)
Definition Number_reads_decimals (B : Builtins) : Prop :=
  forall s, JsString.truthy s = true ->
            JsString.forallb_string JsString.is_digit s = true ->
            Number s = round_binary64 (decimal_value 0 s).

(** What the theorems on sorting assume of [localeCompare]: it is a
    consistent comparison (the sign flips with the arguments, and
    [<= 0] is transitive). *)
Definition localeCompare_consistent (B : Builtins) : Prop :=
  (forall a b, Z.sgn (localeCompare a b) = - Z.sgn (localeCompare b a)) /\
  (forall a b c, localeCompare a b <= 0 -> localeCompare b c <= 0 ->
                 localeCompare a c <= 0).

(* ===================================================================== *)
(** * Versions, [GitService.compareVersions] and the banner pattern *)
(* ===================================================================== *)

Module Version.
Import JsString.

Section WithBuiltins.
Context {B : Builtins}.

(** [parts[i]] read as a Number: an index past the end reads
    [undefined], which compares as NaN. *)
Definition part (parts : list jsnum) (i : nat) : jsnum := nth i parts NaN.

(** The [for (let i = 0; i < 3; i++)] loop, from index [i] with
    [todo] iterations left. *)
Fixpoint compare_from (v1Parts v2Parts : list jsnum) (i todo : nat) : Z :=
  match todo with
  | O => 0
  | S todo' =>
      if js_gt (part v1Parts i) (part v2Parts i) then 1
      else if js_lt (part v1Parts i) (part v2Parts i) then -1
      else compare_from v1Parts v2Parts (S i) todo'
  end.

Definition compareVersions (version1 version2 : string) : Z :=
  let v1Parts := map Number (split "." version1) in
  let v2Parts := map Number (split "." version2) in
  compare_from v1Parts v2Parts 0 3.

End WithBuiltins.

(** The longest run of digits at the head of [s], and what follows. *)
Fixpoint span_digits (s : string) : string * string :=
  match s with
  | String c s' =>
      if is_digit c then
        let (ds, rest) := span_digits s' in (String c ds, rest)
      else (EmptyString, s)
  | EmptyString => (EmptyString, EmptyString)
  end.

(** [\d+\.] at the head of [s]: the digits and what follows the dot.
    [\d+] is greedy and the next item is a dot, so the only run that can
    match is the longest one. *)
Definition digits_dot (s : string) : option (string * string) :=
  let (ds, rest) := span_digits s in
  if truthy ds then
    match rest with
    | String c rest' =>
        if Ascii.eqb c "." then Some (ds, rest') else None
    | EmptyString => None
    end
  else None.

(** [(\d+\.\d+\.\d+)] at the head of [s]: the captured text. *)
Definition triple_at (s : string) : option string :=
  match digits_dot s with
  | Some (major, s1) =>
      match digits_dot s1 with
      | Some (minor, s2) =>
          let (patch, _) := span_digits s2 in
          if truthy patch
          then Some (major +++ "." +++ minor +++ "." +++ patch)
          else None
      | None => None
      end
  | None => None
  end.

(** [/git version (\d+\.\d+\.\d+)/] at the head of [s]. *)
Definition banner_at (s : string) : option string :=
  if startsWith s "git version " then triple_at (substring_from 12 s)
  else None.

(** [versionResult.match(/git version (\d+\.\d+\.\d+)/)]: group 1 of the
    leftmost match, [None] for a [null] result. *)
Fixpoint match_banner (s : string) : option string :=
  match banner_at s with
  | Some v => Some v
  | None =>
      match s with
      | String _ s' => match_banner s'
      | EmptyString => None
      end
  end.

End Version.

(* ===================================================================== *)
(** * JavaScript arrays *)
(* ===================================================================== *)

Module JsArray.

(** [arr.findIndex(pred)]: [-1] when no element satisfies [pred]. *)
Fixpoint findIndex {A : Type} (pred : A -> bool) (arr : list A) : Z :=
  match arr with
  | [] => -1
  | x :: arr' =>
      if pred x then 0
      else let i := findIndex pred arr' in
           if i =? -1 then -1 else i + 1
  end.

(** [arr.splice(index, 1)] for [0 <= index]: the array that is left. *)
Fixpoint remove_at {A : Type} (index : nat) (arr : list A) : list A :=
  match index, arr with
  | _, [] => []
  | O, _ :: arr' => arr'
  | S i, x :: arr' => x :: remove_at i arr'
  end.

(** [arr[index] = value] on an array of slots, [index] within it. *)
Fixpoint set_at {A : Type} (index : nat) (value : A) (arr : list (option A))
  : list (option A) :=
  match index, arr with
  | _, [] => []
  | O, _ :: arr' => Some value :: arr'
  | S i, x :: arr' => x :: set_at i value arr'
  end.

(** The values of the filled slots, in index order. *)
Definition filled {A : Type} (arr : list (option A)) : list A :=
  flat_map (fun o => match o with Some v => [v] | None => [] end) arr.

(** [Array.prototype.sort(cmp)] is a stable sort; the order it leaves is
    fixed by the language only for what the comparison function orders
    consistently.  The model is the stable insertion sort: the elements
    are taken from left to right and each one is put before the first
    element it is smaller than. *)
Fixpoint insert {A : Type} (cmp : A -> A -> Z) (x : A) (sorted : list A)
  : list A :=
  match sorted with
  | [] => [x]
  | y :: sorted' =>
      if cmp x y <? 0 then x :: y :: sorted'
      else y :: insert cmp x sorted'
  end.

Definition sort {A : Type} (cmp : A -> A -> Z) (arr : list A) : list A :=
  fold_left (fun sorted x => insert cmp x sorted) arr [].

(** [[...new Set(arr)]]: the first occurrence of every string, in
    order. *)
Fixpoint dedupe_from (seen : list string) (arr : list string)
  : list string :=
  match arr with
  | [] => []
  | x :: arr' =>
      if JsString.includes seen x then dedupe_from seen arr'
      else x :: dedupe_from (seen ++ [x]) arr'
  end.

Definition dedupe (arr : list string) : list string := dedupe_from [] arr.

End JsArray.

(* ===================================================================== *)
(** * The session registry, [TerminalTracker] *)
(* ===================================================================== *)

Module TerminalTracker.
Import JsArray.

(** A [vscode.Terminal] object; [===] on objects is identity, here
    equality of the identifier. *)
Definition Terminal : Type := nat.

Record TrackedTerminal : Type := mkTracked {
  terminal : Terminal;
  cliName : string;
  worktreePath : string;
  startTime : Z
}.

(** [Map<string, TrackedTerminal[]>]: the entries in insertion order. *)
Definition TerminalMap : Type := list (string * list TrackedTerminal).

(** The singleton: the map, and the payloads [_onDidChangeTerminals] has
    fired so far, oldest first. *)
Record t : Type := mkTracker {
  terminals : TerminalMap;
  fired : list string
}.

(** The state of [new TerminalTracker()]. *)
Definition initial : t := mkTracker [] [].

(** [map.get(key)] *)
Fixpoint map_get (key : string) (m : TerminalMap)
  : option (list TrackedTerminal) :=
  match m with
  | [] => None
  | (k, v) :: m' => if String.eqb k key then Some v else map_get key m'
  end.

(** [map.set(key, value)]: an existing key keeps its place. *)
Fixpoint map_set (key : string) (value : list TrackedTerminal)
  (m : TerminalMap) : TerminalMap :=
  match m with
  | [] => [(key, value)]
  | (k, v) :: m' =>
      if String.eqb k key then (k, value) :: m'
      else (k, v) :: map_set key value m'
  end.

(** [map.delete(key)] *)
Fixpoint map_delete (key : string) (m : TerminalMap) : TerminalMap :=
  match m with
  | [] => []
  | (k, v) :: m' =>
      if String.eqb k key then m' else (k, v) :: map_delete key m'
  end.

(** [this._onDidChangeTerminals.fire(payload)] *)
Definition fire (payload : string) (st : t) : t :=
  mkTracker (terminals st) (fired st ++ [payload]).

(** [trackTerminal(terminal, worktreePath, cliName)]; [now] is the value
    of [new Date()]. *)
Definition trackTerminal (now : Z) (terminal : Terminal)
  (worktreePath cliName : string) (st : t) : t :=
  let tracked := mkTracked terminal cliName worktreePath now in
  let existing :=
    match map_get worktreePath (terminals st) with
    | Some l => l
    | None => []
    end in
  let existing := existing ++ [tracked] in
  fire worktreePath
       (mkTracker (map_set worktreePath existing (terminals st)) (fired st)).

(** The [for ... of this.terminals.entries()] loop of [removeTerminal]
    over the entries still to visit; the loop leaves at the first bucket
    that holds the terminal. *)
Fixpoint removeTerminal_from (entries : TerminalMap) (closed : Terminal)
  (st : t) : t :=
  match entries with
  | [] => st
  | (worktreePath, terminals_) :: entries' =>
      let index :=
        findIndex (fun x => Nat.eqb (terminal x) closed) terminals_ in
      if negb (index =? -1) then
        let terminals_ := remove_at (Z.to_nat index) terminals_ in
        let m :=
          if Nat.eqb (length terminals_) 0
          then map_delete worktreePath (terminals st)
          else map_set worktreePath terminals_ (terminals st) in
        fire worktreePath (mkTracker m (fired st))
      else removeTerminal_from entries' closed st
  end.

Definition removeTerminal (closed : Terminal) (st : t) : t :=
  removeTerminal_from (terminals st) closed st.

(** [getTerminals(worktreePath)] *)
Definition getTerminals (worktreePath : string) (st : t)
  : list TrackedTerminal :=
  match map_get worktreePath (terminals st) with
  | Some l => l
  | None => []
  end.

(** [getActiveCLIs(worktreePath)] *)
Definition getActiveCLIs (worktreePath : string) (st : t) : list string :=
  map cliName (getTerminals worktreePath st).

(** [hasActiveCLIs(worktreePath)] *)
Definition hasActiveCLIs (worktreePath : string) (st : t) : bool :=
  negb (Nat.eqb (length (getTerminals worktreePath st)) 0).

(** [getAllActiveWorktrees()] *)
Definition getAllActiveWorktrees (st : t) : list string :=
  map fst (terminals st).

(** The two mutating entry points, as commands. *)
Inductive command : Type :=
| Track (now : Z) (terminal : Terminal) (worktreePath cliName : string)
| Untrack (closed : Terminal).

Definition run (st : t) (c : command) : t :=
  match c with
  | Track now terminal worktreePath cliName =>
      trackTerminal now terminal worktreePath cliName st
  | Untrack closed => removeTerminal closed st
  end.

Definition run_all (cs : list command) : t := fold_left run cs initial.

End TerminalTracker.


(* ===================================================================== *)
(** * The host: thrown values, the external tool, the window *)
(* ===================================================================== *)

(** A thrown value: an [Error] object with its [name] and [message], or any
    other value with its conversion to a string. *)
Inductive Exn : Type :=
| ErrorObj (name message : string)
| Thrown (text : string).

(** [String(error)], what a template literal makes of a thrown value;
    for an [Error] object this is [Error.prototype.toString]. *)
Definition Exn_toString (error : Exn) : string :=
  match error with
  | ErrorObj name message =>
      if negb (JsString.truthy name) then message
      else if negb (JsString.truthy message) then name
      else name +++ ": " +++ message
  | Thrown text => text
  end.

(** What the window has been asked to show. *)
Inductive UiEvent : Type :=
| WarningPrompt (message : string) (items : list string)
| Information (message : string)
| ErrorMessage (message : string)
| Progress (title : string).

(** The outside of the process as the sources reach it: simple-git and the
    workspace file system, over a state [Env] of the repository and the
    disk.  A query ([branchLocal], [branch], [status], [fs.stat]) reads the
    state; [raw] runs an arbitrary subcommand and may change it.  Each
    call either resolves ([inr]) or rejects ([inl]). *)
Class Host (Env : Type) : Type := {
  git_raw : list string -> Env -> (Exn + string) * Env;
  git_branchLocal : Env -> Exn + list string;
  git_branch : list string -> Env -> Exn + list string;
  git_status : string -> Env -> Exn + list string;
  fs_stat : string -> Env -> Exn + unit
}.

Module Effects.

Section WithHost.
Context {Env : Type} {H : Host Env}.

(** Everything an operation can read or change. [answers] are the choices
    the user will make at the coming modal prompts ([None]: dismissed);
    [gitlog] lists the argument vectors passed to [git.raw] so far. *)
Record World : Type := mkWorld {
  env : Env;
  answers : list (option string);
  ui : list UiEvent;
  console : list string;
  gitlog : list (list string);
  tracker : TerminalTracker.t
}.

(** An asynchronous computation: from a world to a settled promise and the
    world it leaves. *)
Definition M (A : Type) : Type := World -> (Exn + A) * World.

Definition ret {A : Type} (a : A) : M A := fun w => (inr a, w).

Definition bind {A B : Type} (m : M A) (k : A -> M B) : M B :=
  fun w => match m w with
           | (inr a, w') => k a w'
           | (inl e, w') => (inl e, w')
           end.

(** [throw e] *)
Definition throw {A : Type} (e : Exn) : M A := fun w => (inl e, w).

(** [try { body } catch (error) { handler }] *)
Definition try_catch {A : Type} (body : M A) (handler : Exn -> M A) : M A :=
  fun w => match body w with
           | (inl e, w') => handler e w'
           | settled => settled
           end.

(** [console.error(line)] *)
Definition console_error (line : string) : M unit :=
  fun w => (inr tt, mkWorld (env w) (answers w) (ui w) (console w ++ [line])
                            (gitlog w) (tracker w)).

Definition show (ev : UiEvent) : M unit :=
  fun w => (inr tt, mkWorld (env w) (answers w) (ui w ++ [ev]) (console w)
                            (gitlog w) (tracker w)).

(** [vscode.window.showWarningMessage(message, {modal: true}, ...items)]:
    resolves to the item the user picks, or to [undefined]. *)
Definition showWarningMessage (message : string) (items : list string)
  : M (option string) :=
  fun w =>
    let w' := mkWorld (env w) (tl (answers w))
                      (ui w ++ [WarningPrompt message items]) (console w)
                      (gitlog w) (tracker w) in
    (inr (match answers w with a :: _ => a | [] => None end), w').

(** [vscode.window.withProgress({title, ...}, task)] *)
Definition withProgress {A : Type} (title : string) (task : M A) : M A :=
  bind (show (Progress title)) (fun _ => task).

(** [this.git.raw(args)] *)
Definition raw (args : list string) : M string :=
  fun w => let (r, e') := git_raw args (env w) in
           (r, mkWorld e' (answers w) (ui w) (console w)
                       (gitlog w ++ [args]) (tracker w)).

(** A query of the host: the world is left as it is. *)
Definition query {A : Type} (q : Env -> Exn + A) : M A :=
  fun w => (q (env w), w).

(** A reading of the session registry. *)
Definition read_tracker {A : Type} (f : TerminalTracker.t -> A) : M A :=
  fun w => (inr (f (tracker w)), w).

(** [Promise.all(tasks)], the tasks settling in the order [sched] gives:
    at each step the head of [sched] (0 once it is used up) picks, modulo
    their number, one of the tasks that are still pending; that task runs
    to its end and its value is stored at the task's own index.  The
    promise is rejected with the first rejection met, and is otherwise
    fulfilled with the array of the values. *)
Fixpoint settle {A : Type} (todo : nat) (sched : list nat)
  (pending : list (nat * M A)) (values : list (option A))
  (rejection : option Exn) (w : World)
  : list (option A) * option Exn * World :=
  match todo with
  | O => (values, rejection, w)
  | S todo' =>
      let k := Nat.modulo (hd O sched) (length pending) in
      match nth_error pending k with
      | None => (values, rejection, w)
      | Some (index, task) =>
          let pending' := JsArray.remove_at k pending in
          match task w with
          | (inr v, w') =>
              settle todo' (tl sched) pending'
                     (JsArray.set_at index v values) rejection w'
          | (inl e, w') =>
              settle todo' (tl sched) pending' values
                     (match rejection with
                      | None => Some e
                      | Some _ => rejection
                      end) w'
          end
      end
  end.

Definition promise_all {A : Type} (sched : list nat) (tasks : list (M A))
  : M (list A) :=
  fun w =>
    let n := length tasks in
    match settle n sched (combine (seq 0 n) tasks) (repeat None n) None w with
    | (_, Some e, w') => (inl e, w')
    | (values, None, w') => (inr (JsArray.filled values), w')
    end.

End WithHost.

Arguments World Env : clear implicits.
Arguments M Env A : clear implicits.

End Effects.

Declare Scope js_scope.
Delimit Scope js_scope with js.
Notation "x <- c ;; k" := (Effects.bind c (fun x => k))
  (at level 100, c at next level, right associativity) : js_scope.
Notation "c ;;; k" := (Effects.bind c (fun _ => k))
  (at level 100, right associativity) : js_scope.

(* ===================================================================== *)
(** * The gateway, [GitService] *)
(* ===================================================================== *)

Module GitService.
Import JsString Effects.

Section WithHost.
Context {Env : Type} {H : Host Env} {B : Builtins}.
Local Open Scope js_scope.

(** [getErrorMessage(error)] *)
Definition getErrorMessage (error : Exn) : string :=
  match error with
  | ErrorObj _ message => message
  | Thrown text => text
  end.

(** [handleGitError(error, context)] *)
Definition handleGitError (error : Exn) (context : string) : M Env unit :=
  let message := getErrorMessage error in
  console_error (context +++ ": " +++ message).

Definition listWorktrees : M Env (list WorktreeInfo) :=
  try_catch
    (result <- raw ["worktree"; "list"; "--porcelain"] ;;
     ret (Parser.parseWorktreeList result))
    (fun error =>
       handleGitError error "Failed to list worktrees" ;;;
       ret []).

Definition createWorktree (worktreePath branch : string) (createBranch : bool)
  : M Env GitOperationResult :=
  try_catch
    (let args := ["worktree"; "add"] in
     let args := if createBranch then args ++ ["-b"; branch] else args in
     let args := args ++ [worktreePath] in
     let args := if negb createBranch then args ++ [branch] else args in
     raw args ;;;
     ret (mkGitOperationResult
            true None (Some ("Worktree created at " +++ worktreePath))))
    (fun error =>
       ret (mkGitOperationResult false (Some (getErrorMessage error)) None)).

(** The argument vector of [removeWorktree]. *)
Definition remove_args (worktreePath : string) (force : bool) : list string :=
  let args := ["worktree"; "remove"] in
  let args := if force then args ++ ["--force"] else args in
  args ++ [worktreePath].

Definition removeWorktree (worktreePath : string) (force : bool)
  : M Env GitOperationResult :=
  try_catch
    (raw (remove_args worktreePath force) ;;;
     ret (mkGitOperationResult
            true None (Some ("Worktree removed: " +++ worktreePath))))
    (fun error =>
       ret (mkGitOperationResult false (Some (getErrorMessage error)) None)).

Definition branchExists (branchName : string) : M Env bool :=
  try_catch
    (branches <- query git_branchLocal ;;
     ret (includes branches branchName))
    (fun error =>
       handleGitError error "Failed to check branch existence" ;;;
       ret false).

Definition getAllBranches : M Env (list string) :=
  try_catch
    (localBranches <- query git_branchLocal ;;
     remoteBranches <- query (git_branch ["-r"]) ;;
     let allBranches := localBranches ++ map trim remoteBranches in
     ret (JsArray.dedupe allBranches))
    (fun error =>
       handleGitError error "Failed to fetch branches" ;;;
       ret []).

Definition getChangesCount (worktreePath : string) : M Env Z :=
  try_catch
    (files <- query (git_status worktreePath) ;;
     ret (Z.of_nat (length files)))
    (fun error =>
       handleGitError error "Failed to get changes count" ;;;
       ret 0).

Definition validateGitVersion (minVersion : string) : M Env bool :=
  try_catch
    (versionResult <- raw ["--version"] ;;
     match Version.match_banner versionResult with
     | None => ret false
     | Some currentVersion =>
         ret (Version.compareVersions currentVersion minVersion >=? 0)
     end)
    (fun error =>
       handleGitError error "Failed to validate Git version" ;;;
       ret false).

End WithHost.
End GitService.

(* ===================================================================== *)
(** * The orchestrator, [WorktreeManager] *)
(* ===================================================================== *)

Module WorktreeManager.
Import JsString Effects.

Section WithHost.
Context {Env : Type} {H : Host Env} {B : Builtins}.
Local Open Scope js_scope.

(** The second field of the constructor. *)
Variable rootPath : string.

(** [worktree.changes && worktree.changes > 0], as a condition: an
    [undefined] or zero count is falsy. *)
Definition hasChanges (worktree : WorktreeInfo) : bool :=
  match changes worktree with
  | None => false
  | Some n => (negb (n =? 0) && (n >? 0))%bool
  end.

(** [`${worktree.changes}`] *)
Definition changes_text (worktree : WorktreeInfo) : string :=
  match changes worktree with
  | None => "undefined"
  | Some n => of_Z n
  end.

(** [error instanceof Error ? error.message : error], in a template. *)
Definition error_text (error : Exn) : string :=
  match error with
  | ErrorObj _ message => message
  | Thrown text => text
  end.

(** [result.error || fallback] *)
Definition error_or (result : GitOperationResult) (fallback : string)
  : string :=
  match error result with
  | Some e => if truthy e then e else fallback
  | None => fallback
  end.

Definition removeWorktree (worktree : WorktreeInfo) : M Env bool :=
  try_catch
    (let name := path_basename (path worktree) in
     let hasChanges := hasChanges worktree in
     let warningMessage :=
       if hasChanges
       then "Worktree " +++ dquote +++ name +++ dquote +++ " has "
            +++ changes_text worktree
            +++ " uncommitted change(s). Remove anyway?"
       else "Remove worktree " +++ dquote +++ name +++ dquote +++ "?" in
     confirmation <- showWarningMessage warningMessage ["Remove"; "Cancel"] ;;
     if negb (match confirmation with
              | Some c => String.eqb c "Remove"
              | None => false
              end)
     then ret false
     else
       withProgress
         ("Removing worktree " +++ dquote +++ name +++ dquote +++ "...")
         (result <- GitService.removeWorktree
                      (path worktree) (if hasChanges then true else false) ;;
          if negb (success result)
          then throw (ErrorObj "Error"
                            (error_or result "Failed to remove worktree"))
          else ret tt) ;;;
       show (Information
               (check_mark +++ " Worktree " +++ dquote +++ name +++ dquote
                +++ " removed")) ;;;
       ret true)
    (fun error =>
       show (ErrorMessage
               ("Failed to remove worktree: " +++ error_text error)) ;;;
       ret false).

(** [{ ...wt, changes }] *)
Definition with_changes (wt : WorktreeInfo) (n : Z) : WorktreeInfo :=
  mkWorktreeInfo (path wt) (branch wt) (commit wt) (isMain wt) (isLocked wt)
                 (Some n) (activeCLIs wt).

(** [getWorktrees()]; [sched] is the order in which the lookups that
    [Promise.all] waits for come back. *)
Definition getWorktrees (sched : list nat) : M Env (list WorktreeInfo) :=
  worktrees <- GitService.listWorktrees ;;
  enriched <- promise_all sched
                (map (fun wt =>
                        changes <- GitService.getChangesCount (path wt) ;;
                        ret (with_changes wt changes))
                     worktrees) ;;
  ret enriched.

(** [/^[a-zA-Z0-9-_]+$/.test(name)] *)
Definition name_matches (name : string) : bool :=
  (truthy name && forallb_string is_name_char name)%bool.

Definition name_error : string :=
  "Worktree name must contain only letters, numbers, hyphens, and underscores".

Definition branch_error (branch : string) : string :=
  "Branch " +++ dquote +++ branch +++ dquote +++ " does not exist".

Definition path_error (fullPath : string) : string :=
  "Path already exists: " +++ fullPath.

Definition validateCreateOptions (options : WorktreeCreateOptions)
  : M Env (list string) :=
  let errors := [] in
  let errors :=
    if negb (name_matches (name options)) then errors ++ [name_error]
    else errors in
  errors <-
    (if negb (createBranch options) then
       exists_ <- GitService.branchExists (opt_branch options) ;;
       if negb exists_
       then ret (errors ++ [branch_error (opt_branch options)])
       else ret errors
     else ret errors) ;;
  let fullPath := path_join [rootPath; basePath options; name options] in
  errors <-
    try_catch
      (query (fs_stat fullPath) ;;;
       ret (errors ++ [path_error fullPath]))
      (fun _ => ret errors) ;;
  ret errors.

End WithHost.
End WorktreeManager.

(* ===================================================================== *)
(** * The enrichment and the order of [WorktreeProvider.getChildren] *)
(* ===================================================================== *)

Module WorktreeProvider.

Section WithBuiltins.
Context {B : Builtins}.

(** [{ ...wt, changes, activeCLIs }] *)
Definition enrich (wt : WorktreeInfo) (n : Z) (clis : list string)
  : WorktreeInfo :=
  mkWorktreeInfo (path wt) (branch wt) (commit wt) (isMain wt) (isLocked wt)
                 (Some n) (Some clis).

(** The comparison function handed to [sort]. *)
Definition compare_items (a b : WorktreeInfo) : Z :=
  if isMain a then -1
  else if isMain b then 1
  else localeCompare (path_basename (path a)) (path_basename (path b)).

End WithBuiltins.
End WorktreeProvider.

(* ===================================================================== *)
(** * The listing as the specification describes it: blocks *)
(* ===================================================================== *)

(** Section 4.1 of the specification reads the listing as a sequence of
    blocks: a [worktree <path>] line followed by attribute lines up to the
    next [worktree] line or the end of the input.  These definitions follow
    that reading; the theorems compare them with [parseWorktreeList]. *)
Module Blocks.
Import JsString.

Definition is_header (line : string) : bool := startsWith line "worktree ".

(** The lines before the first header. *)
Fixpoint attributes (lines : list string) : list string :=
  match lines with
  | [] => []
  | line :: lines' =>
      if is_header line then [] else line :: attributes lines'
  end.

(** The blocks: the path of each header with the attribute lines of its
    own block. *)
Fixpoint blocks (lines : list string) : list (string * list string) :=
  match lines with
  | [] => []
  | line :: lines' =>
      if is_header line
      then (substring_from 9 line, attributes lines') :: blocks lines'
      else blocks lines'
  end.

(** The text after [prefix] in the last attribute line that starts with
    it, if there is one. *)
Definition last_value (prefix : string) (attrs : list string)
  : option string :=
  fold_left (fun found line =>
               if startsWith line prefix
               then Some (substring_from (String.length prefix) line)
               else found)
            attrs None.

Definition has_bare (attrs : list string) : bool :=
  existsb (fun line => String.eqb line "bare") attrs.

Definition has_locked (attrs : list string) : bool :=
  existsb (fun line => startsWith line "locked") attrs.

(** The record of one block. *)
Definition record_of (block : string * list string) : WorktreeInfo :=
  let (p, attrs) := block in
  mkWorktreeInfo p (last_value "branch " attrs) (last_value "HEAD " attrs)
                 (has_bare attrs) (has_locked attrs) None None.

(** A block whose header carries a path. *)
Definition has_path (block : string * list string) : bool :=
  truthy (fst block).

(** The records of the blocks that carry a path. *)
Definition records (bs : list (string * list string)) : list WorktreeInfo :=
  map record_of (filter has_path bs).

(** [last_value], starting from a value already found. *)
Definition last_value_from (prefix : string) (found : option string)
  (attrs : list string) : option string :=
  fold_left (fun found line =>
               if startsWith line prefix
               then Some (substring_from (String.length prefix) line)
               else found)
            attrs found.

(** The end of [parseWorktreeList] on a state of its loop: the accumulator
    is flushed once more. *)
Definition finish (st : list WorktreeInfo * Parser.PartialWorktree)
  : list WorktreeInfo :=
  Parser.flush (fst st) (snd st).

End Blocks.

(* ===================================================================== *)
(** * Versions as the specification describes them *)
(* ===================================================================== *)

Module VersionSpec.
Import JsString.

(** A non-empty run of decimal digits. *)
Definition is_decimal (s : string) : bool :=
  (truthy s && forallb_string is_digit s)%bool.

(** [major.minor.patch] *)
Definition dotted (major minor patch : string) : string :=
  major +++ "." +++ minor +++ "." +++ patch.

(** The 3-component ordinal comparison: integer-wise, left to right, the
    first differing component decides. *)
Definition lex3 (a1 a2 a3 b1 b2 b3 : Z) : comparison :=
  match a1 ?= b1 with
  | Eq => match a2 ?= b2 with
          | Eq => a3 ?= b3
          | c => c
          end
  | c => c
  end.

Definition comparison_sign (c : comparison) : Z :=
  match c with Lt => -1 | Eq => 0 | Gt => 1 end.

End VersionSpec.

(* ===================================================================== *)
(** * The version of a banner *)
(* ===================================================================== *)

(** The banner pattern as the specification reads it: the first place
    where [git version ] is followed by three runs of digits joined by
    dots, each run taken whole. *)
Module BannerSpec.
Import JsString VersionSpec.

(** [s] opens with [git version ] and the triple [v]; [after] follows. *)
Definition version_at (s v after : string) : Prop :=
  exists major minor patch,
    v = dotted major minor patch /\
    is_decimal major = true /\ is_decimal minor = true /\
    is_decimal patch = true /\
    s = "git version " +++ v +++ after.

(** The text opens with a digit. *)
Definition leading_digit (s : string) : bool :=
  match s with
  | String c _ => is_digit c
  | EmptyString => false
  end.

(** [v] is the version of the banner [text]: the triple at the leftmost
    place of [text] where a triple follows [git version ], its last run of
    digits not cut short. *)
Definition first_version (text v : string) : Prop :=
  exists before s after,
    text = before +++ s /\ version_at s v after /\
    leading_digit after = false /\
    (forall before' s' v' after',
        text = before' +++ s' ->
        (String.length before' < String.length before)%nat ->
        ~ version_at s' v' after').

(** No place of [text] has a triple after [git version ]. *)
Definition no_version (text : string) : Prop :=
  forall before s v after, text = before +++ s -> ~ version_at s v after.

End BannerSpec.

(* ===================================================================== *)
(** * The names a worktree can have *)
(* ===================================================================== *)

(** The pattern [^[A-Za-z0-9_-]+$] as the specification states it: at
    least one character, every character a letter of the basic Latin
    alphabet, a decimal digit, a hyphen or an underscore. *)
Module NameSpec.

Definition alphabet : string :=
  "abcdefghijklmnopqrstuvwxyzABCDEFGHIJKLMNOPQRSTUVWXYZ0123456789-_".

Definition well_formed (name : string) : Prop :=
  name <> EmptyString /\
  Forall (fun c => In c (list_ascii_of_string alphabet))
         (list_ascii_of_string name).

End NameSpec.



(* ===================================================================== *)
(** * What the gateway reads from the host *)
(* ===================================================================== *)

Module GitSpec.

Section WithHost.
Context {Env : Type} {H : Host Env}.

(** The number of entries of the status listing of a worktree, zero when
    the listing cannot be had. *)
Definition changes_of (e : Env) (worktreePath : string) : Z :=
  match git_status worktreePath e with
  | inr files => Z.of_nat (length files)
  | inl _ => 0
  end.

(** The name is among the local branches the tool reports. *)
Definition is_local_branch (e : Env) (branchName : string) : bool :=
  match git_branchLocal e with
  | inr branches => JsString.includes branches branchName
  | inl _ => false
  end.

End WithHost.
End GitSpec.

(* ===================================================================== *)
(** * The registry as the specification describes it *)
(* ===================================================================== *)

Module Registry.
Import TerminalTracker.

(** No session of the bucket is attached to the terminal [h]. *)
Definition bucket_lacks (h : Terminal) (ts : list TrackedTerminal) : Prop :=
  Forall (fun x => terminal x <> h) ts.

(** No bucket holds a session attached to [h]. *)
Definition lacks (h : Terminal) (m : TerminalMap) : Prop :=
  Forall (fun e => bucket_lacks h (snd e)) m.

(** The keys of a [Map] are distinct. *)
Definition well_keyed (m : TerminalMap) : Prop := NoDup (map fst m).

Definition no_empty_bucket (m : TerminalMap) : Prop :=
  Forall (fun e => snd e <> []) m.

Definition invariant (st : t) : Prop :=
  well_keyed (terminals st) /\ no_empty_bucket (terminals st).

End Registry.

(* ===================================================================== *)
(** * The order of the read-model as the specification describes it *)
(* ===================================================================== *)

Module ViewSpec.

Section WithBuiltins.
Context {B : Builtins}.

(** [a] comes no later than [b] in the lexical order of the final segment
    of their paths. *)
Definition by_name (a b : WorktreeInfo) : Prop :=
  localeCompare (path_basename (path a)) (path_basename (path b)) <= 0.

(** The main records first, the remaining ones ordered by name. *)
Definition main_first (l : list WorktreeInfo) : Prop :=
  exists mains rest,
    l = mains ++ rest /\
    Forall (fun r => isMain r = true) mains /\
    Forall (fun r => isMain r = false) rest /\
    StronglySorted by_name rest.

End WithBuiltins.
End ViewSpec.

(* ===================================================================== *)
(** * Worlds and tasks, for stating what the operations leave *)
(* ===================================================================== *)

Module WorldSpec.
Import Effects.

Section WithHost.
Context {Env : Type} {H : Host Env}.

(** The worlds in which the repository is [e] and the registry is [tr]. *)
Definition snapshot (e : Env) (tr : TerminalTracker.t) (w : World Env)
  : Prop :=
  env w = e /\ tracker w = tr.

(** In the worlds of [R], the task fulfils with [v] and stays in [R]. *)
Definition fulfils {A : Type} (R : World Env -> Prop) (task : M Env A) (v : A)
  : Prop :=
  forall w, R w -> fst (task w) = inr v /\ R (snd (task w)).

(** What [settle] keeps true of the tasks [tasks] with values [vals]: the
    indices that are no longer pending hold the value of their own task. *)
Definition settled_so_far {A : Type} (tasks : list (M Env A)) (vals : list A)
  (pending : list (nat * M Env A)) (values : list (option A)) : Prop :=
  length values = length tasks /\
  NoDup (map fst pending) /\
  (forall i task, In (i, task) pending -> nth_error tasks i = Some task) /\
  (forall i, (i < length tasks)%nat -> ~ In i (map fst pending) ->
             nth_error values i = option_map Some (nth_error vals i)).

(** The answer the user gives at the next modal prompt. *)
Definition next_answer (w : World Env) : option string :=
  match answers w with
  | a :: _ => a
  | [] => None
  end.

(** The world after one modal prompt, and nothing else. *)
Definition prompted (message : string) (items : list string) (w : World Env)
  : World Env :=
  mkWorld (env w) (tl (answers w)) (ui w ++ [WarningPrompt message items])
          (console w) (gitlog w) (tracker w).

End WithHost.
End WorldSpec.

(* ===================================================================== *)
(** * A concrete host, for running the operations *)
(* ===================================================================== *)

Module Sample.
Import JsString.

(** [Number] on the strings the version code meets: a run of decimal
    digits (the empty run reads 0); anything else reads NaN here. *)
Definition Number_of_digits (s : string) : jsnum :=
  if forallb_string is_digit s then round_binary64 (decimal_value 0 s)
  else NaN.

(** A collation: shorter names first, names of one length by code unit. *)
Fixpoint shortlex_rank (acc : Z) (s : string) : Z :=
  match s with
  | EmptyString => acc
  | String c s' => shortlex_rank (257 * acc + Z.of_nat (nat_of_ascii c) + 1) s'
  end.

Definition shortlex_compare (a b : string) : Z :=
  match shortlex_rank 0 a ?= shortlex_rank 0 b with
  | Lt => -1
  | Eq => 0
  | Gt => 1
  end.

(** [path.join] on segments that need no normalisation. *)
Fixpoint join_segments (segments : list string) : string :=
  match segments with
  | [] => "."
  | [seg] => seg
  | seg :: rest => seg +++ "/" +++ join_segments rest
  end.

(** [path.basename] on a path without a trailing separator. *)
Fixpoint last_segment (acc p : string) : string :=
  match p with
  | EmptyString => acc
  | String c p' =>
      if Ascii.eqb c "/" then last_segment "" p'
      else last_segment (acc +++ String c "") p'
  end.

#[export] Instance builtins : Builtins := {
  Number := Number_of_digits;
  localeCompare := shortlex_compare;
  path_join := join_segments;
  path_basename := last_segment ""
}.

(** A repository and its disk, as far as the operations look at them. *)
Record Repo : Type := mkRepo {
  banner : string;
  porcelain : string;
  localBranches : list string;
  remoteBranches : list string;
  status_files : list (string * list string);
  on_disk : list string;
  tool_missing : bool
}.

Definition tool_error : Exn := ErrorObj "GitError" "spawn git ENOENT".

Fixpoint files_of (worktreePath : string) (table : list (string * list string))
  : list string :=
  match table with
  | [] => []
  | (p, files) :: table' =>
      if String.eqb p worktreePath then files else files_of worktreePath table'
  end.

#[export] Instance host : Host Repo := {
  git_raw args r :=
    if tool_missing r then (inl tool_error, r)
    else match args with
         | ["--version"] => (inr (banner r), r)
         | ["worktree"; "list"; "--porcelain"] => (inr (porcelain r), r)
         | _ => (inr "", r)
         end;
  git_branchLocal r :=
    if tool_missing r then inl tool_error else inr (localBranches r);
  git_branch _ r :=
    if tool_missing r then inl tool_error else inr (remoteBranches r);
  git_status worktreePath r :=
    if tool_missing r then inl tool_error
    else inr (files_of worktreePath (status_files r));
  fs_stat p r :=
    if includes (on_disk r) p then inr tt
    else inl (ErrorObj "Error" "ENOENT: no such file or directory")
}.

Definition LFs : string := String LF "".

(** A repository with a bare main entry and one locked feature worktree. *)
Definition repo : Repo :=
  mkRepo "git version 2.39.3 (Apple Git-145)"
         ("worktree /repo" +++ LFs +++ "bare" +++ LFs +++ LFs
          +++ "worktree /wt/feature" +++ LFs +++ "HEAD 1a2b3c4" +++ LFs
          +++ "branch refs/heads/feature" +++ LFs +++ "locked" +++ LFs)
         ["main"; "feature"]
         ["origin/main"; "origin/hotfix"]
         [("/wt/feature", ["a.ts"; "b.ts"; "c.ts"])]
         ["/repo"; "/wt/feature"]
         false.

(** The same repository when the tool cannot be run. *)
Definition broken_repo : Repo :=
  mkRepo "" "" [] [] [] ["/repo"] true.

Definition world_of (r : Repo) (answers : list (option string))
  (tr : TerminalTracker.t) : Effects.World Repo :=
  Effects.mkWorld r answers [] [] [] tr.

(** Two sessions attached to the feature worktree. *)
Definition two_sessions : TerminalTracker.t :=
  TerminalTracker.run_all
    [TerminalTracker.Track 100 1%nat "/wt/feature" "claude";
     TerminalTracker.Track 101 2%nat "/wt/feature" "aider"].

Definition main_record : WorktreeInfo :=
  mkWorktreeInfo "/repo" None None true false (Some 0) None.

Definition dirty_record : WorktreeInfo :=
  mkWorktreeInfo "/wt/feature" (Some "refs/heads/feature") (Some "1a2b3c4")
                 false true (Some 3) None.

End Sample.

(* ===================================================================== *)
(** * Further text helpers *)
(* ===================================================================== *)

Module JsText.
Import JsString.

(** [parts.join(sep)] *)
Fixpoint join (sep : string) (parts : list string) : string :=
  match parts with
  | [] => ""
  | [p] => p
  | p :: rest => p +++ sep +++ join sep rest
  end.

(** [s.substring(0, n)] *)
Fixpoint take (n : nat) (s : string) : string :=
  match n, s with
  | S n', String c s' => String c (take n' s')
  | _, _ => EmptyString
  end.

(** [arr.pop()] on a fresh array: its last element. *)
Definition pop (arr : list string) : option string :=
  match rev arr with
  | x :: _ => Some x
  | [] => None
  end.

(** [p.split('/').pop() || p] *)
Definition last_segment_or_path (p : string) : string :=
  match pop (split "/" p) with
  | Some seg => if truthy seg then seg else p
  | None => p
  end.

(** [`${s}`] for a possibly undefined string. *)
Definition show_opt (s : option string) : string :=
  match s with
  | Some x => x
  | None => "undefined"
  end.

(** An element of an array under [join]: [undefined] is rendered empty. *)
Definition join_opt (s : option string) : string :=
  match s with
  | Some x => x
  | None => ""
  end.

(** The bullet U+2022, the robot face U+1F916 and the warning sign
    U+26A0 U+FE0F of the tree items, each as the bytes of its UTF-8 form
    (none has a code unit below 256). *)
Definition bullet : string :=
  String (ascii_of_nat 226) (String (ascii_of_nat 128)
    (String (ascii_of_nat 162) EmptyString)).

Definition robot : string :=
  String (ascii_of_nat 240) (String (ascii_of_nat 159)
    (String (ascii_of_nat 164) (String (ascii_of_nat 150) EmptyString))).

Definition warning_sign : string :=
  String (ascii_of_nat 226) (String (ascii_of_nat 154)
    (String (ascii_of_nat 160) (String (ascii_of_nat 239)
      (String (ascii_of_nat 184) (String (ascii_of_nat 143) EmptyString))))).

End JsText.

(* ===================================================================== *)
(** * The layout of the listing the parser reads *)
(* ===================================================================== *)

(** The text of a listing of given records, in the layout section 4.1 of
    the specification describes for the tool: per record a [worktree] line,
    a [HEAD] line and a [branch] line when the record has them, a [bare]
    line for a main record, a [locked] line for a locked one, and an empty
    line.  The theorems read such a text back with [parseWorktreeList]. *)
Module Porcelain.
Import JsString.

Definition LFs : string := String LF "".

Definition render_record (r : WorktreeInfo) : string :=
  "worktree " +++ path r +++ LFs
  +++ match commit r with Some c => "HEAD " +++ c +++ LFs | None => "" end
  +++ match branch r with Some b => "branch " +++ b +++ LFs | None => "" end
  +++ (if isMain r then "bare" +++ LFs else "")
  +++ (if isLocked r then "locked" +++ LFs else "")
  +++ LFs.

Fixpoint render (rs : list WorktreeInfo) : string :=
  match rs with
  | [] => ""
  | r :: rs' => render_record r +++ render rs'
  end.

(** The lines of a record in that layout. *)
Definition record_lines (r : WorktreeInfo) : list string :=
  ["worktree " +++ path r]
  ++ match commit r with Some c => ["HEAD " +++ c] | None => [] end
  ++ match branch r with Some b => ["branch " +++ b] | None => [] end
  ++ (if isMain r then ["bare"] else [])
  ++ (if isLocked r then ["locked"] else []).

(** A text of white space only, the empty text included. *)
Definition blank (s : string) : bool := forallb_string is_whitespace s.

(** The fields the listing carries: the derived fields are absent. *)
Definition essential (r : WorktreeInfo) : WorktreeInfo :=
  mkWorktreeInfo (path r) (branch r) (commit r) (isMain r) (isLocked r)
                 None None.

(** A text without line feed. *)
Definition one_line (s : string) : bool := negb (contains LF s).

Definition one_line_opt (s : option string) : bool :=
  match s with Some x => one_line x | None => true end.

(** A record the layout can carry: a non-empty path, and no line feed in
    its path, commit and branch. *)
Definition listable (r : WorktreeInfo) : bool :=
  (truthy (path r) && one_line (path r) && one_line_opt (commit r)
   && one_line_opt (branch r))%bool.

End Porcelain.

(* ===================================================================== *)
(** * The window of the host: terminals, commands, pickers, settings *)
(* ===================================================================== *)

Module Vscode.

(** [CLIToolConfig] of [src/types/index.ts] *)
Record CLIToolConfig : Type := mkCLIToolConfig {
  command : string;
  args : list string;
  enabled : bool;
  tool_env : list (string * string)
}.

(** The options of [vscode.window.createTerminal]. *)
Record TerminalOptions : Type := mkTerminalOptions {
  term_name : string;
  term_cwd : string;
  term_env : option (list (string * string))
}.

(** An item of [vscode.window.showQuickPick]. *)
Record QuickPickItem : Type := mkQuickPickItem {
  qp_label : string;
  qp_description : option string;
  qp_detail : option string
}.

End Vscode.

(** What the sources reach of the window, over the same state [Env] as
    [Host]: the [cliTools] setting (the entries of the object, in order),
    [createTerminal] (it gives a new terminal, or throws), [terminal.show()]
    and [terminal.sendText(text)], [vscode.commands.executeCommand] (it
    resolves or rejects), [showQuickPick] (the index of the item the user
    picks among those offered, or [None]), [WorktreeProvider.refresh()] and
    the clock of [new Date()]. *)
Class Window (Env : Type) : Type := {
  win_cliTools : Env -> list (string * Vscode.CLIToolConfig);
  win_createTerminal :
    Vscode.TerminalOptions -> Env -> (Exn + TerminalTracker.Terminal) * Env;
  win_show : TerminalTracker.Terminal -> Env -> Env;
  win_sendText : TerminalTracker.Terminal -> string -> Env -> Env;
  win_executeCommand : string -> list string -> Env -> (Exn + unit) * Env;
  win_showQuickPick :
    list Vscode.QuickPickItem -> string -> Env -> option nat * Env;
  win_refresh : Env -> Env;
  win_now : Env -> Z
}.

Module Desk.
Import Effects.

Section WithWindow.
Context {Env : Type} {H : Host Env} {W : Window Env}.
Local Open Scope js_scope.

(** A call of the window that may throw and may change the state. *)
Definition act {A : Type} (f : Env -> (Exn + A) * Env) : M Env A :=
  fun w => let (r, e') := f (env w) in
           (r, mkWorld e' (answers w) (ui w) (console w) (gitlog w)
                       (tracker w)).

(** A call of the window that only changes the state. *)
Definition act_ (f : Env -> Env) : M Env unit :=
  fun w => (inr tt, mkWorld (f (env w)) (answers w) (ui w) (console w)
                            (gitlog w) (tracker w)).

(** A reading of the state. *)
Definition peek {A : Type} (f : Env -> A) : M Env A :=
  fun w => (inr (f (env w)), w).

(** A mutation of the session registry. *)
Definition update_tracker (f : TerminalTracker.t -> TerminalTracker.t)
  : M Env unit :=
  fun w => (inr tt, mkWorld (env w) (answers w) (ui w) (console w)
                            (gitlog w) (f (tracker w))).

(** [await vscode.window.showQuickPick(items, {placeHolder})]: the item
    picked, [None] for [undefined]. *)
Definition showQuickPick {A : Type} (items : list A)
  (render : A -> Vscode.QuickPickItem) (placeHolder : string)
  : M Env (option A) :=
  choice <- act (fun e =>
                   let (c, e') := win_showQuickPick (map render items)
                                                    placeHolder e in
                   (inr c, e')) ;;
  ret (match choice with
       | Some i => nth_error items i
       | None => None
       end).

End WithWindow.
End Desk.

(* ===================================================================== *)
(** * Sessions and creation, the rest of [WorktreeManager] *)
(* ===================================================================== *)

Module Sessions.
Import JsString Effects Desk.

Section WithWindow.
Context {Env : Type} {H : Host Env} {W : Window Env} {B : Builtins}.
Local Open Scope js_scope.

(** The second field of the constructor. *)
Variable rootPath : string.

(** [cliTools[name]]: the value of the entry, if the object has it. *)
Fixpoint tool_named (toolName : string)
  (cliTools : list (string * Vscode.CLIToolConfig))
  : option Vscode.CLIToolConfig :=
  match cliTools with
  | [] => None
  | (k, cfg) :: rest =>
      if String.eqb k toolName then Some cfg else tool_named toolName rest
  end.

(** [openTerminal(worktreePath)] *)
Definition openTerminal (worktreePath : string) : M Env unit :=
  let name := path_basename worktreePath in
  terminal <- act (win_createTerminal
                     (Vscode.mkTerminalOptions ("Worktree: " +++ name)
                                               worktreePath None)) ;;
  act_ (win_show terminal).

(** [[command, ...args].join(' ')] *)
Definition command_line (cfg : Vscode.CLIToolConfig) : string :=
  JsText.join " " (Vscode.command cfg :: Vscode.args cfg).

(** The end of [startAICLI], once a tool is selected: the terminal is
    created and shown, the command is sent, the terminal is tracked. *)
Definition launch (worktreePath toolName : string)
  (cfg : Vscode.CLIToolConfig) : M Env unit :=
  let name := path_basename worktreePath in
  terminal <- act (win_createTerminal
                     (Vscode.mkTerminalOptions
                        (toolName +++ ": " +++ name) worktreePath
                        (Some (Vscode.tool_env cfg)))) ;;
  act_ (win_show terminal) ;;;
  let command := command_line cfg in
  act_ (win_sendText terminal command) ;;;
  now <- peek win_now ;;
  update_tracker
    (TerminalTracker.trackTerminal now terminal worktreePath toolName).

(** The branch of [startAICLI] without a name: the user chooses among the
    enabled tools. *)
Definition pick_and_launch (worktreePath : string)
  (cliTools : list (string * Vscode.CLIToolConfig)) : M Env unit :=
  let enabledTools :=
    filter (fun entry => Vscode.enabled (snd entry)) cliTools in
  if Nat.eqb (length enabledTools) 0 then
    show (WarningPrompt "No AI CLI tools are enabled" [])
  else
    selected <- showQuickPick enabledTools
                  (fun entry =>
                     Vscode.mkQuickPickItem
                       (fst entry) (Some (Vscode.command (snd entry))) None)
                  "Select AI CLI to start" ;;
    match selected with
    | None => ret tt
    | Some (label, cfg) => launch worktreePath label cfg
    end.

(** [startAICLI(worktreePath, cliToolName?)].  Every early [return] of the
    source is a branch that ends here.  An empty name is falsy, like a
    missing one. *)
Definition startAICLI (worktreePath : string) (cliToolName : option string)
  : M Env unit :=
  cliTools <- peek win_cliTools ;;
  if truthy_opt cliToolName then
    let toolName := JsText.join_opt cliToolName in
    match tool_named toolName cliTools with
    | Some cfg =>
        if Vscode.enabled cfg then launch worktreePath toolName cfg
        else show (ErrorMessage
                     ("CLI tool " +++ dquote +++ toolName +++ dquote
                      +++ " is not enabled"))
    | None =>
        show (ErrorMessage
                ("CLI tool " +++ dquote +++ toolName +++ dquote
                 +++ " is not enabled"))
    end
  else pick_and_launch worktreePath cliTools.

(** [startCLITools(worktreePath, cliToolNames)], for names that are not
    empty.  With such a name [startAICLI] has no [await]: each call made by
    [map] runs to its end before the next one is made, so the calls settle
    in the order of the names; that is the order [promise_all] follows on
    the empty schedule.  (An empty name is falsy and opens the picker,
    whose [await] lets the later calls run first; the theorems leave that
    case out.) *)
Definition startCLITools (worktreePath : string) (cliToolNames : list string)
  : M Env (list unit) :=
  promise_all []
    (map (fun toolName => startAICLI worktreePath (Some toolName))
         cliToolNames).

(** [createWorktree(options)]; the messages of [progress.report] are
    recorded as [Progress] events. *)
Definition createWorktree (options : WorktreeCreateOptions) : M Env bool :=
  try_catch
    (let fullPath := path_join [rootPath; basePath options; name options] in
     withProgress
       ("Creating worktree " +++ dquote +++ name options +++ dquote +++ "...")
       (show (Progress "Creating Git worktree...") ;;;
        result <- GitService.createWorktree
                    fullPath (opt_branch options) (createBranch options) ;;
        (if negb (success result)
         then throw (ErrorObj "Error"
                       (WorktreeManager.error_or
                          result "Failed to create worktree"))
         else ret tt) ;;;
        (if openInNewWindow options then
           show (Progress "Opening VSCode window...") ;;;
           act (win_executeCommand "vscode.openFolder" [fullPath; "true"])
         else ret tt) ;;;
        (if (autoStartTerminal options
             && negb (Nat.eqb (length (cliTools options)) 0))%bool then
           show (Progress "Starting AI CLI tools...") ;;;
           startCLITools fullPath (cliTools options) ;;;
           ret tt
         else ret tt)) ;;;
     show (Information
             (check_mark +++ " Worktree " +++ dquote +++ name options
              +++ dquote +++ " created successfully")) ;;;
     ret true)
    (fun error =>
       show (ErrorMessage
               ("Failed to create worktree: "
                +++ WorktreeManager.error_text error)) ;;;
       ret false).

End WithWindow.
End Sessions.

(* ===================================================================== *)
(** * The tree items, the rest of [WorktreeProvider] *)
(* ===================================================================== *)

Module TreeView.
Import JsString Effects Desk.

(** [vscode.ThemeIcon]: the identifier and the theme colour. *)
Record ThemeIcon : Type := mkIcon {
  icon_id : string;
  icon_color : string
}.

(** [WorktreeTreeItem], with what its constructor computes. *)
Record TreeItem : Type := mkTreeItem {
  worktree : WorktreeInfo;
  label : string;
  tooltip : string;
  description : string;
  iconPath : ThemeIcon;
  contextValue : string;
  command_arguments : list string
}.

(** The [TypeError] of a property read on [undefined]. *)
Definition undefined_read (property : string) : Exn :=
  ErrorObj "TypeError"
           ("Cannot read properties of undefined (reading '" +++ property
            +++ "')").

(** [activeCLIs && activeCLIs.length > 0] *)
Definition has_sessions (wt : WorktreeInfo) : bool :=
  match activeCLIs wt with
  | Some l => negb (Nat.eqb (length l) 0)
  | None => false
  end.

(** [activeCLIs.join(', ')] *)
Definition sessions_text (wt : WorktreeInfo) : string :=
  match activeCLIs wt with
  | Some l => JsText.join ", " l
  | None => ""
  end.

Section WithBuiltins.
Context {B : Builtins}.

(** [buildTooltip()]: [this.worktree.commit.substring(0, 7)] throws when the
    record has no commit. *)
Definition buildTooltip (wt : WorktreeInfo) : Exn + string :=
  match commit wt with
  | None => inl (undefined_read "substring")
  | Some c =>
      let lines :=
        ["Path: " +++ path wt;
         "Branch: " +++ JsText.show_opt (branch wt);
         "Commit: " +++ JsText.take 7 c] in
      let lines :=
        match changes wt with
        | Some n => lines ++ ["Changes: " +++ of_Z n +++ " file(s)"]
        | None => lines
        end in
      let lines :=
        if has_sessions wt
        then lines ++ ["Running: " +++ sessions_text wt]
        else lines in
      let lines := if isMain wt then lines ++ ["(Main worktree)"] else lines in
      let lines :=
        if isLocked wt then lines ++ [JsText.warning_sign +++ " Locked"]
        else lines in
      inr (JsText.join (String LF "") lines)
  end.

(** [buildDescription()] *)
Definition buildDescription (wt : WorktreeInfo) : string :=
  let parts := [JsText.join_opt (branch wt)] in
  let parts :=
    match changes wt with
    | Some n =>
        if n >? 0
        then parts ++ [of_Z n +++ " change" +++ (if n >? 1 then "s" else "")]
        else parts
    | None => parts
    end in
  let parts :=
    if has_sessions wt
    then parts ++ [JsText.robot +++ " " +++ sessions_text wt]
    else parts in
  JsText.join (" " +++ JsText.bullet +++ " ") parts.

(** [getIcon()] *)
Definition getIcon (wt : WorktreeInfo) : ThemeIcon :=
  if isMain wt then mkIcon "home" "charts.blue"
  else if isLocked wt then mkIcon "lock" "charts.red"
  else if has_sessions wt then mkIcon "robot" "charts.purple"
  else if WorktreeManager.hasChanges wt
       then mkIcon "git-branch" "charts.yellow"
       else mkIcon "git-branch" "charts.green".

(** [new WorktreeTreeItem(worktree, None)] *)
Definition new_item (wt : WorktreeInfo) : Exn + TreeItem :=
  match buildTooltip wt with
  | inl e => inl e
  | inr tip =>
      inr (mkTreeItem wt (path_basename (path wt)) tip (buildDescription wt)
                      (getIcon wt) "worktree" [path wt])
  end.

(** [wts.map(wt => new WorktreeTreeItem(wt, None))]: the first constructor
    that throws ends the map. *)
Fixpoint new_items (wts : list WorktreeInfo) : Exn + list TreeItem :=
  match wts with
  | [] => inr []
  | wt :: wts' =>
      match new_item wt with
      | inl e => inl e
      | inr item =>
          match new_items wts' with
          | inl e => inl e
          | inr items => inr (item :: items)
          end
      end
  end.

End WithBuiltins.

Section WithHost.
Context {Env : Type} {H : Host Env} {B : Builtins}.
Local Open Scope js_scope.

(** [WorktreeProvider.getChildren(element)]; [sched] is the order in
    which the lookups that [Promise.all] waits for come back.  The items
    are built inside the [try]: a constructor that throws is caught. *)
Definition getChildren (sched : list nat) (element : option TreeItem)
  : M Env (list TreeItem) :=
  match element with
  | Some _ => ret []
  | None =>
      try_catch
        (worktrees <- GitService.listWorktrees ;;
         enrichedWorktrees <-
           promise_all sched
             (map (fun wt =>
                     changes <- GitService.getChangesCount (path wt) ;;
                     activeCLIs <- read_tracker
                                     (TerminalTracker.getActiveCLIs (path wt)) ;;
                     ret (WorktreeProvider.enrich wt changes activeCLIs))
                  worktrees) ;;
         let enrichedWorktrees :=
           JsArray.sort WorktreeProvider.compare_items enrichedWorktrees in
         (fun w => (new_items enrichedWorktrees, w)))
        (fun error =>
           show (ErrorMessage
                   ("Failed to load worktrees: " +++ Exn_toString error)) ;;;
           ret [])
  end.

End WithHost.
End TreeView.

(* ===================================================================== *)
(** * The commands of [src/extension.ts] that list and remove *)
(* ===================================================================== *)

Module Commands.
Import JsString Effects Desk.

Section WithWindow.
Context {Env : Type} {H : Host Env} {W : Window Env} {B : Builtins}.
Local Open Scope js_scope.

(** The item the pickers show for a record. *)
Definition removal_item (wt : WorktreeInfo) : Vscode.QuickPickItem :=
  Vscode.mkQuickPickItem (JsText.last_segment_or_path (path wt))
                         (branch wt) (Some (path wt)).

(** The command [aiDevWorkspace.removeWorktreeItem]. *)
Definition removeWorktreeItem (item : TreeView.TreeItem) : M Env unit :=
  success <- WorktreeManager.removeWorktree (TreeView.worktree item) ;;
  if success then act_ win_refresh else ret tt.

(** [removeWorktreeFromPalette] *)
Definition removeWorktreeFromPalette : M Env unit :=
  worktrees <- GitService.listWorktrees ;;
  let nonMainWorktrees := filter (fun wt => negb (isMain wt)) worktrees in
  if Nat.eqb (length nonMainWorktrees) 0 then
    show (Information "No removable worktrees found")
  else
    selected <- showQuickPick nonMainWorktrees removal_item
                  "Select worktree to remove" ;;
    match selected with
    | None => ret tt
    | Some wt =>
        success <- WorktreeManager.removeWorktree wt ;;
        if success then act_ win_refresh else ret tt
    end.

(** The item of the listing command: [wt.commit.substring(0, 7)] throws
    when the record has no commit. *)
Definition listing_item (wt : WorktreeInfo) : Exn + Vscode.QuickPickItem :=
  match commit wt with
  | None => inl (TreeView.undefined_read "substring")
  | Some c =>
      inr (Vscode.mkQuickPickItem
             (JsText.last_segment_or_path (path wt)) (branch wt)
             (Some (path wt +++ " (" +++ JsText.take 7 c +++ ")")))
  end.

Fixpoint listing_items (wts : list WorktreeInfo)
  : Exn + list (Vscode.QuickPickItem * WorktreeInfo) :=
  match wts with
  | [] => inr []
  | wt :: wts' =>
      match listing_item wt with
      | inl e => inl e
      | inr item =>
          match listing_items wts' with
          | inl e => inl e
          | inr items => inr ((item, wt) :: items)
          end
      end
  end.

(** [listWorktrees(gitService)], the command of the palette. *)
Definition listWorktrees : M Env unit :=
  worktrees <- GitService.listWorktrees ;;
  if Nat.eqb (length worktrees) 0 then
    show (Information "No worktrees found")
  else
    items <- (fun w => (listing_items worktrees, w)) ;;
    selected <- showQuickPick items fst "Select worktree" ;;
    match selected with
    | None => ret tt
    | Some (item, wt) =>
        show (Information
                ("Worktree: " +++ Vscode.qp_label item
                 +++ String LF "" +++ "Branch: "
                 +++ JsText.show_opt (Vscode.qp_description item)
                 +++ String LF "" +++ "Path: " +++ path wt))
    end.

End WithWindow.
End Commands.

(* ===================================================================== *)
(** * The texts [removeWorktree] shows *)
(* ===================================================================== *)

Module RemovalTexts.
Import JsString.

Section WithBuiltins.
Context {B : Builtins}.

(** The question of the modal prompt. *)
Definition question (worktree : WorktreeInfo) : string :=
  let name := path_basename (path worktree) in
  if WorktreeManager.hasChanges worktree
  then "Worktree " +++ dquote +++ name +++ dquote +++ " has "
       +++ WorktreeManager.changes_text worktree
       +++ " uncommitted change(s). Remove anyway?"
  else "Remove worktree " +++ dquote +++ name +++ dquote +++ "?".

(** The title of the progress notification. *)
Definition title (worktree : WorktreeInfo) : string :=
  "Removing worktree " +++ dquote +++ path_basename (path worktree)
  +++ dquote +++ "...".

(** The notification of a removal that went through. *)
Definition removed (worktree : WorktreeInfo) : string :=
  check_mark +++ " Worktree " +++ dquote +++ path_basename (path worktree)
  +++ dquote +++ " removed".

(** The notification of a removal the tool refused with the thrown value
    [e]: an empty message gives way to the fixed text. *)
Definition refused (e : Exn) : string :=
  "Failed to remove worktree: "
  +++ (if truthy (GitService.getErrorMessage e)
       then GitService.getErrorMessage e
       else "Failed to remove worktree").

End WithBuiltins.
End RemovalTexts.

(* ===================================================================== *)
(** * Counting the sessions of the registry *)
(* ===================================================================== *)

Module RegistryCount.
Import TerminalTracker.

(** All the sessions, bucket after bucket. *)
Definition sessions (st : t) : list TrackedTerminal :=
  flat_map snd (terminals st).

(** Some session is attached to the terminal [h]. *)
Definition tracked (h : Terminal) (st : t) : bool :=
  existsb (fun e => existsb (fun x => Nat.eqb (terminal x) h) (snd e))
          (terminals st).

End RegistryCount.

(* ===================================================================== *)
(** * Worlds that differ by the console only *)
(* ===================================================================== *)

Module Frames.
Import Effects.

Section WithHost.
Context {Env : Type} {H : Host Env}.

(** [w'] is [w] but for the lines written to the console. *)
Definition same_but_console (w w' : World Env) : Prop :=
  env w' = env w /\ tracker w' = tracker w /\ ui w' = ui w /\
  gitlog w' = gitlog w /\ answers w' = answers w.

(** The arguments of the listing subcommand. *)
Definition list_args : list string := ["worktree"; "list"; "--porcelain"].

End WithHost.
End Frames.

(* ===================================================================== *)
(** * A sample desk: a repository, the settings and the window *)
(* ===================================================================== *)

Module SampleDesk.
Import JsString.

(** A repository whose entries are all checked out. *)
Definition checked_out : Sample.Repo :=
  Sample.mkRepo "git version 2.39.3 (Apple Git-145)"
         ("worktree /repo" +++ Sample.LFs +++ "HEAD 9f8e7d6c5b4a" +++ Sample.LFs
          +++ "branch refs/heads/main" +++ Sample.LFs +++ Sample.LFs
          +++ "worktree /wt/feature" +++ Sample.LFs +++ "HEAD 1a2b3c4"
          +++ Sample.LFs +++ "branch refs/heads/feature" +++ Sample.LFs)
         ["main"; "feature"]
         ["origin/main"]
         [("/wt/feature", ["a.ts"])]
         ["/repo"; "/wt/feature"]
         false.

End SampleDesk.

(* ===================================================================== *)
(** * What the theorems ask of the window, and tasks run one by one *)
(* ===================================================================== *)

Module WindowSpec.
Import JsString Effects.

Section WithWindow.
Context {Env : Type} {H : Host Env} {W : Window Env}.

(** [createTerminal] gives a terminal, whatever the options. *)
Definition terminals_open : Prop :=
  forall o e, exists t, fst (win_createTerminal o e) = inr t.

(** Terminals do not touch the [cliTools] setting. *)
Definition settings_kept : Prop :=
  forall e,
    (forall o, win_cliTools (snd (win_createTerminal o e)) = win_cliTools e) /\
    (forall t, win_cliTools (win_show t e) = win_cliTools e) /\
    (forall t text, win_cliTools (win_sendText t text e) = win_cliTools e).

(** The tool does not touch the [cliTools] setting. *)
Definition tool_keeps_settings : Prop :=
  forall args e, win_cliTools (snd (git_raw args e)) = win_cliTools e.

(** [cliTools[name] && cliTools[name].enabled] *)
Definition tool_enabled (cliTools : list (string * Vscode.CLIToolConfig))
  (toolName : string) : bool :=
  match Sessions.tool_named toolName cliTools with
  | Some cfg => Vscode.enabled cfg
  | None => false
  end.

(** The message for a tool that is not enabled. *)
Definition not_enabled (toolName : string) : UiEvent :=
  ErrorMessage ("CLI tool " +++ dquote +++ toolName +++ dquote
                +++ " is not enabled").

(** What a call of [startAICLI] with a name leaves. *)
Definition started (p name : string) (w w' : World Env) : Prop :=
  let enabled := tool_enabled (win_cliTools (env w)) name in
  TerminalTracker.getActiveCLIs p (tracker w')
  = TerminalTracker.getActiveCLIs p (tracker w)
    ++ (if enabled then [name] else []) /\
  (forall q, q <> p ->
             TerminalTracker.getTerminals q (tracker w')
             = TerminalTracker.getTerminals q (tracker w)) /\
  ui w' = ui w ++ (if enabled then [] else [not_enabled name]) /\
  win_cliTools (env w') = win_cliTools (env w) /\
  gitlog w' = gitlog w.

(** The tasks run one after the other, each to its end. *)
Fixpoint in_order {A : Type} (tasks : list (M Env A)) : M Env (list A) :=
  match tasks with
  | [] => ret []
  | task :: tasks' =>
      bind task (fun v => bind (in_order tasks') (fun vs => ret (v :: vs)))
  end.

End WithWindow.
End WindowSpec.

Module SampleWindow.
Import JsString.

(** A window over a repository: the setting, the terminals created (a
    terminal is its index), what was shown and sent, the commands run, the
    picks the user will make, the refreshes asked for and the clock. *)
Record Desk : Type := mkDesk {
  repository : Sample.Repo;
  settings : list (string * Vscode.CLIToolConfig);
  opened : list Vscode.TerminalOptions;
  shown : list TerminalTracker.Terminal;
  sent : list (TerminalTracker.Terminal * string);
  commands : list (string * list string);
  picks : list (option nat);
  refreshes : nat;
  clock : Z
}.

Definition with_repository (r : Sample.Repo) (d : Desk) : Desk :=
  mkDesk r (settings d) (opened d) (shown d) (sent d) (commands d) (picks d)
         (refreshes d) (clock d).

#[export] Instance desk_host : Host Desk := {
  git_raw args d :=
    let (r, repo') := git_raw (Host := Sample.host) args (repository d) in
    (r, with_repository repo' d);
  git_branchLocal d := git_branchLocal (Host := Sample.host) (repository d);
  git_branch args d := git_branch (Host := Sample.host) args (repository d);
  git_status p d := git_status (Host := Sample.host) p (repository d);
  fs_stat p d := fs_stat (Host := Sample.host) p (repository d)
}.

#[export] Instance desk_window : Window Desk := {
  win_cliTools := settings;
  win_createTerminal o d :=
    (inr (length (opened d)),
     mkDesk (repository d) (settings d) (opened d ++ [o]) (shown d) (sent d)
            (commands d) (picks d) (refreshes d) (clock d));
  win_show t d :=
    mkDesk (repository d) (settings d) (opened d) (shown d ++ [t]) (sent d)
           (commands d) (picks d) (refreshes d) (clock d);
  win_sendText t text d :=
    mkDesk (repository d) (settings d) (opened d) (shown d)
           (sent d ++ [(t, text)]) (commands d) (picks d) (refreshes d)
           (clock d);
  win_executeCommand c args d :=
    (inr tt,
     mkDesk (repository d) (settings d) (opened d) (shown d) (sent d)
            (commands d ++ [(c, args)]) (picks d) (refreshes d) (clock d));
  win_showQuickPick _ _ d :=
    (match picks d with p :: _ => p | [] => None end,
     mkDesk (repository d) (settings d) (opened d) (shown d) (sent d)
            (commands d) (tl (picks d)) (refreshes d) (clock d));
  win_refresh d :=
    mkDesk (repository d) (settings d) (opened d) (shown d) (sent d)
           (commands d) (picks d) (S (refreshes d)) (clock d);
  win_now := clock
}.

(** The setting: two tools enabled, one disabled. *)
Definition tools : list (string * Vscode.CLIToolConfig) :=
  [("claude", Vscode.mkCLIToolConfig "claude" [] true []);
   ("aider", Vscode.mkCLIToolConfig "aider" ["--no-auto-commits"] true
               [("AIDER_DARK_MODE", "1")]);
   ("gemini", Vscode.mkCLIToolConfig "gemini" [] false [])].

Definition desk (r : Sample.Repo) (picks : list (option nat)) : Desk :=
  mkDesk r tools [] [] [] [] picks 0 1700000000000.

Definition desk_world (r : Sample.Repo) (picks : list (option nat))
  (answers : list (option string)) : Effects.World Desk :=
  Effects.mkWorld (desk r picks) answers [] [] [] TerminalTracker.initial.

End SampleWindow.

(* ===================================================================== *)
(** * The texts and the arguments of [createWorktree] *)
(* ===================================================================== *)

Module CreationTexts.
Import JsString.

Section WithBuiltins.
Context {B : Builtins}.

(** [path.join(rootPath, options.basePath, options.name)] *)
Definition fullPath (rootPath : string) (options : WorktreeCreateOptions)
  : string :=
  path_join [rootPath; basePath options; name options].

(** The argument vector the gateway passes to the tool. *)
Definition add_args (rootPath : string) (options : WorktreeCreateOptions)
  : list string :=
  if createBranch options
  then ["worktree"; "add"; "-b"; opt_branch options;
        fullPath rootPath options]
  else ["worktree"; "add"; fullPath rootPath options; opt_branch options].

(** The title of the progress notification. *)
Definition title (options : WorktreeCreateOptions) : string :=
  "Creating worktree " +++ dquote +++ name options +++ dquote +++ "...".

(** The notification of a creation that went through. *)
Definition created (options : WorktreeCreateOptions) : string :=
  check_mark +++ " Worktree " +++ dquote +++ name options +++ dquote
  +++ " created successfully".

(** The notification of a creation the tool refused with the thrown value
    [e]: an empty message gives way to the fixed text. *)
Definition refused (e : Exn) : string :=
  "Failed to create worktree: "
  +++ (if truthy (GitService.getErrorMessage e)
       then GitService.getErrorMessage e
       else "Failed to create worktree").

End WithBuiltins.
End CreationTexts.

(* ===================================================================== *)
(** * Properties *)
(* ===================================================================== *)

(** ** Facts about the parser *)

Module ParserFacts.
Import JsString Parser Blocks.

Lemma startsWith_exists (p s : string) :
  startsWith s p = true -> exists rest, s = p +++ rest.
Proof.
  revert s. induction p as [|b p IH]; intros s Hp.
  - now exists s.
  - destruct s as [|a s']; simpl in Hp; [discriminate|].
    apply andb_true_iff in Hp. destruct Hp as [Hab Hp].
    apply Ascii.eqb_eq in Hab. subst a.
    destruct (IH _ Hp) as [rest ->]. now exists rest.
Qed.


Lemma step_header (out : list WorktreeInfo) (cur : PartialWorktree) (line : string) :
  is_header line = true ->
  step (out, cur) line =
  (flush out cur,
   mkPartial (Some (substring_from 9 line)) None None (Some false) (Some false)).
Proof. unfold is_header, step. intros ->. reflexivity. Qed.

Lemma step_attribute (out : list WorktreeInfo) (cur : PartialWorktree) (line : string) :
  is_header line = false ->
  step (out, cur) line = (out, snd (step ([], cur) line)).
Proof.
  unfold is_header, step. intros ->.
  repeat match goal with |- context [if ?c then _ else _] => destruct c end;
    reflexivity.
Qed.

Lemma flush_app (out : list WorktreeInfo) (cur : PartialWorktree) :
  flush out cur = out ++ flush [] cur.
Proof.
  unfold flush. destruct (truthy_opt (p_path cur)); simpl;
    [reflexivity | now rewrite app_nil_r].
Qed.

(** What one attribute line does to the accumulator: the five tests of
    [step] exclude each other, so each field depends on its own test. *)
Lemma step_attribute_fields (out : list WorktreeInfo) (cur : PartialWorktree)
  (line : string) :
  is_header line = false ->
  step (out, cur) line =
  (out,
   mkPartial (p_path cur)
     (if startsWith line "branch " then Some (substring_from 7 line)
      else p_branch cur)
     (if startsWith line "HEAD " then Some (substring_from 5 line)
      else p_commit cur)
     (if String.eqb line "bare" then Some true else p_isMain cur)
     (if startsWith line "locked" then Some true else p_isLocked cur)).
Proof.
  unfold is_header, step. intros ->.
  destruct (startsWith line "HEAD ") eqn:Hhead.
  { apply startsWith_exists in Hhead as [s' ->]. reflexivity. }
  destruct (startsWith line "branch ") eqn:Hbranch.
  { apply startsWith_exists in Hbranch as [s' ->]. reflexivity. }
  destruct (String.eqb line "bare") eqn:Hbare.
  { apply String.eqb_eq in Hbare as ->. reflexivity. }
  destruct (startsWith line "locked") eqn:Hlocked; [reflexivity|].
  now destruct cur.
Qed.

Lemma attributes_not_header (lines : list string) :
  Forall (fun line => is_header line = false) (attributes lines).
Proof.
  induction lines as [|line lines IH]; simpl; [constructor|].
  destruct (is_header line) eqn:Hh; constructor; assumption.
Qed.


Lemma absorb_attributes (attrs : list string) :
  Forall (fun line => is_header line = false) attrs ->
  forall (out : list WorktreeInfo) (cur : PartialWorktree),
  fold_left step attrs (out, cur) =
  (out,
   mkPartial (p_path cur)
     (last_value_from "branch " (p_branch cur) attrs)
     (last_value_from "HEAD " (p_commit cur) attrs)
     (if has_bare attrs then Some true else p_isMain cur)
     (if has_locked attrs then Some true else p_isLocked cur)).
Proof.
  induction 1 as [|line attrs Hline _ IH]; intros out cur.
  - now destruct cur.
  - cbn [fold_left]. rewrite step_attribute_fields by assumption.
    rewrite IH. cbn [p_path p_branch p_commit p_isMain p_isLocked].
    unfold last_value_from, has_bare, has_locked. cbn [fold_left existsb String.length].
    destruct (String.eqb line "bare"), (startsWith line "locked"); cbn [orb];
      try reflexivity;
      repeat match goal with
             | |- context [if ?c then _ else _] => destruct c
             end; reflexivity.
Qed.



Lemma flush_block (p : string) (attrs : list string) :
  Forall (fun line => is_header line = false) attrs ->
  forall out,
  finish (fold_left step attrs
            (out, mkPartial (Some p) None None (Some false) (Some false)))
  = out ++ records [(p, attrs)].
Proof.
  intros Hattrs out. rewrite absorb_attributes by assumption.
  unfold finish, flush, records, has_path, record_of, as_WorktreeInfo.
  cbn [p_path p_branch p_commit p_isMain p_isLocked truthy_opt filter fst snd map].
  destruct (truthy p); cbn [map]; [|now rewrite app_nil_r].
  unfold last_value, last_value_from.
  now destruct (has_bare attrs), (has_locked attrs).
Qed.

Lemma parse_loop_blocks (lines : list string) :
  forall (out : list WorktreeInfo) (cur : PartialWorktree),
  finish (fold_left step lines (out, cur)) =
  finish (fold_left step (attributes lines) (out, cur))
  ++ records (blocks lines).
Proof.
  induction lines as [|line lines IH]; intros out cur.
  - cbn [fold_left attributes blocks records filter map]. now rewrite app_nil_r.
  - cbn [fold_left attributes blocks].
    destruct (is_header line) eqn:Hh.
    + rewrite step_header by assumption. rewrite IH.
      cbn [fold_left].
      rewrite (flush_block _ _ (attributes_not_header lines)).
      unfold finish at 1. cbn [fst snd].
      unfold records. cbn [filter].
      destruct (has_path (substring_from 9 line, attributes lines));
        cbn [map app]; now rewrite <- ?app_assoc.
    + cbn [fold_left]. rewrite step_attribute by assumption. apply IH.
Qed.

(** parseWorktreeList yields the records of the blocks whose header carries
    a path, in order. *)
Lemma parseWorktreeList_blocks (output : string) :
  parseWorktreeList output = records (blocks (lines_of output)).
Proof.
  unfold parseWorktreeList.
  pose proof (parse_loop_blocks (lines_of output) [] empty_partial) as Hloop.
  rewrite (absorb_attributes _ (attributes_not_header _)) in Hloop.
  unfold finish in Hloop.
  destruct (fold_left step (lines_of output) ([], empty_partial)) as [out cur].
  exact Hloop.
Qed.
End ParserFacts.

(** ** Facts about versions *)

Module VersionFacts.
Import JsString Version VersionSpec Effects.


Lemma js_lt_integers (a b : Z) :
  js_lt (Fin (inject_Z a)) (Fin (inject_Z b)) = (a <? b).
Proof.
  unfold js_lt, Qle_bool. cbn [Qnum Qden inject_Z].
  rewrite !Z.mul_1_r. 
  destruct (Z.leb_spec b a), (Z.ltb_spec a b); try reflexivity; lia.
Qed.

Lemma split_digit_run (d rest : string) :
  forallb_string is_digit d = true ->
  split "." (d +++ String "." rest) = d :: split "." rest.
Proof.
  induction d as [|x d IH]; intros Hd.
  - reflexivity.
  - cbn [forallb_string] in Hd. apply andb_true_iff in Hd as [Hx Hd].
    cbn [append split]. rewrite (IH Hd).
    destruct (Ascii.eqb x ".") eqn:Hdot; [|reflexivity].
    apply Ascii.eqb_eq in Hdot. subst x. discriminate Hx.
Qed.

Lemma split_digits (d : string) :
  forallb_string is_digit d = true -> split "." d = [d].
Proof.
  induction d as [|x d IH]; intros Hd.
  - reflexivity.
  - cbn [forallb_string] in Hd. apply andb_true_iff in Hd as [Hx Hd].
    cbn [split]. rewrite (IH Hd).
    destruct (Ascii.eqb x ".") eqn:Hdot; [|reflexivity].
    apply Ascii.eqb_eq in Hdot. subst x. discriminate Hx.
Qed.

Lemma split_dotted (major minor patch : string) :
  is_decimal major = true -> is_decimal minor = true ->
  is_decimal patch = true ->
  split "." (dotted major minor patch) = [major; minor; patch].
Proof.
  unfold is_decimal, dotted. intros H1 H2 H3.
  apply andb_true_iff in H1 as [_ H1]. apply andb_true_iff in H2 as [_ H2].
  apply andb_true_iff in H3 as [_ H3].
  change ("." +++ minor +++ "." +++ patch)
    with (String "." (minor +++ String "." patch)).
  rewrite (split_digit_run _ _ H1), (split_digit_run _ _ H2).
  now rewrite (split_digits _ H3).
Qed.

Section WithBuiltins.
Context (B : Builtins) (HN : Number_reads_decimals B).

Lemma Number_decimal (d : string) :
  is_decimal d = true -> decimal_value 0 d < 2 ^ 53 ->
  Number d = Fin (inject_Z (decimal_value 0 d)).
Proof.
  unfold is_decimal. intros Hd Hsmall. apply andb_true_iff in Hd as [Ht Hd].
  rewrite (HN d Ht Hd). unfold round_binary64.
  destruct (Z.ltb_spec (decimal_value 0 d) (2 ^ 53)); [reflexivity | lia].
Qed.

Lemma compareVersions_lex (a1 a2 a3 b1 b2 b3 : string) :
  Forall (fun d => is_decimal d = true /\ decimal_value 0 d < 2 ^ 53)
         [a1; a2; a3; b1; b2; b3] ->
  compareVersions (dotted a1 a2 a3) (dotted b1 b2 b3) =
  comparison_sign
    (lex3 (decimal_value 0 a1) (decimal_value 0 a2) (decimal_value 0 a3)
          (decimal_value 0 b1) (decimal_value 0 b2) (decimal_value 0 b3)).
Proof.
  intros Hall.
  rewrite Forall_forall in Hall.
  destruct (Hall a1) as [Ha1 Sa1]; [cbn; tauto|].
  destruct (Hall a2) as [Ha2 Sa2]; [cbn; tauto|].
  destruct (Hall a3) as [Ha3 Sa3]; [cbn; tauto|].
  destruct (Hall b1) as [Hb1 Sb1]; [cbn; tauto|].
  destruct (Hall b2) as [Hb2 Sb2]; [cbn; tauto|].
  destruct (Hall b3) as [Hb3 Sb3]; [cbn; tauto|].
  unfold compareVersions.
  rewrite !split_dotted by assumption. cbn [map].
  rewrite !Number_decimal by assumption.
  unfold compare_from, part, js_gt, lex3. cbn [nth].
  rewrite !js_lt_integers.
  repeat match goal with
         | |- context [?x <? ?y] => destruct (Z.ltb_spec x y)
         end;
    repeat match goal with
           | |- context [?x ?= ?y] => destruct (Z.compare_spec x y)
           end; cbn [comparison_sign]; try reflexivity; lia.
Qed.

Lemma compareVersions_equal_example :
  compareVersions "2.30.0" "2.30.0" = 0.
Proof.
  change "2.30.0" with (dotted "2" "30" "0").
  rewrite compareVersions_lex; [reflexivity|].
  repeat constructor; vm_compute; reflexivity.
Qed.

Lemma compareVersions_numeric_example :
  compareVersions "2.9.0" "2.30.0" = -1.
Proof.
  change "2.30.0" with (dotted "2" "30" "0").
  change "2.9.0" with (dotted "2" "9" "0").
  rewrite compareVersions_lex; [reflexivity|].
  repeat constructor; vm_compute; reflexivity.
Qed.

End WithBuiltins.

(** The pattern of the banner. *)
Lemma span_digits_spec (s : string) :
  s = fst (span_digits s) +++ snd (span_digits s) /\
  forallb_string is_digit (fst (span_digits s)) = true.
Proof.
  induction s as [|c s [IHs IHd]]; [now split|].
  cbn [span_digits]. destruct (is_digit c) eqn:Hc; [|now split].
  destruct (span_digits s) as [ds rest]. cbn [fst snd] in *.
  split; [cbn [append]; now f_equal|].
  cbn [forallb_string]. now rewrite Hc.
Qed.

Lemma digits_dot_spec (s ds rest : string) :
  digits_dot s = Some (ds, rest) ->
  s = ds +++ "." +++ rest /\ is_decimal ds = true.
Proof.
  unfold digits_dot, is_decimal. destruct (span_digits_spec s) as [Hs Hd].
  destruct (span_digits s) as [ds' rest']. cbn [fst snd] in *.
  destruct (truthy ds') eqn:Ht; [|discriminate].
  destruct rest' as [|c rest'']; [discriminate|].
  destruct (Ascii.eqb c ".") eqn:Hc; [|discriminate].
  apply Ascii.eqb_eq in Hc. subst c. intros [= <- <-].
  split; [exact Hs|]. now rewrite Ht, Hd.
Qed.

Lemma append_assoc (a b c : string) : (a +++ b) +++ c = a +++ b +++ c.
Proof. induction a as [|x a IH]; cbn [append]; [reflexivity | now f_equal]. Qed.

Lemma triple_at_spec (s v : string) :
  triple_at s = Some v ->
  exists major minor patch post,
    s = v +++ post /\ v = dotted major minor patch /\
    is_decimal major = true /\ is_decimal minor = true /\
    is_decimal patch = true.
Proof.
  unfold triple_at.
  destruct (digits_dot s) as [[major s1]|] eqn:H1; [|discriminate].
  destruct (digits_dot s1) as [[minor s2]|] eqn:H2; [|discriminate].
  destruct (span_digits_spec s2) as [Hs2 Hd].
  destruct (span_digits s2) as [patch post]. cbn [fst snd] in *.
  destruct (truthy patch) eqn:Ht; [|discriminate]. intros [= <-].
  apply digits_dot_spec in H1 as [-> Hmajor].
  apply digits_dot_spec in H2 as [-> Hminor].
  exists major, minor, patch, post. unfold dotted, is_decimal.
  rewrite Ht, Hd. repeat split; try assumption.
  rewrite Hs2, append_assoc. cbn [append]. now rewrite append_assoc.
Qed.

Lemma startsWith_append (p s : string) :
  startsWith s p = true -> s = p +++ substring_from (String.length p) s.
Proof.
  revert s. induction p as [|b p IH]; intros s Hp; [reflexivity|].
  destruct s as [|a s']; cbn [startsWith] in Hp; [discriminate|].
  apply andb_true_iff in Hp as [Hab Hp]. apply Ascii.eqb_eq in Hab. subst a.
  cbn [String.length substring_from append]. f_equal. now apply IH.
Qed.

(** A match of the pattern: the banner holds [git version ] followed by
    the captured text, which is three runs of digits joined by dots. *)
Lemma match_banner_sound (banner v : string) :
  match_banner banner = Some v ->
  exists before major minor patch after,
    banner = before +++ "git version " +++ v +++ after /\
    v = dotted major minor patch /\
    is_decimal major = true /\ is_decimal minor = true /\
    is_decimal patch = true.
Proof.
  induction banner as [|c banner IH]; cbn [match_banner].
  - cbn. discriminate.
  - destruct (banner_at (String c banner)) as [v'|] eqn:Hat.
    + intros [= ->]. unfold banner_at in Hat.
      destruct (startsWith (String c banner) "git version ") eqn:Hp;
        [|discriminate].
      apply startsWith_append in Hp.
      apply triple_at_spec in Hat
        as (major & minor & patch & post & Hs & Hv & Hd).
      exists "", major, minor, patch, post. split; [|now split].
      cbn [append]. rewrite Hp at 1. cbn [String.length]. now rewrite Hs.
    + intros Hm. destruct (IH Hm)
        as (before & major & minor & patch & post & Hs & Hrest).
      exists (String c before), major, minor, patch, post.
      split; [|exact Hrest]. cbn [append]. now rewrite Hs.
Qed.

Lemma span_digits_app (d post : string) :
  forallb_string is_digit d = true ->
  span_digits (d +++ post) =
  (d +++ fst (span_digits post), snd (span_digits post)).
Proof.
  induction d as [|c d IH]; intros Hd.
  - cbn [append]. now destruct (span_digits post).
  - cbn [forallb_string] in Hd. apply andb_true_iff in Hd as [Hc Hd].
    cbn [append span_digits]. now rewrite Hc, (IH Hd).
Qed.

Lemma truthy_append (a b : string) : truthy a = true -> truthy (a +++ b) = true.
Proof. now destruct a. Qed.

Lemma digits_dot_complete (d rest : string) :
  is_decimal d = true -> digits_dot (d +++ "." +++ rest) = Some (d, rest).
Proof.
  unfold is_decimal, digits_dot. intros Hd.
  apply andb_true_iff in Hd as [Ht Hd].
  rewrite (span_digits_app _ _ Hd). cbn [append span_digits fst snd].
  change (is_digit ".") with false. cbv iota. cbn [fst snd].
  replace (d +++ "") with d; [now rewrite Ht|].
  clear. induction d as [|c d IH]; cbn [append]; [reflexivity | now f_equal].
Qed.

Lemma triple_at_complete (major minor patch post : string) :
  is_decimal major = true -> is_decimal minor = true ->
  is_decimal patch = true ->
  triple_at (dotted major minor patch +++ post) <> None.
Proof.
  intros H1 H2 H3. unfold triple_at, dotted.
  rewrite !append_assoc. cbn [append].
  change (major +++ String "." (minor +++ String "." (patch +++ post)))
    with (major +++ "." +++ (minor +++ "." +++ (patch +++ post))).
  rewrite (digits_dot_complete _ _ H1), (digits_dot_complete _ _ H2).
  unfold is_decimal in H3. apply andb_true_iff in H3 as [Ht Hd].
  rewrite (span_digits_app _ _ Hd). now rewrite (truthy_append _ _ Ht).
Qed.

Lemma startsWith_prefix (p s : string) : startsWith (p +++ s) p = true.
Proof.
  induction p as [|c p IH]; [reflexivity|].
  cbn [append startsWith]. now rewrite Ascii.eqb_refl, IH.
Qed.

Lemma substring_from_prefix (p s : string) :
  substring_from (String.length p) (p +++ s) = s.
Proof. induction p as [|c p IH]; [reflexivity | exact IH]. Qed.

(** Conversely, the pattern finds a match in every banner that holds
    [git version ] followed by three runs of digits joined by dots. *)
Lemma match_banner_complete (before major minor patch after : string) :
  is_decimal major = true -> is_decimal minor = true ->
  is_decimal patch = true ->
  match_banner
    (before +++ "git version " +++ dotted major minor patch +++ after)
  <> None.
Proof.
  intros H1 H2 H3.
  assert (Hat : banner_at ("git version " +++ dotted major minor patch +++ after)
                <> None).
  { unfold banner_at. rewrite startsWith_prefix.
    change 12%nat with (String.length "git version ").
    rewrite substring_from_prefix. now apply triple_at_complete. }
  induction before as [|c before IH].
  - cbn [append] in *.
    destruct (banner_at _) eqn:E in Hat; [|contradiction].
    cbn [match_banner]. cbn [append] in E. rewrite E. discriminate.
  - change (String c before +++ ?x) with (String c (before +++ x)).
    cbn [match_banner].
    destruct (banner_at (String c _)); [discriminate | exact IH].
Qed.
End VersionFacts.

(** ** Facts about the banner pattern *)

Module BannerFacts.
Import JsString Version VersionSpec BannerSpec.

Lemma span_digits_maximal (s : string) :
  leading_digit (snd (span_digits s)) = false.
Proof.
  induction s as [|c s IH]; [reflexivity|].
  cbn [span_digits]. destruct (is_digit c) eqn:Hc.
  - now destruct (span_digits s).
  - cbn [snd leading_digit]. exact Hc.
Qed.

Lemma span_digits_none (s : string) :
  leading_digit s = false -> span_digits s = (EmptyString, s).
Proof.
  destruct s as [|c s]; [reflexivity|]. cbn [leading_digit span_digits].
  now intros ->.
Qed.

Lemma append_empty (s : string) : s +++ "" = s.
Proof. induction s as [|c s IH]; cbn [append]; [reflexivity | now f_equal]. Qed.

Lemma triple_at_whole (major minor patch after : string) :
  is_decimal major = true -> is_decimal minor = true ->
  is_decimal patch = true -> leading_digit after = false ->
  triple_at (dotted major minor patch +++ after)
  = Some (dotted major minor patch).
Proof.
  intros H1 H2 H3 Hafter. unfold triple_at, dotted.
  rewrite !VersionFacts.append_assoc. cbn [append].
  change (major +++ String "." (minor +++ String "." (patch +++ after)))
    with (major +++ "." +++ (minor +++ "." +++ (patch +++ after))).
  rewrite (VersionFacts.digits_dot_complete _ _ H1),
    (VersionFacts.digits_dot_complete _ _ H2).
  unfold is_decimal in H3. apply andb_true_iff in H3 as [Ht Hd].
  rewrite (VersionFacts.span_digits_app _ _ Hd), (span_digits_none _ Hafter).
  cbn [fst snd]. now rewrite append_empty, Ht.
Qed.

Lemma triple_at_maximal (s v : string) :
  triple_at s = Some v ->
  exists major minor patch after,
    s = v +++ after /\ v = dotted major minor patch /\
    is_decimal major = true /\ is_decimal minor = true /\
    is_decimal patch = true /\ leading_digit after = false.
Proof.
  unfold triple_at.
  destruct (digits_dot s) as [[major s1]|] eqn:H1; [|discriminate].
  destruct (digits_dot s1) as [[minor s2]|] eqn:H2; [|discriminate].
  destruct (VersionFacts.span_digits_spec s2) as [Hs2 Hd].
  pose proof (span_digits_maximal s2) as Hmax.
  destruct (span_digits s2) as [patch after]. cbn [fst snd] in *.
  destruct (truthy patch) eqn:Ht; [|discriminate]. intros [= <-].
  apply VersionFacts.digits_dot_spec in H1 as [-> Hmajor].
  apply VersionFacts.digits_dot_spec in H2 as [-> Hminor].
  exists major, minor, patch, after. repeat split; try assumption.
  - unfold dotted.
    rewrite Hs2 at 1. rewrite VersionFacts.append_assoc. cbn [append].
    now rewrite VersionFacts.append_assoc.
  - unfold is_decimal. now rewrite Ht, Hd.
Qed.

Lemma banner_at_Some (s v : string) :
  banner_at s = Some v <->
  exists after, version_at s v after /\ leading_digit after = false.
Proof.
  unfold banner_at. split.
  - destruct (startsWith s "git version ") eqn:Hp; [|discriminate].
    apply VersionFacts.startsWith_append in Hp. intros Hat.
    rewrite Hp in Hat at 1.
    change 12%nat with (String.length "git version ") in Hat.
    rewrite VersionFacts.substring_from_prefix in Hat.
    apply triple_at_maximal in Hat
      as (major & minor & patch & after & Hs & Hv & H1 & H2 & H3 & Hafter).
    exists after. split; [|exact Hafter].
    exists major, minor, patch. repeat split; try assumption.
    rewrite Hp at 1. now rewrite Hs.
  - intros (after & (major & minor & patch & -> & H1 & H2 & H3 & ->) & Hafter).
    rewrite VersionFacts.startsWith_prefix.
    change 12%nat with (String.length "git version ").
    rewrite VersionFacts.substring_from_prefix.
    now apply triple_at_whole.
Qed.

Lemma banner_at_None (s : string) :
  banner_at s = None <-> forall v after, ~ version_at s v after.
Proof.
  split.
  - intros Hnone v after (major & minor & patch & -> & H1 & H2 & H3 & ->).
    revert Hnone. unfold banner_at. rewrite VersionFacts.startsWith_prefix.
    change 12%nat with (String.length "git version ").
    rewrite VersionFacts.substring_from_prefix.
    now apply VersionFacts.triple_at_complete.
  - intros Hno. destruct (banner_at s) as [v|] eqn:Hat; [|reflexivity].
    apply banner_at_Some in Hat as (after & Hv & _).
    now destruct (Hno v after).
Qed.

Lemma match_banner_step (s : string) :
  match_banner s =
  match banner_at s with
  | Some v => Some v
  | None => match s with
            | String _ s' => match_banner s'
            | EmptyString => None
            end
  end.
Proof. now destruct s. Qed.

Lemma match_banner_first (text v : string) :
  match_banner text = Some v <-> first_version text v.
Proof.
  split.
  - induction text as [|c text IH]; rewrite match_banner_step.
    + destruct (banner_at "") eqn:Hat; [|discriminate]. intros [= ->].
      apply banner_at_Some in Hat as (after & Hv & Hafter).
      exists "", "", after. repeat split; try assumption.
      intros before' s' v' after' _ Hlen. inversion Hlen.
    + destruct (banner_at (String c text)) as [v0|] eqn:Hat.
      * intros [= ->]. apply banner_at_Some in Hat as (after & Hv & Hafter).
        exists "", (String c text), after. repeat split; try assumption.
        intros before' s' v' after' _ Hlen. inversion Hlen.
      * intros Hrest.
        destruct (IH Hrest) as (before & s & after & -> & Hv & Hafter & Hleft).
        exists (String c before), s, after. repeat split; try assumption.
        intros before' s' v' after' Htext Hlen.
        destruct before' as [|c' before'].
        -- cbn [append] in Htext. subst s'.
           exact (proj1 (banner_at_None _) Hat v' after').
        -- cbn [append] in Htext. injection Htext as _ Htext.
           apply (Hleft before' s' v' after' Htext).
           cbn [String.length] in Hlen. lia.
  - intros (before & s & after & -> & Hv & Hafter & Hleft).
    induction before as [|c before IH]; cbn [append] in *.
    + rewrite match_banner_step.
      assert (Hat : banner_at s = Some v)
        by (apply banner_at_Some; now exists after).
      now rewrite Hat.
    + rewrite match_banner_step.
      assert (Hat : banner_at (String c (before +++ s)) = None).
      { apply banner_at_None. intros v' after'.
        apply (Hleft "" (String c (before +++ s)) v' after' eq_refl).
        cbn [String.length]. lia. }
      rewrite Hat. apply IH.
      intros before' s' v' after' Htext Hlen.
      apply (Hleft (String c before') s' v' after').
      * cbn [append]. now f_equal.
      * cbn [String.length]. lia.
Qed.

Lemma match_banner_none (text : string) :
  match_banner text = None <-> no_version text.
Proof.
  unfold no_version. split.
  - intros Hnone before s v after ->.
    induction before as [|c before IH]; cbn [append] in Hnone;
      rewrite match_banner_step in Hnone.
    + destruct (banner_at s) eqn:Hat; [discriminate|].
      exact (proj1 (banner_at_None _) Hat v after).
    + destruct (banner_at _); [discriminate|]. now apply IH.
  - induction text as [|c text IH]; intros Hno; rewrite match_banner_step.
    + assert (Hat : banner_at "" = None).
      { apply banner_at_None. intros v after. now apply (Hno "" ""). }
      now rewrite Hat.
    + assert (Hat : banner_at (String c text) = None).
      { apply banner_at_None. intros v after.
        now apply (Hno "" (String c text)). }
      rewrite Hat. apply IH. intros before s v after ->.
      now apply (Hno (String c before) s).
Qed.

End BannerFacts.


(** ** Facts about arrays *)

Module ArrayFacts.
Import JsArray.

Lemma remove_at_middle {A : Type} (pre post : list A) (s : A) :
  remove_at (length pre) (pre ++ s :: post) = pre ++ post.
Proof. induction pre as [|x pre IH]; cbn; [reflexivity | now f_equal]. Qed.

Lemma set_at_length {A : Type} (i : nat) (v : A) (arr : list (option A)) :
  length (set_at i v arr) = length arr.
Proof.
  revert i. induction arr as [|x arr IH]; intros [|i]; cbn; auto.
Qed.

Lemma set_at_same {A : Type} (i : nat) (v : A) (arr : list (option A)) :
  (i < length arr)%nat -> nth_error (set_at i v arr) i = Some (Some v).
Proof.
  revert i. induction arr as [|x arr IH]; intros [|i] Hi; cbn in *;
    try lia; [reflexivity | apply IH; lia].
Qed.

Lemma set_at_other {A : Type} (i j : nat) (v : A) (arr : list (option A)) :
  i <> j -> nth_error (set_at i v arr) j = nth_error arr j.
Proof.
  revert i j. induction arr as [|x arr IH]; intros [|i] [|j] Hij; cbn;
    try reflexivity; try lia. apply IH. lia.
Qed.

Lemma filled_map_Some {A : Type} (vals : list A) :
  filled (map Some vals) = vals.
Proof.
  unfold filled. induction vals as [|v vals IH]; cbn; [reflexivity|].
  now f_equal.
Qed.

End ArrayFacts.

(** ** Facts about the registry *)

Module TrackerFacts.
Import JsArray TerminalTracker Registry.

Lemma findIndex_lower_bound {A : Type} (pred : A -> bool) (arr : list A) :
  -1 <= findIndex pred arr.
Proof.
  induction arr as [|x arr IH]; cbn [findIndex]; [lia|].
  destruct (pred x); [lia|].
  destruct (Z.eqb_spec (findIndex pred arr) (-1)); lia.
Qed.

Lemma findIndex_none (h : Terminal) (ts : list TrackedTerminal) :
  bucket_lacks h ts ->
  findIndex (fun x => Nat.eqb (terminal x) h) ts = -1.
Proof.
  induction 1 as [|x ts Hx _ IH]; cbn [findIndex]; [reflexivity|].
  apply Nat.eqb_neq in Hx. rewrite Hx, IH. reflexivity.
Qed.

Lemma findIndex_first (h : Terminal) (pre post : list TrackedTerminal)
  (s : TrackedTerminal) :
  bucket_lacks h pre -> terminal s = h ->
  findIndex (fun x => Nat.eqb (terminal x) h) (pre ++ s :: post)
  = Z.of_nat (length pre).
Proof.
  intros Hpre Hs. induction Hpre as [|x pre Hx _ IH]; cbn [findIndex app].
  - apply Nat.eqb_eq in Hs. now rewrite Hs.
  - apply Nat.eqb_neq in Hx. rewrite Hx, IH.
    destruct (Z.eqb_spec (Z.of_nat (length pre)) (-1)); [lia|].
    cbn [length]. lia.
Qed.


Lemma map_delete_middle (p : string) (v : list TrackedTerminal)
  (before after : TerminalMap) :
  ~ In p (map fst before) ->
  map_delete p (before ++ (p, v) :: after) = before ++ after.
Proof.
  induction before as [|[k u] before IH]; intros Hnotin; cbn [map_delete app].
  - now rewrite String.eqb_refl.
  - cbn [map fst In] in Hnotin.
    destruct (String.eqb_spec k p) as [->|_]; [tauto|].
    f_equal. apply IH. tauto.
Qed.

Lemma map_set_middle (p : string) (v v' : list TrackedTerminal)
  (before after : TerminalMap) :
  ~ In p (map fst before) ->
  map_set p v' (before ++ (p, v) :: after) = before ++ (p, v') :: after.
Proof.
  induction before as [|[k u] before IH]; intros Hnotin; cbn [map_set app].
  - now rewrite String.eqb_refl.
  - cbn [map fst In] in Hnotin.
    destruct (String.eqb_spec k p) as [->|_]; [tauto|].
    f_equal. apply IH. tauto.
Qed.

Lemma removeTerminal_from_skip (h : Terminal) (before rest : TerminalMap)
  (st : t) :
  lacks h before ->
  removeTerminal_from (before ++ rest) h st = removeTerminal_from rest h st.
Proof.
  induction 1 as [|[k ts] before Hts _ IH]; [reflexivity|].
  cbn [app removeTerminal_from]. cbn [snd] in Hts.
  now rewrite (findIndex_none _ _ Hts).
Qed.

(** Closing a terminal nobody tracks changes nothing. *)
Lemma removeTerminal_absent (h : Terminal) (st : t) :
  lacks h (terminals st) -> removeTerminal h st = st.
Proof.
  intros Hlacks. unfold removeTerminal.
  rewrite <- (app_nil_r (terminals st)) at 1.
  now rewrite removeTerminal_from_skip.
Qed.

(** Closing a tracked terminal: the first session attached to it leaves its
    bucket, the bucket goes when nothing is left in it, and the path of the
    bucket is fired once. *)
Lemma removeTerminal_present (h : Terminal) (st : t)
  (before after : TerminalMap) (p : string)
  (pre post : list TrackedTerminal) (s : TrackedTerminal) :
  well_keyed (terminals st) ->
  terminals st = before ++ (p, pre ++ s :: post) :: after ->
  lacks h before -> bucket_lacks h pre -> terminal s = h ->
  removeTerminal h st =
  mkTracker
    (before ++ match pre ++ post with
               | [] => []
               | _ :: _ => [(p, pre ++ post)]
               end ++ after)
    (fired st ++ [p]).
Proof.
  intros Hkeys Hst Hbefore Hpre Hs. unfold removeTerminal.
  rewrite Hst at 1. rewrite (removeTerminal_from_skip _ _ _ _ Hbefore).
  cbn [removeTerminal_from]. rewrite (findIndex_first _ _ _ _ Hpre Hs).
  destruct (Z.eqb_spec (Z.of_nat (length pre)) (-1)) as [Hneg|_]; [lia|].
  cbn [negb]. rewrite Nat2Z.id, ArrayFacts.remove_at_middle.
  assert (Hnotin : ~ In p (map fst before)).
  { unfold well_keyed in Hkeys. rewrite Hst, map_app in Hkeys.
    cbn [map fst] in Hkeys. apply NoDup_remove_2 in Hkeys.
    intros Hin. apply Hkeys. apply in_or_app. now left. }
  unfold fire. cbn [terminals fired]. f_equal.
  rewrite Hst. destruct (pre ++ post) as [|x l] eqn:Hrest; cbn [length Nat.eqb].
  - now rewrite map_delete_middle.
  - now rewrite map_set_middle.
Qed.

Lemma map_set_keys (p : string) (v : list TrackedTerminal) (m : TerminalMap) :
  map fst (map_set p v m) =
  if existsb (String.eqb p) (map fst m) then map fst m else map fst m ++ [p].
Proof.
  induction m as [|[k u] m IH]; cbn [map_set map fst existsb]; [reflexivity|].
  rewrite (String.eqb_sym p k).
  destruct (String.eqb_spec k p) as [->|Hne]; cbn [orb map fst]; [reflexivity|].
  rewrite IH. now destruct (existsb (String.eqb p) (map fst m)).
Qed.

Lemma map_set_invariant (p : string) (v : list TrackedTerminal)
  (m : TerminalMap) :
  v <> [] -> well_keyed m -> no_empty_bucket m ->
  well_keyed (map_set p v m) /\ no_empty_bucket (map_set p v m).
Proof.
  intros Hv Hkeys Hne. split.
  - unfold well_keyed in *. rewrite map_set_keys.
    destruct (existsb (String.eqb p) (map fst m)) eqn:Hex; [assumption|].
    apply NoDup_app; [assumption | repeat constructor; intros [] | ].
    intros k Hk [Heq|[]]. subst k.
    assert (existsb (String.eqb p) (map fst m) = true); [|congruence].
    apply existsb_exists. exists p. split; [assumption | apply String.eqb_refl].
  - unfold no_empty_bucket in *.
    induction Hne as [|[k u] m Hu Hne IH]; cbn [map_set].
    + repeat constructor. exact Hv.
    + destruct (String.eqb k p); constructor; try assumption.
      apply IH. unfold well_keyed in *. cbn [map fst] in Hkeys.
      now apply NoDup_cons_iff in Hkeys.
Qed.

Lemma map_delete_invariant (p : string) (m : TerminalMap) :
  well_keyed m -> no_empty_bucket m ->
  well_keyed (map_delete p m) /\ no_empty_bucket (map_delete p m).
Proof.
  unfold well_keyed, no_empty_bucket.
  induction m as [|[k u] m IH]; intros Hkeys Hne; cbn [map_delete].
  - now split.
  - cbn [map fst] in Hkeys. apply NoDup_cons_iff in Hkeys as [Hk Hkeys].
    apply Forall_cons_iff in Hne as [Hu Hne].
    destruct (String.eqb k p); [now split|].
    destruct (IH Hkeys Hne) as [IHk IHn]. split.
    + cbn [map fst]. constructor; [|assumption].
      intros Hin. apply Hk. clear -Hin.
      induction m as [|[k' u'] m IHm]; cbn [map_delete map fst In] in *; [tauto|].
      destruct (String.eqb k' p); cbn [map fst In] in *; tauto.
    + now constructor.
Qed.

Lemma trackTerminal_invariant (now : Z) (h : Terminal) (p cli : string)
  (st : t) :
  invariant st -> invariant (trackTerminal now h p cli st).
Proof.
  intros [Hkeys Hne]. unfold invariant, trackTerminal, fire.
  cbn [terminals]. apply map_set_invariant; try assumption.
  now destruct (match map_get p (terminals st) with Some l => l | None => [] end).
Qed.

Lemma remove_at_length {A : Type} (i : nat) (l : list A) :
  Nat.eqb (length (remove_at i l)) 0 = false -> remove_at i l <> [].
Proof. now destruct (remove_at i l). Qed.

Lemma removeTerminal_from_invariant (h : Terminal) (entries : TerminalMap)
  (st : t) :
  invariant st -> invariant (removeTerminal_from entries h st).
Proof.
  intros [Hkeys Hne].
  induction entries as [|[p ts] entries IH]; cbn [removeTerminal_from];
    [now split|].
  destruct (negb _); [|exact IH].
  unfold invariant, fire. cbn [terminals].
  destruct (Nat.eqb (length (remove_at _ ts)) 0) eqn:Hlen.
  - now apply map_delete_invariant.
  - apply map_set_invariant; try assumption. now apply remove_at_length.
Qed.

Lemma run_all_invariant (cs : list command) : invariant (run_all cs).
Proof.
  unfold run_all.
  assert (Hinit : invariant initial) by (split; constructor).
  revert Hinit. generalize initial as st.
  induction cs as [|c cs IH]; intros st Hst; [exact Hst|].
  cbn [fold_left]. apply IH. destruct c as [now h p cli|h]; cbn [run].
  - now apply trackTerminal_invariant.
  - now apply removeTerminal_from_invariant.
Qed.

End TrackerFacts.

(** ** Facts about [Promise.all] *)

Module PromiseFacts.
Import JsArray Effects WorldSpec.

Lemma combine_seq_fst {A : Type} (l : list A) (s : nat) :
  map fst (combine (seq s (length l)) l) = seq s (length l).
Proof.
  revert s. induction l as [|x l IH]; intros s; cbn; [reflexivity|].
  now rewrite IH.
Qed.

Lemma combine_seq_In {A : Type} (l : list A) (s i : nat) (x : A) :
  In (i, x) (combine (seq s (length l)) l) ->
  (s <= i)%nat /\ nth_error l (i - s) = Some x.
Proof.
  revert s. induction l as [|y l IH]; intros s; cbn [length seq combine In];
    [tauto|].
  intros [[= <- <-]|Hin].
  - split; [lia|]. now rewrite Nat.sub_diag.
  - apply IH in Hin as [Hle Hnth]. split; [lia|].
    replace (i - s)%nat with (S (i - S s)) by lia. exact Hnth.
Qed.

Section WithHost.
Context {Env : Type} {H : Host Env} {A : Type}.
Variable R : World Env -> Prop.

Lemma task_value (tasks : list (M Env A)) (vals : list A) :
  Forall2 (fulfils R) tasks vals ->
  forall (i : nat) (task : M Env A),
  nth_error tasks i = Some task ->
  exists v, nth_error vals i = Some v /\ fulfils R task v.
Proof.
  induction 1 as [|t v ts vs Htv _ IH]; intros [|i] task;
    cbn [nth_error]; try discriminate.
  - intros [= <-]. now exists v.
  - apply IH.
Qed.

Variable tasks : list (M Env A).
Variable vals : list A.
Hypothesis tasks_return : Forall2 (fulfils R) tasks vals.

Lemma settle_all (todo : nat) :
  forall sched pending values w,
    settled_so_far tasks vals pending values -> length pending = todo -> R w ->
    exists w', settle todo sched pending values None w
               = (map Some vals, None, w') /\ R w'.
Proof.
  induction todo as [|todo IH]; intros sched pending values w Hinv Hlen Hw.
  - exists w. split; [|exact Hw]. cbn [settle]. do 2 f_equal.
    destruct Hinv as (Hvalues & _ & _ & Hdone).
    destruct pending; [|discriminate].
    apply nth_error_ext. intros i. rewrite nth_error_map.
    destruct (Nat.lt_ge_cases i (length tasks)) as [Hi|Hi].
    + apply Hdone; [exact Hi | intros []].
    + pose proof (Forall2_length tasks_return) as Hlens.
      replace (nth_error values i) with (@None (option A))
        by (symmetry; apply nth_error_None; lia).
      replace (nth_error vals i) with (@None A)
        by (symmetry; apply nth_error_None; lia).
      reflexivity.
  - cbn [settle].
    assert (Hk : (Nat.modulo (hd O sched) (length pending) < length pending)%nat)
      by (apply Nat.mod_upper_bound; lia).
    destruct (nth_error pending (Nat.modulo (hd O sched) (length pending)))
      as [[i task]|] eqn:Hnth;
      [|apply nth_error_None in Hnth; lia].
    destruct Hinv as (Hvalues & Hnodup & Hpending & Hdone).
    apply nth_error_split in Hnth as (l1 & l2 & Hsplit & Hl1).
    rewrite <- Hl1, Hsplit, ArrayFacts.remove_at_middle.
    assert (Htask : nth_error tasks i = Some task).
    { apply Hpending. rewrite Hsplit. apply in_or_app. right. now left. }
    destruct (task_value tasks vals tasks_return i task Htask) as (v & Hv & Hrun).
    destruct (Hrun w Hw) as [Hres Hw1].
    destruct (task w) as [[e|v'] w1]; cbn [fst snd] in Hres, Hw1;
      [discriminate|]. injection Hres as ->.
    apply IH; [|rewrite Hsplit, length_app in Hlen; cbn [length] in Hlen;
                rewrite length_app; lia | exact Hw1].
    rewrite Hsplit, map_app in Hnodup. cbn [map fst] in Hnodup.
    repeat split.
    + now rewrite ArrayFacts.set_at_length.
    + rewrite map_app. now apply NoDup_remove_1 in Hnodup.
    + intros j t Hin. apply Hpending. rewrite Hsplit.
      apply in_app_or in Hin as [Hin|Hin]; apply in_or_app;
        [now left | right; now right].
    + intros j Hj Hnotin. destruct (Nat.eq_dec i j) as [<-|Hne].
      * rewrite Hv. apply ArrayFacts.set_at_same.
        rewrite Hvalues. apply nth_error_Some. now rewrite Htask.
      * rewrite ArrayFacts.set_at_other by exact Hne. apply Hdone; [exact Hj|].
        rewrite Hsplit, map_app. cbn [map fst]. intros Hin.
        apply Hnotin. rewrite map_app.
        apply in_app_or in Hin as [Hin|[Heq|Hin]]; apply in_or_app;
          [now left | contradiction | now right].
Qed.

(** [Promise.all] over tasks that fulfil with known values: whatever the
    order in which they settle, the array holds the values by index. *)
Lemma promise_all_values (sched : list nat) (w : World Env) :
  R w ->
  exists w', promise_all sched tasks w = (inr vals, w') /\ R w'.
Proof.
  intros Hw. unfold promise_all.
  destruct (settle_all (length tasks) sched
              (combine (seq 0 (length tasks)) tasks)
              (repeat None (length tasks)) w) as (w' & Hsettle & Hw');
    [| | exact Hw |].
  - repeat split.
    + apply repeat_length.
    + rewrite combine_seq_fst. apply seq_NoDup.
    + intros i task Hin. apply combine_seq_In in Hin as [_ Hin].
      now rewrite Nat.sub_0_r in Hin.
    + intros i Hi Hnotin. exfalso. apply Hnotin.
      rewrite combine_seq_fst. apply in_seq. lia.
  - rewrite length_combine, length_seq. lia.
  - exists w'. rewrite Hsettle, ArrayFacts.filled_map_Some. now split.
Qed.

End WithHost.
End PromiseFacts.

(** ** Facts about the gateway *)

Module GatewayFacts.
Import JsString Effects.

Section WithHost.
Context {Env : Type} {H : Host Env}.

(** The value a change count settles to. *)
Lemma getChangesCount_value (p : string) (w : World Env) :
  fst (GitService.getChangesCount p w) = inr (GitSpec.changes_of (env w) p) /\
  env (snd (GitService.getChangesCount p w)) = env w /\
  tracker (snd (GitService.getChangesCount p w)) = tracker w /\
  gitlog (snd (GitService.getChangesCount p w)) = gitlog w.
Proof.
  unfold GitService.getChangesCount, GitSpec.changes_of, try_catch, bind, query.
  destruct (git_status p (env w)) as [e|files]; cbn; auto.
Qed.

Lemma branchExists_value (b : string) (w : World Env) :
  fst (GitService.branchExists b w) = inr (GitSpec.is_local_branch (env w) b) /\
  env (snd (GitService.branchExists b w)) = env w.
Proof.
  unfold GitService.branchExists, GitSpec.is_local_branch, try_catch, bind, query.
  destruct (git_branchLocal (env w)) as [e|branches]; cbn; auto.
Qed.

End WithHost.
End GatewayFacts.

(** ** Facts about the sort *)

Module SortFacts.
Import JsArray.

Lemma insert_Permutation {A : Type} (cmp : A -> A -> Z) (x : A) (l : list A) :
  Permutation (insert cmp x l) (x :: l).
Proof.
  induction l as [|y l IH]; cbn [insert]; [reflexivity|].
  destruct (cmp x y <? 0); [reflexivity|].
  rewrite IH. apply perm_swap.
Qed.

Lemma sort_from_Permutation {A : Type} (cmp : A -> A -> Z) (l acc : list A) :
  Permutation (fold_left (fun sorted x => insert cmp x sorted) l acc)
              (acc ++ l).
Proof.
  revert acc. induction l as [|x l IH]; intros acc; cbn [fold_left].
  - now rewrite app_nil_r.
  - rewrite IH, insert_Permutation. apply Permutation_middle.
Qed.

Lemma sort_Permutation {A : Type} (cmp : A -> A -> Z) (l : list A) :
  Permutation (sort cmp l) l.
Proof. apply (sort_from_Permutation cmp l []). Qed.

Section MainFirst.
Context {B : Builtins}.
Hypothesis consistent : localeCompare_consistent B.

Local Abbreviation cmp := WorktreeProvider.compare_items.
Local Abbreviation by_name := ViewSpec.by_name.

Lemma insert_main (x : WorktreeInfo) (l : list WorktreeInfo) :
  isMain x = true -> insert cmp x l = x :: l.
Proof.
  intros Hx. destruct l as [|y l]; cbn [insert]; [reflexivity|].
  unfold WorktreeProvider.compare_items. now rewrite Hx.
Qed.

Lemma insert_after_mains (x : WorktreeInfo) (mains rest : list WorktreeInfo) :
  isMain x = false -> Forall (fun r => isMain r = true) mains ->
  insert cmp x (mains ++ rest) = mains ++ insert cmp x rest.
Proof.
  intros Hx. induction 1 as [|m mains Hm _ IH]; [reflexivity|].
  cbn [app insert]. unfold WorktreeProvider.compare_items at 1.
  rewrite Hx, Hm. cbn. now rewrite IH.
Qed.

Lemma by_name_flip (x y : WorktreeInfo) :
  isMain x = false -> isMain y = false ->
  (cmp x y <? 0) = false -> by_name y x.
Proof.
  intros Hx Hy Hcmp. unfold WorktreeProvider.compare_items in Hcmp.
  rewrite Hx, Hy in Hcmp. apply Z.ltb_ge in Hcmp.
  unfold by_name. destruct consistent as [Hflip _].
  specialize (Hflip (path_basename (path y)) (path_basename (path x))). lia.
Qed.

Lemma insert_sorted (x : WorktreeInfo) (rest : list WorktreeInfo) :
  isMain x = false -> Forall (fun r => isMain r = false) rest ->
  StronglySorted by_name rest ->
  StronglySorted by_name (insert cmp x rest).
Proof.
  intros Hx Hrest Hsorted.
  induction Hsorted as [|y rest Hs IH Hy]; cbn [insert].
  - repeat constructor.
  - apply Forall_cons_iff in Hrest as [Hym Hrest].
    destruct (cmp x y <? 0) eqn:Hcmp.
    + constructor; [now constructor|].
      assert (Hxy : by_name x y).
      { unfold WorktreeProvider.compare_items in Hcmp.
        rewrite Hx, Hym in Hcmp. apply Z.ltb_lt in Hcmp.
        unfold by_name. lia. }
      constructor; [exact Hxy|].
      destruct consistent as [_ Htrans].
      eapply Forall_impl; [|exact Hy]. intros z Hyz.
      unfold by_name in *. eapply Htrans; eassumption.
    + constructor; [now apply IH|].
      pose proof (by_name_flip x y Hx Hym Hcmp) as Hyx.
      assert (Hperm := insert_Permutation cmp x rest).
      apply Forall_forall. intros z Hz.
      apply (Permutation_in _ Hperm) in Hz. destruct Hz as [<-|Hz];
        [exact Hyx|].
      rewrite Forall_forall in Hy. now apply Hy.
Qed.

Lemma insert_main_first (x : WorktreeInfo) (l : list WorktreeInfo) :
  ViewSpec.main_first l -> ViewSpec.main_first (insert cmp x l).
Proof.
  intros (mains & rest & -> & Hmains & Hrest & Hsorted).
  destruct (isMain x) eqn:Hx.
  - rewrite (insert_main _ _ Hx). exists (x :: mains), rest.
    repeat split; try assumption. now constructor.
  - rewrite (insert_after_mains _ _ _ Hx Hmains).
    exists mains, (insert cmp x rest). repeat split; try assumption.
    + eapply Permutation_Forall; [symmetry; apply insert_Permutation|].
      now constructor.
    + now apply insert_sorted.
Qed.

(** The order [getChildren] leaves: the main records, then the others by
    the name of their directory. *)
Lemma sort_main_first (l : list WorktreeInfo) :
  ViewSpec.main_first (sort cmp l).
Proof.
  unfold sort.
  assert (Hinit : ViewSpec.main_first []).
  { exists [], []. repeat split; constructor. }
  revert Hinit. generalize (@nil WorktreeInfo) as acc.
  induction l as [|x l IH]; intros acc Hacc; cbn [fold_left]; [exact Hacc|].
  apply IH. now apply insert_main_first.
Qed.

End MainFirst.
End SortFacts.

(** ** Facts about the enriched views *)

Module ViewFacts.
Import JsString Effects WorldSpec.

Section WithHost.
Context {Env : Type} {H : Host Env}.

Lemma listWorktrees_resolves (w : World Env) :
  exists listed,
    fst (GitService.listWorktrees w) = inr listed /\
    tracker (snd (GitService.listWorktrees w)) = tracker w.
Proof.
  unfold GitService.listWorktrees, try_catch, bind, raw.
  destruct (git_raw _ _) as [[e|text] env']; cbn; eauto.
Qed.

Lemma changes_tasks_fulfil (e : Env) (tr : TerminalTracker.t)
  (worktrees : list WorktreeInfo) :
  Forall2 (fulfils (snapshot e tr))
    (map (fun wt =>
            bind (GitService.getChangesCount (path wt))
                 (fun changes => ret (WorktreeManager.with_changes wt changes)))
         worktrees)
    (map (fun wt =>
            WorktreeManager.with_changes wt (GitSpec.changes_of e (path wt)))
         worktrees).
Proof.
  induction worktrees as [|wt worktrees IH]; cbn [map]; constructor;
    [|exact IH].
  intros w [He Htr]. unfold bind.
  destruct (GatewayFacts.getChangesCount_value (path wt) w)
    as (Hv & Henv & Htracker & _).
  destruct (GitService.getChangesCount (path wt) w) as [[err|n] w'];
    cbn [fst snd] in *; [discriminate|].
  injection Hv as ->. unfold ret. cbn [fst snd]. rewrite He.
  split; [reflexivity|]. split; congruence.
Qed.

Lemma getWorktrees_value (sched : list nat) (w : World Env) :
  exists listed,
    fst (GitService.listWorktrees w) = inr listed /\
    fst (WorktreeManager.getWorktrees sched w) =
    inr (map (fun wt =>
                WorktreeManager.with_changes wt
                  (GitSpec.changes_of
                     (env (snd (GitService.listWorktrees w))) (path wt)))
             listed).
Proof.
  destruct (listWorktrees_resolves w) as (listed & Hlist & _).
  exists listed. split; [exact Hlist|].
  unfold WorktreeManager.getWorktrees. unfold bind at 1.
  destruct (GitService.listWorktrees w) as [[e|l] w1]; cbn [fst snd] in *;
    [discriminate|]. injection Hlist as ->.
  unfold bind at 1.
  destruct (PromiseFacts.promise_all_values
              (snapshot (env w1) (tracker w1)) _ _
              (changes_tasks_fulfil (env w1) (tracker w1) listed) sched w1)
    as (w2 & Hall & _); [now split|].
  rewrite Hall. reflexivity.
Qed.

Context {B : Builtins}.

End WithHost.
End ViewFacts.

(** ** Facts about the concrete host *)

Module SampleFacts.

Lemma localeCompare_consistent_shortlex :
  localeCompare_consistent Sample.builtins.
Proof.
  split; cbn [localeCompare Sample.builtins]; unfold Sample.shortlex_compare.
  - intros a b. rewrite (Z.compare_antisym (Sample.shortlex_rank 0 a)).
    now destruct (Sample.shortlex_rank 0 a ?= Sample.shortlex_rank 0 b).
  - intros a b c.
    destruct (Z.compare_spec (Sample.shortlex_rank 0 a) (Sample.shortlex_rank 0 b));
      destruct (Z.compare_spec (Sample.shortlex_rank 0 b) (Sample.shortlex_rank 0 c));
      destruct (Z.compare_spec (Sample.shortlex_rank 0 a) (Sample.shortlex_rank 0 c));
      lia.
Qed.

Lemma Number_reads_decimals_sample : Number_reads_decimals Sample.builtins.
Proof.
  intros s _ Hd. cbn [Number Sample.builtins]. unfold Sample.Number_of_digits.
  now rewrite Hd.
Qed.

End SampleFacts.

(** ** Facts about branches *)

Module BranchFacts.
Import JsString JsArray.

Lemma includes_false (xs : list string) (x : string) :
  includes xs x = false <-> ~ In x xs.
Proof.
  unfold includes. split.
  - intros Hf Hin. assert (existsb (String.eqb x) xs = true); [|congruence].
    apply existsb_exists. exists x. split; [exact Hin | apply String.eqb_refl].
  - intros Hnotin. destruct (existsb (String.eqb x) xs) eqn:Hex; [|reflexivity].
    apply existsb_exists in Hex as (y & Hy & Heq).
    apply String.eqb_eq in Heq. subst y. contradiction.
Qed.

Lemma dedupe_from_In (x : string) (arr : list string) :
  forall seen, In x arr -> ~ In x seen -> In x (dedupe_from seen arr).
Proof.
  induction arr as [|y arr IH]; intros seen Hin Hseen; [contradiction|].
  cbn [dedupe_from]. destruct (includes seen y) eqn:Hy.
  - destruct Hin as [->|Hin]; [|now apply IH].
    apply includes_false in Hseen. congruence.
  - destruct (String.eqb_spec y x) as [->|Hne]; [now left|].
    right. destruct Hin as [Heq|Hin]; [contradiction|].
    apply IH; [exact Hin|]. intros Hin'.
    apply in_app_or in Hin' as [Hin'|[Heq|[]]]; [contradiction | contradiction].
Qed.

Lemma dedupe_In (x : string) (arr : list string) :
  In x arr -> In x (dedupe arr).
Proof. intros Hin. apply dedupe_from_In; [exact Hin | intros []]. Qed.

End BranchFacts.

(** ** Facts about the orchestrator *)

Module ManagerFacts.

(** Once the user answers [Remove], the remove subcommand goes to the tool,
    forced exactly when the record has changes, and the operation resolves
    to true when the tool accepts it. *)
Lemma removeWorktree_confirmed (Env : Type) (H : Host Env) (B : Builtins)
  (worktree : WorktreeInfo) (w : Effects.World Env) :
  WorldSpec.next_answer w = Some "Remove" ->
  Effects.gitlog (snd (WorktreeManager.removeWorktree worktree w)) =
  Effects.gitlog w
  ++ [GitService.remove_args (path worktree)
        (WorktreeManager.hasChanges worktree)] /\
  (forall out env',
      git_raw (GitService.remove_args (path worktree)
                 (WorktreeManager.hasChanges worktree)) (Effects.env w)
      = (inr out, env') ->
      fst (WorktreeManager.removeWorktree worktree w) = inr true).
Proof.
  intros Hanswer. unfold WorldSpec.next_answer in Hanswer.
  unfold WorktreeManager.removeWorktree, Effects.try_catch, Effects.bind,
    Effects.showWarningMessage, Effects.withProgress, Effects.bind,
    Effects.show, GitService.removeWorktree, Effects.try_catch, Effects.bind,
    Effects.raw, Effects.ret, Effects.throw.
  cbn [Effects.answers Effects.env Effects.gitlog].
  destruct (Effects.answers w) as [|a rest]; [discriminate|]. subst a.
  cbn [String.eqb Ascii.eqb Bool.eqb negb].
  destruct (WorktreeManager.hasChanges worktree); cbv beta iota;
    cbn [Effects.env Effects.gitlog Effects.answers Effects.ui
         Effects.console Effects.tracker fst snd];
    destruct (git_raw _ (Effects.env w)) as [[e|out] env'];
    cbn; (split; [reflexivity|]); intros out' env'' [=]; reflexivity.
Qed.


(** The messages [validateCreateOptions] resolves to. *)
Lemma validateCreateOptions_value (Env : Type) (H : Host Env)
  (B : Builtins) (rootPath : string) (options : WorktreeCreateOptions)
  (w : Effects.World Env) :
  fst (WorktreeManager.validateCreateOptions rootPath options w) =
  inr ((if WorktreeManager.name_matches (name options) then []
        else [WorktreeManager.name_error])
       ++ (if createBranch options then []
           else if GitSpec.is_local_branch (Effects.env w) (opt_branch options)
                then []
                else [WorktreeManager.branch_error (opt_branch options)])
       ++ (match fs_stat (path_join [rootPath; basePath options; name options])
                         (Effects.env w) with
           | inr _ => [WorktreeManager.path_error
                         (path_join [rootPath; basePath options; name options])]
           | inl _ => []
           end)).
Proof.
  unfold WorktreeManager.validateCreateOptions.
  unfold Effects.bind at 1.
  destruct (createBranch options) eqn:Hcreate; cbn [negb].
  - unfold Effects.ret at 1. cbv iota beta.
    unfold Effects.bind, Effects.try_catch, Effects.query, Effects.ret.
    destruct (fs_stat _ (Effects.env w)) as [e|[]]; cbn [fst];
      destruct (WorktreeManager.name_matches (name options)); reflexivity.
  - unfold Effects.bind at 1.
    destruct (GatewayFacts.branchExists_value (opt_branch options) w)
      as [Hv Henv].
    destruct (GitService.branchExists (opt_branch options) w)
      as [[e|found] w1]; cbn [fst snd] in Hv, Henv; [discriminate|].
    injection Hv as ->.
    unfold Effects.bind, Effects.try_catch, Effects.query, Effects.ret.
    destruct (GitSpec.is_local_branch (Effects.env w) (opt_branch options));
      cbn [negb]; cbv beta iota; rewrite Henv;
      destruct (fs_stat _ (Effects.env w)) as [e|[]]; cbn [fst];
      destruct (WorktreeManager.name_matches (name options)); cbn [negb];
      rewrite <- ?app_assoc; reflexivity.
Qed.

(** A name with a space in it does not match the pattern. *)
Lemma name_with_space (s : string) :
  JsString.contains " " s = true -> WorktreeManager.name_matches s = false.
Proof.
  intros Hspace. unfold WorktreeManager.name_matches.
  apply andb_false_iff. right.
  induction s as [|c s IH]; [discriminate|].
  cbn [JsString.contains JsString.forallb_string] in *.
  destruct (Ascii.eqb_spec c " ") as [->|_]; [reflexivity|].
  cbn [orb] in Hspace. rewrite (IH Hspace). apply andb_false_r.
Qed.

End ManagerFacts.

(** ** Facts about the pattern of names *)

Module NameFacts.
Import JsString NameSpec.

Lemma name_char_alphabet (c : ascii) :
  is_name_char c = existsb (Ascii.eqb c) (list_ascii_of_string alphabet).
Proof.
  destruct c as [[] [] [] [] [] [] [] []]; vm_compute; reflexivity.
Qed.

Lemma name_char_In (c : ascii) :
  is_name_char c = true <-> In c (list_ascii_of_string alphabet).
Proof.
  rewrite name_char_alphabet, existsb_exists. split.
  - intros (x & Hin & Heq). apply Ascii.eqb_eq in Heq. now subst x.
  - intros Hin. exists c. split; [exact Hin | apply Ascii.eqb_refl].
Qed.

Lemma forallb_string_Forall (p : ascii -> bool) (s : string) :
  forallb_string p s = true <->
  Forall (fun c => p c = true) (list_ascii_of_string s).
Proof.
  induction s as [|c s IH]; cbn [forallb_string list_ascii_of_string].
  - split; [constructor | reflexivity].
  - rewrite andb_true_iff, IH. split.
    + intros [Hc Hs]. now constructor.
    + intros Hall. inversion Hall. now split.
Qed.

Lemma name_matches_well_formed (name : string) :
  WorktreeManager.name_matches name = true <-> well_formed name.
Proof.
  unfold WorktreeManager.name_matches, well_formed.
  rewrite andb_true_iff, forallb_string_Forall. split.
  - intros [Ht Hall]. split; [now destruct name|].
    eapply Forall_impl; [|exact Hall]. intros c. apply name_char_In.
  - intros [Hne Hall]. split; [now destruct name|].
    eapply Forall_impl; [|exact Hall]. intros c. apply name_char_In.
Qed.

End NameFacts.


(** ** The claims of the specification *)

(** C1 fails on the code: [removeWorktree] never looks at [isMain].  For a
    main record, once the user confirms, the remove subcommand is passed to
    the tool, and the operation resolves to true when the tool accepts
    it. *)
Theorem removeWorktree_main_reaches_gateway (Env : Type) (H : Host Env)
  (B : Builtins) (worktree : WorktreeInfo) (w : Effects.World Env) :
  isMain worktree = true ->
  WorldSpec.next_answer w = Some "Remove" ->
  Effects.gitlog (snd (WorktreeManager.removeWorktree worktree w)) =
  Effects.gitlog w
  ++ [GitService.remove_args (path worktree)
        (WorktreeManager.hasChanges worktree)] /\
  (forall out env',
      git_raw (GitService.remove_args (path worktree)
                 (WorktreeManager.hasChanges worktree)) (Effects.env w)
      = (inr out, env') ->
      fst (WorktreeManager.removeWorktree worktree w) = inr true).
Proof.
  intros _. apply ManagerFacts.removeWorktree_confirmed.
Qed.

Lemma removeWorktree_main_reaches_gateway_witness :
  isMain Sample.main_record = true /\
  fst (WorktreeManager.removeWorktree
         (H := Sample.host) (B := Sample.builtins) Sample.main_record
         (Sample.world_of Sample.repo [Some "Remove"] TerminalTracker.initial))
  = inr true /\
  Effects.gitlog
    (snd (WorktreeManager.removeWorktree
            (H := Sample.host) (B := Sample.builtins) Sample.main_record
            (Sample.world_of Sample.repo [Some "Remove"]
                             TerminalTracker.initial)))
  = [["worktree"; "remove"; "/repo"]].
Proof.
  destruct (removeWorktree_main_reaches_gateway
              Sample.Repo Sample.host Sample.builtins Sample.main_record
              (Sample.world_of Sample.repo [Some "Remove"]
                               TerminalTracker.initial)
              eq_refl eq_refl) as [Hlog Hres].
  split; [reflexivity|]. split.
  - apply (Hres "" Sample.repo). reflexivity.
  - exact Hlog.
Defined.

(** C2.  For a record with uncommitted changes, unless the user answers
    [Remove] at the prompt, [removeWorktree] resolves to false and the
    world is the one before the call but for the prompt that was shown:
    the repository, the invocations of the tool, the console and the
    registry are untouched.  When the user answers [Remove], the remove
    subcommand is passed to the tool once, with [--force] exactly when the
    change count is positive. *)
Theorem removeWorktree_confirmation (Env : Type) (H : Host Env) (B : Builtins)
  (worktree : WorktreeInfo) (w : Effects.World Env) :
  (forall n : Z,
      changes worktree = Some n -> n > 0 ->
      WorldSpec.next_answer w <> Some "Remove" ->
      exists message,
        WorktreeManager.removeWorktree worktree w =
        (inr false, WorldSpec.prompted message ["Remove"; "Cancel"] w)) /\
  (WorldSpec.next_answer w = Some "Remove" ->
   let force := match changes worktree with
                | Some n => n >? 0
                | None => false
                end in
   Effects.gitlog (snd (WorktreeManager.removeWorktree worktree w)) =
   Effects.gitlog w
   ++ [["worktree"; "remove"] ++ (if force then ["--force"] else [])
       ++ [path worktree]]).
Proof.
  split.
  - intros n Hchanges Hpos Hanswer.
    assert (Hhas : WorktreeManager.hasChanges worktree = true).
    { unfold WorktreeManager.hasChanges. rewrite Hchanges.
      destruct (Z.eqb_spec n 0); [lia|].
      destruct (Z.gtb_spec n 0); [reflexivity | lia]. }
    exists ("Worktree " +++ JsString.dquote
            +++ path_basename (path worktree) +++ JsString.dquote
            +++ " has " +++ WorktreeManager.changes_text worktree
            +++ " uncommitted change(s). Remove anyway?").
    unfold WorktreeManager.removeWorktree, Effects.try_catch.
    unfold Effects.bind at 1. unfold Effects.showWarningMessage at 1.
    rewrite Hhas. unfold WorldSpec.next_answer in Hanswer.
    unfold WorldSpec.prompted.
    destruct (Effects.answers w) as [|[a|] rest]; [reflexivity | | reflexivity].
    destruct (String.eqb_spec a "Remove") as [->|Hne]; [contradiction|].
    reflexivity.
  - intros Hanswer force.
    destruct (ManagerFacts.removeWorktree_confirmed Env H B worktree w Hanswer)
      as [Hlog _].
    rewrite Hlog. do 2 f_equal. subst force.
    unfold GitService.remove_args, WorktreeManager.hasChanges.
    destruct (changes worktree) as [n|]; [|reflexivity].
    destruct (Z.eqb_spec n 0) as [->|Hne]; [reflexivity|].
    cbn [negb andb]. now destruct (n >? 0).
Qed.

Lemma removeWorktree_confirmation_witness :
  changes Sample.dirty_record = Some 3 /\ 3 > 0 /\
  fst (WorktreeManager.removeWorktree
         (H := Sample.host) (B := Sample.builtins) Sample.dirty_record
         (Sample.world_of Sample.repo [Some "Cancel"] TerminalTracker.initial))
  = inr false /\
  Effects.gitlog
    (snd (WorktreeManager.removeWorktree
            (H := Sample.host) (B := Sample.builtins) Sample.dirty_record
            (Sample.world_of Sample.repo [Some "Cancel"]
                             TerminalTracker.initial)))
  = [].
Proof.
  split; [reflexivity|]. split; [reflexivity|].
  destruct (removeWorktree_confirmation
              Sample.Repo Sample.host Sample.builtins Sample.dirty_record
              (Sample.world_of Sample.repo [Some "Cancel"]
                               TerminalTracker.initial)) as [Hcancel _].
  destruct (Hcancel 3 eq_refl eq_refl) as [message Hrun]; [discriminate|].
  rewrite Hrun. split; reflexivity.
Defined.



(** The two-block example of the specification. *)
Example parseWorktreeList_two_blocks :
  map (fun r => (path r, isMain r, isLocked r))
      (Parser.parseWorktreeList (Sample.porcelain Sample.repo)) =
  [("/repo", true, false); ("/wt/feature", false, true)].
Proof. vm_compute. reflexivity. Qed.


(** C4.  On versions made of three runs of digits, each below 2^53 (where
    a Number holds an integer exactly), [compareVersions] is the sign of
    the 3-component integer comparison, left to right; so the banner
    examples hold, the minor component being compared as a number; and
    [validateGitVersion] always resolves, to true exactly when the tool
    answered with a banner that has a version and that version compares
    [>= 0] with [minVersion], hence to false when the banner has none.
    The version the pattern reads is pinned: it is the triple at the
    leftmost place where three runs of digits joined by dots follow
    [git version ], each run taken whole; and the pattern reads none
    exactly when the banner has no such place. *)
Theorem compareVersions_validateGitVersion
  (Env : Type) (H : Host Env) (B : Builtins) :
  Number_reads_decimals B ->
  (forall a1 a2 a3 b1 b2 b3 : string,
      Forall (fun d => VersionSpec.is_decimal d = true /\
                       decimal_value 0 d < 2 ^ 53)
             [a1; a2; a3; b1; b2; b3] ->
      Version.compareVersions (VersionSpec.dotted a1 a2 a3)
                              (VersionSpec.dotted b1 b2 b3) =
      VersionSpec.comparison_sign
        (VersionSpec.lex3
           (decimal_value 0 a1) (decimal_value 0 a2) (decimal_value 0 a3)
           (decimal_value 0 b1) (decimal_value 0 b2) (decimal_value 0 b3))) /\
  Version.compareVersions "2.30.0" "2.30.0" = 0 /\
  Version.compareVersions "2.9.0" "2.30.0" < 0 /\
  (forall (minVersion : string) (w : Effects.World Env),
      exists ok : bool,
        fst (GitService.validateGitVersion minVersion w) = inr ok /\
        (ok = true <->
         exists text v,
           fst (git_raw ["--version"] (Effects.env w)) = inr text /\
           BannerSpec.first_version text v /\
           Version.compareVersions v minVersion >= 0) /\
        (forall text,
            fst (git_raw ["--version"] (Effects.env w)) = inr text ->
            BannerSpec.no_version text -> ok = false)) /\
  (forall text v : string,
      Version.match_banner text = Some v <-> BannerSpec.first_version text v) /\
  (forall text : string,
      Version.match_banner text = None <-> BannerSpec.no_version text).
Proof.
  intros HN. split; [exact (VersionFacts.compareVersions_lex B HN)|].
  split; [exact (VersionFacts.compareVersions_equal_example B HN)|].
  split; [rewrite (VersionFacts.compareVersions_numeric_example B HN); lia|].
  split; [|split; [exact BannerFacts.match_banner_first
                  |exact BannerFacts.match_banner_none]].
  intros minVersion w.
  unfold GitService.validateGitVersion, Effects.try_catch, Effects.bind,
    Effects.raw.
  destruct (git_raw ["--version"] (Effects.env w)) as [[e|text] env'] eqn:Hraw.
  - exists false. cbn. split; [reflexivity|]. split.
    + split; [discriminate|]. intros (text & v & Ht & _). discriminate Ht.
    + reflexivity.
  - cbn [fst]. destruct (Version.match_banner text) as [v|] eqn:Hm.
    + exists (Version.compareVersions v minVersion >=? 0). cbn [fst].
      split; [reflexivity|]. split.
      * split.
        -- intros Hge. exists text, v. split; [reflexivity|].
           split; [now apply BannerFacts.match_banner_first|].
           apply Z.geb_le in Hge. lia.
        -- intros (text' & v' & [= <-] & Hm' & Hge).
           apply BannerFacts.match_banner_first in Hm'.
           rewrite Hm in Hm'. injection Hm' as <-. apply Z.geb_le. lia.
      * intros text' [= <-] Hnone.
        apply BannerFacts.match_banner_none in Hnone.
        rewrite Hm in Hnone. discriminate.
    + exists false. cbn. split; [reflexivity|]. split.
      * split; [discriminate|].
        intros (text' & v' & [= <-] & Hm' & _).
        apply BannerFacts.match_banner_first in Hm'.
        rewrite Hm in Hm'. discriminate.
      * reflexivity.
Qed.

(** Beyond 2^53 a Number rounds: two versions whose first components are
    the integers 2^53 + 1 and 2^53 compare equal. *)
Lemma compareVersions_beyond_2_53 :
  Version.compareVersions (B := Sample.builtins)
    "9007199254740993.0.0" "9007199254740992.0.0" = 0 /\
  VersionSpec.comparison_sign
    (VersionSpec.lex3
       (decimal_value 0 "9007199254740993") (decimal_value 0 "0")
       (decimal_value 0 "0")
       (decimal_value 0 "9007199254740992") (decimal_value 0 "0")
       (decimal_value 0 "0")) = 1.
Proof. split; vm_compute; reflexivity. Qed.

(** The version of a banner with more than one candidate: the runs of
    digits are taken whole, and the leftmost place wins, also when a later
    one would pass. *)
Example match_banner_whole_runs :
  Version.match_banner "git version 2.30.10 (then git version 9.9.9)"
  = Some "2.30.10".
Proof. reflexivity. Qed.

Example validateGitVersion_leftmost_version :
  fst (GitService.validateGitVersion
         (H := Sample.host) (B := Sample.builtins) "2.30.0"
         (Sample.world_of
            (Sample.mkRepo "git version 1.0.0 (wraps git version 9.9.9)"
                           "" [] [] [] [] false)
            [] TerminalTracker.initial))
  = inr false.
Proof. vm_compute. reflexivity. Qed.

Lemma compareVersions_validateGitVersion_witness :
  Number_reads_decimals Sample.builtins /\
  Version.compareVersions (B := Sample.builtins) "2.9.0" "2.30.0" < 0 /\
  fst (GitService.validateGitVersion
         (H := Sample.host) (B := Sample.builtins) "2.30.0"
         (Sample.world_of Sample.repo [] TerminalTracker.initial)) = inr true.
Proof.
  split; [exact SampleFacts.Number_reads_decimals_sample|].
  destruct (compareVersions_validateGitVersion
              Sample.Repo Sample.host Sample.builtins
              SampleFacts.Number_reads_decimals_sample) as (_ & _ & Hlt & _).
  split; [exact Hlt|]. vm_compute. reflexivity.
Defined.

(** C5.  Whatever the external tool does, the four read-only operations of
    the gateway resolve (they never reject); and when the tool fails, each
    one resolves to its default - no worktree, a count of zero, no such
    branch, no branch - after one line on the error console. *)
Theorem read_operations_degrade (Env : Type) (H : Host Env)
  (w : Effects.World Env) :
  ((exists v, fst (GitService.listWorktrees w) = inr v) /\
   (forall p, exists v, fst (GitService.getChangesCount p w) = inr v) /\
   (forall b, exists v, fst (GitService.branchExists b w) = inr v) /\
   (exists v, fst (GitService.getAllBranches w) = inr v)) /\
  (forall e env',
      git_raw ["worktree"; "list"; "--porcelain"] (Effects.env w)
      = (inl e, env') ->
      fst (GitService.listWorktrees w) = inr [] /\
      Effects.console (snd (GitService.listWorktrees w)) =
      Effects.console w
      ++ ["Failed to list worktrees: " +++ GitService.getErrorMessage e]) /\
  (forall p e,
      git_status p (Effects.env w) = inl e ->
      fst (GitService.getChangesCount p w) = inr 0 /\
      Effects.console (snd (GitService.getChangesCount p w)) =
      Effects.console w
      ++ ["Failed to get changes count: " +++ GitService.getErrorMessage e]) /\
  (forall b e,
      git_branchLocal (Effects.env w) = inl e ->
      fst (GitService.branchExists b w) = inr false /\
      Effects.console (snd (GitService.branchExists b w)) =
      Effects.console w
      ++ ["Failed to check branch existence: "
          +++ GitService.getErrorMessage e]) /\
  (forall e,
      git_branchLocal (Effects.env w) = inl e \/
      (exists l, git_branchLocal (Effects.env w) = inr l) /\
      git_branch ["-r"] (Effects.env w) = inl e ->
      fst (GitService.getAllBranches w) = inr [] /\
      Effects.console (snd (GitService.getAllBranches w)) =
      Effects.console w
      ++ ["Failed to fetch branches: " +++ GitService.getErrorMessage e]).
Proof.
  split; [|split; [|split; [|split]]].
  - repeat split.
    + unfold GitService.listWorktrees, Effects.try_catch, Effects.bind,
        Effects.raw.
      destruct (git_raw _ _) as [[e|text] env']; cbn; eauto.
    + intros p. destruct (GatewayFacts.getChangesCount_value p w) as [Hv _].
      eauto.
    + intros b. destruct (GatewayFacts.branchExists_value b w) as [Hv _].
      eauto.
    + unfold GitService.getAllBranches, Effects.try_catch, Effects.bind,
        Effects.query.
      destruct (git_branchLocal _) as [e|l]; cbn; eauto.
      destruct (git_branch _ _) as [e|r]; cbn; eauto.
  - intros e env' Hfail.
    unfold GitService.listWorktrees, Effects.try_catch, Effects.bind,
      Effects.raw. rewrite Hfail. split; reflexivity.
  - intros p e Hfail.
    unfold GitService.getChangesCount, Effects.try_catch, Effects.bind,
      Effects.query. rewrite Hfail. split; reflexivity.
  - intros b e Hfail.
    unfold GitService.branchExists, Effects.try_catch, Effects.bind,
      Effects.query. rewrite Hfail. split; reflexivity.
  - intros e Hfail.
    unfold GitService.getAllBranches, Effects.try_catch, Effects.bind,
      Effects.query.
    destruct Hfail as [-> | [[l ->] ->]]; split; reflexivity.
Qed.

(** The four operations on a host whose tool cannot be run. *)
Example read_operations_without_tool :
  let w := Sample.world_of Sample.broken_repo [] TerminalTracker.initial in
  fst (GitService.listWorktrees (H := Sample.host) w) = inr [] /\
  fst (GitService.getChangesCount (H := Sample.host) "/repo" w) = inr 0 /\
  fst (GitService.branchExists (H := Sample.host) "main" w) = inr false /\
  fst (GitService.getAllBranches (H := Sample.host) w) = inr [].
Proof. vm_compute. repeat split; reflexivity. Qed.

Lemma read_operations_degrade_witness :
  fst (GitService.getChangesCount (H := Sample.host) "/repo"
         (Sample.world_of Sample.broken_repo [] TerminalTracker.initial))
  = inr 0 /\
  Effects.console
    (snd (GitService.getChangesCount (H := Sample.host) "/repo"
            (Sample.world_of Sample.broken_repo [] TerminalTracker.initial)))
  = ["Failed to get changes count: spawn git ENOENT"].
Proof.
  destruct (read_operations_degrade
              Sample.Repo Sample.host
              (Sample.world_of Sample.broken_repo [] TerminalTracker.initial))
    as (_ & _ & Hcount & _).
  exact (Hcount "/repo" Sample.tool_error eq_refl).
Defined.

(** C6.  Closing a terminal that no bucket holds leaves the registry as it
    is, fired notifications included.  Closing a terminal that some bucket
    holds takes the first session attached to it out of the first such
    bucket, leaves every other session and bucket in place, drops the
    bucket if nothing is left in it, and fires the path of that bucket
    once.  After any sequence of track and untrack calls the keys of the
    map are distinct and no path maps to an empty list of sessions. *)
Theorem removeTerminal_registry :
  (forall (st : TerminalTracker.t) (h : TerminalTracker.Terminal),
      Registry.lacks h (TerminalTracker.terminals st) ->
      TerminalTracker.removeTerminal h st = st) /\
  (forall (st : TerminalTracker.t) (h : TerminalTracker.Terminal)
          (before after : TerminalTracker.TerminalMap) (p : string)
          (pre post : list TerminalTracker.TrackedTerminal)
          (s : TerminalTracker.TrackedTerminal),
      Registry.well_keyed (TerminalTracker.terminals st) ->
      TerminalTracker.terminals st = before ++ (p, pre ++ s :: post) :: after ->
      Registry.lacks h before -> Registry.bucket_lacks h pre ->
      TerminalTracker.terminal s = h ->
      TerminalTracker.removeTerminal h st =
      TerminalTracker.mkTracker
        (before ++ match pre ++ post with
                   | [] => []
                   | _ :: _ => [(p, pre ++ post)]
                   end ++ after)
        (TerminalTracker.fired st ++ [p])) /\
  (forall (cs : list TerminalTracker.command),
      Registry.well_keyed (TerminalTracker.terminals (TerminalTracker.run_all cs)) /\
      forall (p : string) (bucket : list TerminalTracker.TrackedTerminal),
        In (p, bucket) (TerminalTracker.terminals (TerminalTracker.run_all cs)) ->
        bucket <> []).
Proof.
  split; [intros st h; apply TrackerFacts.removeTerminal_absent|].
  split; [intros st h before after p pre post s;
          apply TrackerFacts.removeTerminal_present|].
  intros cs. destruct (TrackerFacts.run_all_invariant cs) as [Hkeys Hne].
  split; [exact Hkeys|]. intros p bucket Hin.
  unfold Registry.no_empty_bucket in Hne. rewrite Forall_forall in Hne.
  exact (Hne _ Hin).
Qed.

(** A run of the registry: two sessions on one worktree, the first one
    closed, then the second, then a terminal nobody tracks. *)
Example removeTerminal_run :
  let st := Sample.two_sessions in
  TerminalTracker.getActiveCLIs "/wt/feature" st = ["claude"; "aider"] /\
  TerminalTracker.getActiveCLIs "/wt/feature"
    (TerminalTracker.removeTerminal 1%nat st) = ["aider"] /\
  TerminalTracker.terminals
    (TerminalTracker.removeTerminal 2%nat
       (TerminalTracker.removeTerminal 1%nat st)) = [] /\
  TerminalTracker.removeTerminal 7%nat st = st.
Proof. vm_compute. repeat split; reflexivity. Qed.

Lemma removeTerminal_registry_witness :
  TerminalTracker.removeTerminal 1%nat Sample.two_sessions =
  TerminalTracker.mkTracker
    [("/wt/feature", [TerminalTracker.mkTracked 2%nat "aider" "/wt/feature" 101])]
    ["/wt/feature"; "/wt/feature"; "/wt/feature"].
Proof.
  destruct removeTerminal_registry as (_ & Hpresent & _).
  apply (Hpresent Sample.two_sessions 1%nat [] [] "/wt/feature" []
           [TerminalTracker.mkTracked 2%nat "aider" "/wt/feature" 101]
           (TerminalTracker.mkTracked 1%nat "claude" "/wt/feature" 100)).
  - constructor; [intros [] | constructor].
  - reflexivity.
  - constructor.
  - constructor.
  - reflexivity.
Defined.

(** C7.  [validateCreateOptions] always resolves, to the messages of the
    violated checks in the order of the checks: the name is not a
    non-empty run of letters, digits, hyphens and underscores; no new
    branch is asked for and the branch is not a local branch; the
    destination path exists.  Every check is made whatever the others
    found, so a name with a space in it always has its message in the
    list. *)
Theorem validateCreateOptions_collects (Env : Type) (H : Host Env)
  (B : Builtins) (rootPath : string) (options : WorktreeCreateOptions)
  (w : Effects.World Env) :
  let fullPath := path_join [rootPath; basePath options; name options] in
  exists name_part : list string,
    let errors :=
      name_part
      ++ (if createBranch options then []
          else if GitSpec.is_local_branch (Effects.env w) (opt_branch options)
               then []
               else [WorktreeManager.branch_error (opt_branch options)])
      ++ (match fs_stat fullPath (Effects.env w) with
          | inr _ => [WorktreeManager.path_error fullPath]
          | inl _ => []
          end) in
    fst (WorktreeManager.validateCreateOptions rootPath options w)
    = inr errors /\
    (NameSpec.well_formed (name options) -> name_part = []) /\
    (~ NameSpec.well_formed (name options) ->
     name_part = [WorktreeManager.name_error]) /\
    (JsString.contains " " (name options) = true ->
     In WorktreeManager.name_error errors).
Proof.
  cbv zeta.
  exists (if WorktreeManager.name_matches (name options) then []
          else [WorktreeManager.name_error]).
  split; [apply ManagerFacts.validateCreateOptions_value|].
  pose proof (NameFacts.name_matches_well_formed (name options)) as Hname.
  repeat split.
  - intros Hok. apply Hname in Hok. now rewrite Hok.
  - intros Hbad. destruct (WorktreeManager.name_matches (name options));
      [|reflexivity]. destruct Hbad. now apply Hname.
  - intros Hspace. apply in_or_app. left.
    rewrite (ManagerFacts.name_with_space _ Hspace). now left.
Qed.

(** The example of the specification: the name [feat auth]. *)
Example validateCreateOptions_space :
  fst (WorktreeManager.validateCreateOptions
         (H := Sample.host) (B := Sample.builtins) "/repo"
         (mkWorktreeCreateOptions "feat auth" "main" ".." false [] false false)
         (Sample.world_of Sample.repo [] TerminalTracker.initial))
  = inr [WorktreeManager.name_error].
Proof. vm_compute. reflexivity. Qed.

Lemma validateCreateOptions_collects_witness :
  fst (WorktreeManager.validateCreateOptions
         (H := Sample.host) (B := Sample.builtins) "/wt"
         (mkWorktreeCreateOptions "feat auth" "origin/hotfix" "" false
                                  [] false false)
         (Sample.world_of Sample.repo [] TerminalTracker.initial))
  = inr [WorktreeManager.name_error;
         WorktreeManager.branch_error "origin/hotfix"].
Proof.
  destruct (validateCreateOptions_collects
              Sample.Repo Sample.host Sample.builtins "/wt"
              (mkWorktreeCreateOptions "feat auth" "origin/hotfix" ""
                                       false [] false false)
              (Sample.world_of Sample.repo [] TerminalTracker.initial))
    as (name_part & Hrun & _ & Hbad & _).
  rewrite Hrun, Hbad; [reflexivity|].
  intros Hok. apply NameFacts.name_matches_well_formed in Hok.
  discriminate Hok.
Defined.

(** C9.  [branchExists] looks at the local branches only.  A name that the
    tool lists among the remote branches and not among the local ones is
    in the result of [getAllBranches], [branchExists] resolves to false for
    it, and [validateCreateOptions] without [createBranch] reports it as a
    branch that does not exist. *)
Theorem remote_only_branch_rejected (Env : Type) (H : Host Env) (B : Builtins)
  (w : Effects.World Env) (b : string) (locals remotes : list string)
  (rootPath : string) (options : WorktreeCreateOptions) :
  git_branchLocal (Effects.env w) = inr locals ->
  git_branch ["-r"] (Effects.env w) = inr remotes ->
  In b (map JsString.trim remotes) -> ~ In b locals ->
  createBranch options = false -> opt_branch options = b ->
  (exists all, fst (GitService.getAllBranches w) = inr all /\ In b all) /\
  fst (GitService.branchExists b w) = inr false /\
  (exists errors,
      fst (WorktreeManager.validateCreateOptions rootPath options w)
      = inr errors /\
      In (WorktreeManager.branch_error b) errors).
Proof.
  intros Hlocal Hremote Hin Hnotin Hcreate Hbranch.
  assert (Hfalse : GitSpec.is_local_branch (Effects.env w) b = false).
  { unfold GitSpec.is_local_branch. rewrite Hlocal.
    now apply BranchFacts.includes_false. }
  split; [|split].
  - unfold GitService.getAllBranches, Effects.try_catch, Effects.bind,
      Effects.query, Effects.ret. rewrite Hlocal, Hremote.
    eexists. split; [reflexivity|].
    apply BranchFacts.dedupe_In, in_or_app. now right.
  - destruct (GatewayFacts.branchExists_value b w) as [Hv _].
    now rewrite Hv, Hfalse.
  - eexists.
    split; [apply ManagerFacts.validateCreateOptions_value|].
    rewrite Hcreate, Hbranch, Hfalse.
    apply in_or_app. right. apply in_or_app. left. now left.
Qed.

Lemma remote_only_branch_rejected_witness :
  exists all,
    fst (GitService.getAllBranches (H := Sample.host)
           (Sample.world_of Sample.repo [] TerminalTracker.initial)) = inr all /\
    In "origin/hotfix" all /\
    fst (GitService.branchExists (H := Sample.host) "origin/hotfix"
           (Sample.world_of Sample.repo [] TerminalTracker.initial))
    = inr false.
Proof.
  destruct (remote_only_branch_rejected
              Sample.Repo Sample.host Sample.builtins
              (Sample.world_of Sample.repo [] TerminalTracker.initial)
              "origin/hotfix" ["main"; "feature"]
              ["origin/main"; "origin/hotfix"] "/repo"
              (mkWorktreeCreateOptions "hotfix" "origin/hotfix" ".." false
                                       [] false false))
    as ((all & Hall & Hin) & Hexists & _);
    try reflexivity.
  - vm_compute. tauto.
  - vm_compute. intros [Heq|[Heq|[]]]; discriminate Heq.
  - exists all. repeat split; assumption.
Defined.

(** C10.  [getWorktrees] resolves to the listed records, as many and in
    the same order, each one unchanged in [path], [branch], [commit],
    [isMain], [isLocked] (and [activeCLIs]) and given a [changes] count,
    whatever the order in which the lookups settle. *)
Theorem getWorktrees_frame (Env : Type) (H : Host Env) (sched : list nat)
  (w : Effects.World Env) :
  exists listed enriched : list WorktreeInfo,
    fst (GitService.listWorktrees w) = inr listed /\
    fst (WorktreeManager.getWorktrees sched w) = inr enriched /\
    length enriched = length listed /\
    Forall2 (fun wt out =>
               path out = path wt /\ branch out = branch wt /\
               commit out = commit wt /\ isMain out = isMain wt /\
               isLocked out = isLocked wt /\
               activeCLIs out = activeCLIs wt /\
               changes out =
               Some (GitSpec.changes_of
                       (Effects.env (snd (GitService.listWorktrees w)))
                       (path wt)))
            listed enriched.
Proof.
  destruct (ViewFacts.getWorktrees_value sched w) as (listed & Hlist & Hout).
  eexists listed, _. split; [exact Hlist|]. split; [exact Hout|].
  split; [apply length_map|].
  clear. induction listed as [|wt listed IH]; cbn [map]; constructor;
    [now repeat split | exact IH].
Qed.

Lemma getWorktrees_frame_witness :
  exists listed enriched : list WorktreeInfo,
    fst (GitService.listWorktrees (H := Sample.host)
           (Sample.world_of Sample.repo [] TerminalTracker.initial))
    = inr listed /\
    fst (WorktreeManager.getWorktrees (H := Sample.host) [1%nat; 0%nat]
           (Sample.world_of Sample.repo [] TerminalTracker.initial))
    = inr enriched /\
    length enriched = length listed /\
    map changes enriched = [Some 0; Some 3].
Proof.
  destruct (getWorktrees_frame Sample.Repo Sample.host [1%nat; 0%nat]
              (Sample.world_of Sample.repo [] TerminalTracker.initial))
    as (listed & enriched & Hlisted & Henriched & Hlength & _).
  exists listed, enriched. repeat split; try assumption.
  assert (Hrun : fst (WorktreeManager.getWorktrees
                        (H := Sample.host) [1%nat; 0%nat]
                        (Sample.world_of Sample.repo [] TerminalTracker.initial))
                 = inr [WorktreeManager.with_changes
                          (mkWorktreeInfo "/repo" None None true false
                                          None None) 0;
                        WorktreeManager.with_changes
                          (mkWorktreeInfo "/wt/feature"
                             (Some "refs/heads/feature") (Some "1a2b3c4")
                             false true None None) 3])
    by (vm_compute; reflexivity).
  rewrite Hrun in Henriched. injection Henriched as <-. reflexivity.
Defined.

(** ** Further facts about the parser *)

Module ListingFacts.
Import JsString Parser Blocks.

Lemma split_not_nil (sep : ascii) (s : string) : split sep s <> [].
Proof.
  destruct s as [|c s]; cbn [split]; [discriminate|].
  destruct (Ascii.eqb c sep); [discriminate|].
  destruct (split sep s); discriminate.
Qed.

Lemma split_append (sep : ascii) (a b : string) :
  split sep (a +++ String sep b) = split sep a ++ split sep b.
Proof.
  induction a as [|c a IH]; cbn [append split].
  - now rewrite Ascii.eqb_refl.
  - rewrite IH. destruct (Ascii.eqb c sep); [reflexivity|].
    destruct (split sep a) as [|hd tl] eqn:Hs; [|reflexivity].
    now apply split_not_nil in Hs.
Qed.

Lemma lines_of_append (a b : string) :
  lines_of (a +++ String LF b) = lines_of a ++ lines_of b.
Proof. unfold lines_of. now rewrite split_append, filter_app. Qed.

Lemma attributes_append (l l2 : list string) :
  attributes l2 = [] -> attributes (l ++ l2) = attributes l.
Proof.
  intros Hl2. induction l as [|x l IH]; cbn [app attributes]; [exact Hl2|].
  destruct (is_header x); [reflexivity | now rewrite IH].
Qed.

Lemma blocks_append (l l2 : list string) :
  attributes l2 = [] -> blocks (l ++ l2) = blocks l ++ blocks l2.
Proof.
  intros Hl2. induction l as [|x l IH]; cbn [app blocks]; [reflexivity|].
  destruct (is_header x); [|exact IH].
  rewrite (attributes_append _ _ Hl2), IH. reflexivity.
Qed.

Lemma records_append (bs bs2 : list (string * list string)) :
  records (bs ++ bs2) = records bs ++ records bs2.
Proof. unfold records. now rewrite filter_app, map_app. Qed.

Lemma records_have_path (bs : list (string * list string)) :
  Forall (fun r => path r <> "" /\ changes r = None /\ activeCLIs r = None)
         (records bs).
Proof.
  unfold records. induction bs as [|[p attrs] bs IH]; cbn [filter map];
    [constructor|].
  unfold has_path at 1. cbn [fst]. destruct p as [|c p]; cbn [truthy];
    [exact IH|].
  cbn [map]. constructor; [|exact IH].
  cbn [record_of path changes activeCLIs]. repeat split. discriminate.
Qed.

Lemma records_length (lines : list string) :
  (length (records (blocks lines)) <= length (filter is_header lines))%nat.
Proof.
  unfold records. rewrite length_map.
  induction lines as [|x lines IH]; cbn [blocks filter]; [apply Nat.le_refl|].
  destruct (is_header x); [|exact IH].
  cbn [filter]. destruct (has_path _); cbn [length]; lia.
Qed.

End ListingFacts.

Module TrimFacts.
Import JsString Porcelain.

Lemma trimStart_truthy (s : string) :
  truthy (trimStart s) = negb (blank s).
Proof.
  unfold blank. induction s as [|c s IH]; cbn [trimStart forallb_string];
    [reflexivity|].
  destruct (is_whitespace c); [exact IH | reflexivity].
Qed.

Lemma blank_trimStart (s : string) : blank (trimStart s) = blank s.
Proof.
  unfold blank. induction s as [|c s IH]; cbn [trimStart forallb_string];
    [reflexivity|].
  destruct (is_whitespace c) eqn:Hc; [exact IH|].
  cbn [forallb_string]. now rewrite Hc.
Qed.

Lemma blank_rev_string (s acc : string) :
  blank (rev_string acc s) = (blank acc && blank s)%bool.
Proof.
  unfold blank. revert acc.
  induction s as [|c s IH]; intros acc; cbn [rev_string forallb_string].
  - now rewrite andb_true_r.
  - rewrite IH. cbn [forallb_string].
    destruct (is_whitespace c), (forallb_string is_whitespace acc); reflexivity.
Qed.

Lemma truthy_rev_string (s acc : string) :
  truthy (rev_string acc s) = (truthy acc || truthy s)%bool.
Proof.
  revert acc. induction s as [|c s IH]; intros acc; cbn [rev_string].
  - now rewrite orb_false_r.
  - rewrite IH. cbn [truthy]. now destruct acc.
Qed.

(** [s.trim()] is truthy exactly when [s] has a character that is not
    white space. *)
Lemma trim_truthy (s : string) : truthy (trim s) = negb (blank s).
Proof.
  unfold trim. rewrite truthy_rev_string. cbn [truthy orb].
  rewrite trimStart_truthy, blank_rev_string, blank_trimStart. reflexivity.
Qed.

Lemma contains_append (c : ascii) (a b : string) :
  contains c (a +++ b) = (contains c a || contains c b)%bool.
Proof.
  induction a as [|x a IH]; cbn [append contains]; [reflexivity|].
  rewrite IH. now destruct (Ascii.eqb x c).
Qed.

Lemma split_one_line (s : string) : one_line s = true -> split LF s = [s].
Proof.
  unfold one_line. induction s as [|c s IH]; cbn [contains split];
    [reflexivity|].
  destruct (Ascii.eqb c LF); [discriminate|]. cbn [orb]. intros Hs.
  now rewrite (IH Hs).
Qed.

Lemma append_reassoc (a b c : string) : (a +++ b) +++ c = a +++ b +++ c.
Proof. induction a as [|x a IH]; cbn [append]; [reflexivity | now f_equal]. Qed.

(** A kept line followed by a line feed is the first line of the text. *)
Lemma lines_of_line (s rest : string) :
  one_line s = true -> blank s = false ->
  Parser.lines_of (s +++ String LF rest) = s :: Parser.lines_of rest.
Proof.
  intros Hone Hblank. rewrite ListingFacts.lines_of_append.
  unfold Parser.lines_of at 1. rewrite (split_one_line _ Hone).
  cbn [filter]. now rewrite trim_truthy, Hblank.
Qed.

Lemma lines_of_empty_line (rest : string) :
  Parser.lines_of (String LF rest) = Parser.lines_of rest.
Proof. exact (ListingFacts.lines_of_append "" rest). Qed.

End TrimFacts.

Module RoundTripFacts.
Import JsString Parser Blocks Porcelain.

Lemma lines_of_prefixed (a s rest : string) :
  one_line (a +++ s) = true -> blank (a +++ s) = false ->
  lines_of (a +++ s +++ LFs +++ rest) = (a +++ s) :: lines_of rest.
Proof.
  intros Hone Hblank. rewrite <- TrimFacts.append_reassoc.
  now apply TrimFacts.lines_of_line.
Qed.

Lemma lines_of_optional (prefix : string) (o : option string) (rest : string) :
  one_line prefix = true -> one_line_opt o = true ->
  (forall s, blank (prefix +++ s) = false) ->
  lines_of (match o with
            | Some s => prefix +++ s +++ LFs
            | None => ""
            end +++ rest) =
  match o with Some s => [prefix +++ s] | None => [] end ++ lines_of rest.
Proof.
  intros Hprefix Ho Hblank. destruct o as [s|]; [|reflexivity].
  rewrite !TrimFacts.append_reassoc. cbn [app].
  apply lines_of_prefixed; [|apply Hblank].
  unfold one_line in *. rewrite TrimFacts.contains_append.
  cbn [one_line_opt] in Ho. unfold one_line in Ho.
  apply negb_true_iff in Hprefix, Ho. now rewrite Hprefix, Ho.
Qed.

Lemma lines_of_flag (word : string) (b : bool) (rest : string) :
  one_line word = true -> blank word = false ->
  lines_of ((if b then word +++ LFs else "") +++ rest) =
  (if b then [word] else []) ++ lines_of rest.
Proof.
  intros Hone Hblank. destruct b; [|reflexivity].
  rewrite TrimFacts.append_reassoc. cbn [app].
  now apply TrimFacts.lines_of_line.
Qed.

(** The lines of a rendered record are its own lines. *)
Lemma lines_of_render_record (r : WorktreeInfo) (rest : string) :
  listable r = true ->
  lines_of (render_record r +++ rest) = record_lines r ++ lines_of rest.
Proof.
  unfold listable. intros Hr.
  apply andb_true_iff in Hr as [Hr Hbranch].
  apply andb_true_iff in Hr as [Hr Hcommit].
  apply andb_true_iff in Hr as [_ Hpath].
  unfold render_record, record_lines.
  rewrite !TrimFacts.append_reassoc.
  rewrite lines_of_prefixed; [|
    unfold one_line in *; rewrite TrimFacts.contains_append;
    apply negb_true_iff in Hpath; now rewrite Hpath | reflexivity].
  rewrite (lines_of_optional "HEAD "); [|reflexivity | exact Hcommit |reflexivity].
  rewrite (lines_of_optional "branch "); [|reflexivity | exact Hbranch |reflexivity].
  rewrite (lines_of_flag "bare"); [|reflexivity | reflexivity].
  rewrite (lines_of_flag "locked"); [|reflexivity | reflexivity].
  change (LFs +++ rest) with (String LF rest).
  rewrite TrimFacts.lines_of_empty_line.
  cbn [app]. now rewrite <- !app_assoc.
Qed.

Lemma blocks_record_lines (r : WorktreeInfo) (L : list string) :
  truthy (path r) = true -> attributes L = [] ->
  records (blocks (record_lines r ++ L)) = essential r :: records (blocks L).
Proof.
  intros Hpath HL. destruct r as [p b c m l ch ac].
  cbn [path] in Hpath.
  unfold record_lines, essential.
  cbn [path branch commit isMain isLocked app blocks].
  change (is_header ("worktree " +++ p)) with true. cbv iota.
  change (substring_from 9 ("worktree " +++ p)) with p.
  unfold records. cbn [filter]. unfold has_path at 1. cbn [fst].
  rewrite Hpath. cbn [map]. f_equal.
  - destruct c as [c|], b as [b|], m, l;
      cbn [app attributes]; rewrite ?HL; reflexivity.
  - destruct c as [c|], b as [b|], m, l; cbn [app blocks]; reflexivity.
Qed.

Lemma attributes_render (rs : list WorktreeInfo) :
  Forall (fun r => listable r = true) rs ->
  attributes (lines_of (render rs)) = [].
Proof.
  intros Hrs. destruct Hrs as [|r rs Hr _]; [reflexivity|].
  cbn [render]. rewrite (lines_of_render_record _ _ Hr). reflexivity.
Qed.

(** Reading back a rendered listing. *)
Lemma parse_render (rs : list WorktreeInfo) :
  Forall (fun r => listable r = true) rs ->
  parseWorktreeList (render rs) = map essential rs.
Proof.
  intros Hrs. rewrite ParserFacts.parseWorktreeList_blocks.
  induction Hrs as [|r rs Hr Hrs IH]; [reflexivity|].
  cbn [render map]. rewrite (lines_of_render_record _ _ Hr).
  rewrite blocks_record_lines; [now rewrite IH | | now apply attributes_render].
  unfold listable in Hr. now repeat (apply andb_true_iff in Hr as [Hr _]).
Qed.

End RoundTripFacts.

(** ** Further properties of the parser *)

(** X1.  Every record [parseWorktreeList] gives has a non-empty path and no
    derived field yet, and the records are never more than the lines that
    start with [worktree ]. *)
Theorem parseWorktreeList_records_have_path (output : string) :
  Forall (fun r => path r <> "" /\ changes r = None /\ activeCLIs r = None)
         (Parser.parseWorktreeList output) /\
  (length (Parser.parseWorktreeList output)
   <= length (filter Blocks.is_header (Parser.lines_of output)))%nat.
Proof.
  rewrite ParserFacts.parseWorktreeList_blocks. split.
  - apply ListingFacts.records_have_path.
  - apply ListingFacts.records_length.
Qed.

(** X2.  Listings compose: when the second text opens with a [worktree ]
    line (or keeps no line at all), the records of the two texts joined by a
    line feed are the records of the first followed by those of the
    second. *)
Theorem parseWorktreeList_append (first second : string) :
  Blocks.attributes (Parser.lines_of second) = [] ->
  Parser.parseWorktreeList (first +++ String JsString.LF second) =
  Parser.parseWorktreeList first ++ Parser.parseWorktreeList second.
Proof.
  intros Hopen. rewrite !ParserFacts.parseWorktreeList_blocks.
  rewrite ListingFacts.lines_of_append.
  rewrite (ListingFacts.blocks_append _ _ Hopen).
  apply ListingFacts.records_append.
Qed.

Lemma parseWorktreeList_append_witness :
  Parser.parseWorktreeList
    ("worktree /a" +++ String JsString.LF "worktree /b") =
  Parser.parseWorktreeList "worktree /a"
  ++ Parser.parseWorktreeList "worktree /b".
Proof. apply parseWorktreeList_append. reflexivity. Defined.

(** X3.  Round trip: a listing laid out from records that the layout can
    carry (a non-empty path, no line feed in path, commit and branch) is
    read back as these records, in order, with their path, branch, commit,
    [isMain] and [isLocked]. *)
Theorem parseWorktreeList_render (rs : list WorktreeInfo) :
  Forall (fun r => Porcelain.listable r = true) rs ->
  Parser.parseWorktreeList (Porcelain.render rs) = map Porcelain.essential rs.
Proof. apply RoundTripFacts.parse_render. Qed.

Lemma parseWorktreeList_render_witness :
  Parser.parseWorktreeList
    (Porcelain.render [Sample.main_record; Sample.dirty_record]) =
  map Porcelain.essential [Sample.main_record; Sample.dirty_record].
Proof.
  apply parseWorktreeList_render. repeat constructor.
Defined.

(** ** Further facts about versions *)

Module OrderFacts.
Import JsString Version VersionSpec.

Lemma js_lt_irrefl (a : jsnum) : js_lt a a = false.
Proof.
  destruct a as [|q| |]; cbn [js_lt]; try reflexivity.
  unfold Qle_bool. now rewrite Z.leb_refl.
Qed.

Lemma js_lt_asym (a b : jsnum) : js_lt a b = true -> js_lt b a = false.
Proof.
  destruct a as [|x| |], b as [|y| |]; cbn [js_lt]; try discriminate;
    try reflexivity.
  unfold Qle_bool.
  destruct (Z.leb_spec (Qnum y * QDen x) (Qnum x * QDen y)); [discriminate|].
  destruct (Z.leb_spec (Qnum x * QDen y) (Qnum y * QDen x)); [reflexivity|lia].
Qed.

Section WithBuiltins.
Context {B : Builtins}.

Lemma compare_from_refl (parts : list jsnum) (todo i : nat) :
  compare_from parts parts i todo = 0.
Proof.
  revert i. induction todo as [|todo IH]; intros i; cbn [compare_from];
    [reflexivity|].
  unfold js_gt. now rewrite js_lt_irrefl, IH.
Qed.

Lemma compare_from_opp (p q : list jsnum) (todo i : nat) :
  compare_from p q i todo = - compare_from q p i todo.
Proof.
  revert i. induction todo as [|todo IH]; intros i; cbn [compare_from];
    [reflexivity|].
  unfold js_gt.
  destruct (js_lt (part q i) (part p i)) eqn:Hqp.
  - now rewrite (js_lt_asym _ _ Hqp).
  - destruct (js_lt (part p i) (part q i)); [reflexivity | apply IH].
Qed.

End WithBuiltins.

Section Decimals.
Context (B : Builtins) (HN : Number_reads_decimals B).

Lemma split_two (major minor : string) :
  is_decimal major = true -> is_decimal minor = true ->
  split "." (major +++ "." +++ minor) = [major; minor].
Proof.
  unfold is_decimal. intros H1 H2.
  apply andb_true_iff in H1 as [_ H1]. apply andb_true_iff in H2 as [_ H2].
  change ("." +++ minor) with (String "." minor).
  rewrite (VersionFacts.split_digit_run _ _ H1).
  now rewrite (VersionFacts.split_digits _ H2).
Qed.

Lemma compareVersions_short (a1 a2 a3 b1 b2 : string) :
  Forall (fun d => is_decimal d = true /\ decimal_value 0 d < 2 ^ 53)
         [a1; a2; a3; b1; b2] ->
  compareVersions (dotted a1 a2 a3) (b1 +++ "." +++ b2) =
  comparison_sign
    (lex3 (decimal_value 0 a1) (decimal_value 0 a2) 0
          (decimal_value 0 b1) (decimal_value 0 b2) 0).
Proof.
  intros Hall. rewrite Forall_forall in Hall.
  destruct (Hall a1) as [Ha1 Sa1]; [cbn; tauto|].
  destruct (Hall a2) as [Ha2 Sa2]; [cbn; tauto|].
  destruct (Hall a3) as [Ha3 Sa3]; [cbn; tauto|].
  destruct (Hall b1) as [Hb1 Sb1]; [cbn; tauto|].
  destruct (Hall b2) as [Hb2 Sb2]; [cbn; tauto|].
  unfold compareVersions.
  rewrite VersionFacts.split_dotted, split_two by assumption. cbn [map].
  rewrite !(VersionFacts.Number_decimal B HN) by assumption.
  unfold compare_from, part, js_gt, lex3. cbn [nth].
  rewrite !VersionFacts.js_lt_integers. cbn [js_lt].
  repeat match goal with
         | |- context [?x <? ?y] => destruct (Z.ltb_spec x y)
         end;
    repeat match goal with
           | |- context [?x ?= ?y] => destruct (Z.compare_spec x y)
           end; cbn [comparison_sign]; try reflexivity; lia.
Qed.

End Decimals.
End OrderFacts.

(** ** Further properties of versions *)

(** X4.  Whatever the two texts are and whatever [Number] makes of their
    components, [compareVersions] gives 0 on equal arguments and opposite
    results when its arguments are exchanged. *)
Theorem compareVersions_antisymmetric (B : Builtins) (v1 v2 : string) :
  Version.compareVersions v1 v1 = 0 /\
  Version.compareVersions v1 v2 = - Version.compareVersions v2 v1.
Proof.
  unfold Version.compareVersions. split.
  - apply OrderFacts.compare_from_refl.
  - apply OrderFacts.compare_from_opp.
Qed.

(** X5.  A version with two components is compared on these two only: the
    component that is missing reads [undefined], compares as NaN, and never
    decides, so [major.minor] is neither above nor below any
    [major.minor.patch] with the same first two components. *)
Theorem compareVersions_missing_patch (B : Builtins)
  (a1 a2 a3 b1 b2 : string) :
  Number_reads_decimals B ->
  Forall (fun d => VersionSpec.is_decimal d = true /\
                   decimal_value 0 d < 2 ^ 53)
         [a1; a2; a3; b1; b2] ->
  Version.compareVersions (VersionSpec.dotted a1 a2 a3) (b1 +++ "." +++ b2) =
  VersionSpec.comparison_sign
    (VersionSpec.lex3 (decimal_value 0 a1) (decimal_value 0 a2) 0
                      (decimal_value 0 b1) (decimal_value 0 b2) 0).
Proof. intros HN. now apply OrderFacts.compareVersions_short. Qed.

Lemma compareVersions_missing_patch_witness :
  Version.compareVersions (B := Sample.builtins) "2.30.7" "2.30" = 0.
Proof.
  apply (compareVersions_missing_patch Sample.builtins "2" "30" "7" "2" "30"
           SampleFacts.Number_reads_decimals_sample).
  repeat constructor.
Defined.

(** ** Further facts about the gateway and the orchestrator *)

Module DedupeFacts.
Import JsString JsArray.

Lemma dedupe_from_sound (arr : list string) :
  forall seen x, In x (dedupe_from seen arr) -> In x arr /\ ~ In x seen.
Proof.
  induction arr as [|y arr IH]; intros seen x Hin; [contradiction|].
  cbn [dedupe_from] in Hin. destruct (includes seen y) eqn:Hy.
  - destruct (IH _ _ Hin) as [Harr Hseen]. split; [now right | exact Hseen].
  - destruct Hin as [<-|Hin].
    + split; [now left | now apply BranchFacts.includes_false].
    + destruct (IH _ _ Hin) as [Harr Hseen]. split; [now right|].
      intros Hs. apply Hseen, in_or_app. now left.
Qed.

Lemma dedupe_from_NoDup (arr : list string) :
  forall seen, NoDup (dedupe_from seen arr).
Proof.
  induction arr as [|y arr IH]; intros seen; cbn [dedupe_from];
    [constructor|].
  destruct (includes seen y); [apply IH|].
  constructor; [|apply IH].
  intros Hin. apply dedupe_from_sound in Hin as [_ Hseen].
  apply Hseen, in_or_app. right. now left.
Qed.

End DedupeFacts.

Module MutationFacts.
Import JsString Effects.

Section WithHost.
Context {Env : Type} {H : Host Env} {B : Builtins}.

(** The run of the orchestrator's [removeWorktree], case by case. *)
Lemma removeWorktree_cancelled (worktree : WorktreeInfo) (w : World Env) :
  WorldSpec.next_answer w <> Some "Remove" ->
  WorktreeManager.removeWorktree worktree w =
  (inr false,
   WorldSpec.prompted (RemovalTexts.question worktree) ["Remove"; "Cancel"] w).
Proof.
  intros Hanswer.
  unfold WorktreeManager.removeWorktree, try_catch.
  unfold bind at 1. unfold showWarningMessage at 1.
  unfold WorldSpec.next_answer in Hanswer.
  unfold WorldSpec.prompted, RemovalTexts.question.
  destruct (answers w) as [|[a|] rest]; [reflexivity | | reflexivity].
  destruct (String.eqb_spec a "Remove") as [->|Hne]; [contradiction|].
  reflexivity.
Qed.

Lemma removeWorktree_run (worktree : WorktreeInfo) (w : World Env) :
  WorldSpec.next_answer w = Some "Remove" ->
  let args := GitService.remove_args (path worktree)
                (WorktreeManager.hasChanges worktree) in
  let w1 := WorldSpec.prompted (RemovalTexts.question worktree)
                               ["Remove"; "Cancel"] w in
  WorktreeManager.removeWorktree worktree w =
  match git_raw args (env w) with
  | (inr _, e') =>
      (inr true,
       mkWorld e' (answers w1)
               (ui w1 ++ [Progress (RemovalTexts.title worktree);
                          Information (RemovalTexts.removed worktree)])
               (console w) (gitlog w ++ [args]) (tracker w))
  | (inl e, e') =>
      (inr false,
       mkWorld e' (answers w1)
               (ui w1 ++ [Progress (RemovalTexts.title worktree);
                          ErrorMessage (RemovalTexts.refused e)])
               (console w) (gitlog w ++ [args]) (tracker w))
  end.
Proof.
  intros Hanswer. unfold WorldSpec.next_answer in Hanswer.
  cbv zeta.
  unfold WorktreeManager.removeWorktree, try_catch, bind,
    showWarningMessage, withProgress, bind, show,
    GitService.removeWorktree, try_catch, bind, raw, ret, throw,
    WorldSpec.prompted, RemovalTexts.question, RemovalTexts.title,
    RemovalTexts.removed, RemovalTexts.refused.
  destruct (answers w) as [|a rest]; [discriminate|].
  cbn [hd tl] in *. subst a.
  cbn [String.eqb Ascii.eqb Bool.eqb negb].
  destruct (WorktreeManager.hasChanges worktree); cbv beta iota;
    cbn [env gitlog answers ui console tracker fst snd];
    destruct (git_raw _ (env w)) as [[e|out] env'];
    cbn [env gitlog answers ui console tracker fst snd success error negb
         WorktreeManager.error_or WorktreeManager.error_text];
    rewrite <- ?app_assoc; cbn [app];
    first [reflexivity
          | destruct (truthy (GitService.getErrorMessage e)); reflexivity].
Qed.

End WithHost.
End MutationFacts.

(** ** Further properties of the gateway and the orchestrator *)

(** X6.  [getAllBranches] resolves to a list without repetition; when both
    queries of the tool resolve, a name is in it exactly when it is a local
    branch or the trimmed name of a remote branch. *)
Theorem getAllBranches_union (Env : Type) (H : Host Env)
  (w : Effects.World Env) :
  exists all : list string,
    fst (GitService.getAllBranches w) = inr all /\
    NoDup all /\
    (forall locals remotes,
        git_branchLocal (Effects.env w) = inr locals ->
        git_branch ["-r"] (Effects.env w) = inr remotes ->
        forall x, In x all <->
                  In x locals \/ In x (map JsString.trim remotes)).
Proof.
  unfold GitService.getAllBranches, Effects.try_catch, Effects.bind,
    Effects.query, Effects.ret.
  destruct (git_branchLocal (Effects.env w)) as [e|locals].
  - exists []. cbn. repeat split; try constructor; discriminate.
  - destruct (git_branch ["-r"] (Effects.env w)) as [e|remotes].
    + exists []. cbn. repeat split; try constructor; discriminate.
    + eexists. cbn [fst]. split; [reflexivity|].
      split; [apply DedupeFacts.dedupe_from_NoDup|].
      intros locals' remotes' [= <-] [= <-] x. rewrite <- in_app_iff. split.
      * intros Hin. now apply DedupeFacts.dedupe_from_sound in Hin as [Hin _].
      * apply BranchFacts.dedupe_In.
Qed.

(** X7.  The two mutating operations of the gateway never reject and never
    write to the console.  Each passes one argument vector to the tool:
    [worktree add -b <branch> <path>] for a new branch,
    [worktree add <path> <branch>] for an existing one,
    [worktree remove [--force] <path>]; the result has [success] true when
    the tool resolves, and otherwise carries the message of what the tool
    threw, as it is. *)
Theorem gateway_mutations_report (Env : Type) (H : Host Env)
  (w : Effects.World Env) :
  (forall (worktreePath branch : string) (createBranch : bool),
      let args := if createBranch
                  then ["worktree"; "add"; "-b"; branch; worktreePath]
                  else ["worktree"; "add"; worktreePath; branch] in
      exists result,
        fst (GitService.createWorktree worktreePath branch createBranch w)
        = inr result /\
        Effects.gitlog
          (snd (GitService.createWorktree worktreePath branch createBranch w))
        = Effects.gitlog w ++ [args] /\
        Effects.console
          (snd (GitService.createWorktree worktreePath branch createBranch w))
        = Effects.console w /\
        match fst (git_raw args (Effects.env w)) with
        | inr _ => success result = true /\ error result = None
        | inl e => success result = false /\
                   error result = Some (GitService.getErrorMessage e)
        end) /\
  (forall (worktreePath : string) (force : bool),
      let args := ["worktree"; "remove"]
                  ++ (if force then ["--force"] else []) ++ [worktreePath] in
      exists result,
        fst (GitService.removeWorktree worktreePath force w) = inr result /\
        Effects.gitlog (snd (GitService.removeWorktree worktreePath force w))
        = Effects.gitlog w ++ [args] /\
        Effects.console (snd (GitService.removeWorktree worktreePath force w))
        = Effects.console w /\
        match fst (git_raw args (Effects.env w)) with
        | inr _ => success result = true /\ error result = None
        | inl e => success result = false /\
                   error result = Some (GitService.getErrorMessage e)
        end).
Proof.
  split.
  - intros worktreePath branch createBranch. cbv zeta.
    unfold GitService.createWorktree, Effects.try_catch, Effects.bind,
      Effects.raw, Effects.ret.
    destruct createBranch; cbn [negb app];
      destruct (git_raw _ (Effects.env w)) as [[e|out] env'];
      eexists; cbn; repeat split; reflexivity.
  - intros worktreePath force. cbv zeta.
    unfold GitService.removeWorktree, GitService.remove_args,
      Effects.try_catch, Effects.bind, Effects.raw, Effects.ret.
    destruct force; cbn [app];
      destruct (git_raw _ (Effects.env w)) as [[e|out] env'];
      eexists; cbn; repeat split; reflexivity.
Qed.

Lemma gateway_mutations_report_witness :
  exists result,
    fst (GitService.createWorktree (H := Sample.host) "/wt/x" "x" true
           (Sample.world_of Sample.broken_repo [] TerminalTracker.initial))
    = inr result /\
    success result = false /\ error result = Some "spawn git ENOENT".
Proof.
  destruct (gateway_mutations_report
              Sample.Repo Sample.host
              (Sample.world_of Sample.broken_repo [] TerminalTracker.initial))
    as [Hcreate _].
  destruct (Hcreate "/wt/x" "x" true) as (result & Hrun & _ & _ & Hres).
  exists result. split; [exact Hrun | exact Hres].
Defined.

(** X8.  The orchestrator's [removeWorktree] never rejects and never
    touches the session registry or the console: the sessions of a removed
    worktree stay tracked.  It resolves to true exactly when the user
    answered [Remove] and the tool accepted the remove subcommand; without
    that answer nothing reaches the tool and the repository is left as it
    is. *)
Theorem removeWorktree_outcome (Env : Type) (H : Host Env) (B : Builtins)
  (worktree : WorktreeInfo) (w : Effects.World Env) :
  exists ok : bool,
    fst (WorktreeManager.removeWorktree worktree w) = inr ok /\
    Effects.tracker (snd (WorktreeManager.removeWorktree worktree w))
    = Effects.tracker w /\
    Effects.console (snd (WorktreeManager.removeWorktree worktree w))
    = Effects.console w /\
    (ok = true <->
     WorldSpec.next_answer w = Some "Remove" /\
     exists out,
       fst (git_raw (GitService.remove_args
                       (path worktree) (WorktreeManager.hasChanges worktree))
                    (Effects.env w)) = inr out) /\
    (WorldSpec.next_answer w <> Some "Remove" ->
     Effects.gitlog (snd (WorktreeManager.removeWorktree worktree w))
     = Effects.gitlog w /\
     Effects.env (snd (WorktreeManager.removeWorktree worktree w))
     = Effects.env w).
Proof.
  assert (Hdec : WorldSpec.next_answer w = Some "Remove" \/
                 WorldSpec.next_answer w <> Some "Remove").
  { destruct (WorldSpec.next_answer w) as [a|]; [|right; discriminate].
    destruct (String.eqb_spec a "Remove") as [->|Hne];
      [now left | right; congruence]. }
  destruct Hdec as [Hyes|Hno].
  - rewrite (MutationFacts.removeWorktree_run worktree w Hyes). cbv zeta.
    destruct (git_raw _ (Effects.env w)) as [[e|out] env'].
    + exists false. cbn. repeat split; try discriminate; try congruence.
      intros [_ [out Hout]]. discriminate.
    + exists true. cbn. repeat split; try congruence. now exists out.
  - rewrite (MutationFacts.removeWorktree_cancelled worktree w Hno).
    exists false. cbn. repeat split; try discriminate.
    intros [Hyes _]. contradiction.
Qed.

Lemma removeWorktree_outcome_witness :
  fst (WorktreeManager.removeWorktree
         (H := Sample.host) (B := Sample.builtins) Sample.dirty_record
         (Sample.world_of Sample.repo [Some "Remove"] Sample.two_sessions))
  = inr true /\
  Effects.tracker
    (snd (WorktreeManager.removeWorktree
            (H := Sample.host) (B := Sample.builtins) Sample.dirty_record
            (Sample.world_of Sample.repo [Some "Remove"] Sample.two_sessions)))
  = Sample.two_sessions.
Proof.
  destruct (removeWorktree_outcome
              Sample.Repo Sample.host Sample.builtins Sample.dirty_record
              (Sample.world_of Sample.repo [Some "Remove"] Sample.two_sessions))
    as (ok & Hrun & Htracker & _ & Hok & _).
  split; [|exact Htracker].
  rewrite Hrun. f_equal. apply Hok. split; [reflexivity|].
  now exists "".
Defined.

(** X9.  When the user answered [Remove] and the tool refuses, the
    orchestrator's [removeWorktree] resolves to false and the window has
    been asked for the prompt, the progress notification and one error
    message: the fixed prefix followed by the message of the tool, or by
    the fixed text when that message is empty. *)
Theorem removeWorktree_refusal_message (Env : Type) (H : Host Env)
  (B : Builtins) (worktree : WorktreeInfo) (w : Effects.World Env)
  (e : Exn) (env' : Env) :
  WorldSpec.next_answer w = Some "Remove" ->
  git_raw (GitService.remove_args
             (path worktree) (WorktreeManager.hasChanges worktree))
          (Effects.env w) = (inl e, env') ->
  fst (WorktreeManager.removeWorktree worktree w) = inr false /\
  Effects.ui (snd (WorktreeManager.removeWorktree worktree w)) =
  Effects.ui w
  ++ [WarningPrompt (RemovalTexts.question worktree) ["Remove"; "Cancel"];
      Progress (RemovalTexts.title worktree);
      ErrorMessage
        ("Failed to remove worktree: "
         +++ (if JsString.truthy (GitService.getErrorMessage e)
              then GitService.getErrorMessage e
              else "Failed to remove worktree"))].
Proof.
  intros Hyes Hraw.
  rewrite (MutationFacts.removeWorktree_run worktree w Hyes). cbv zeta.
  rewrite Hraw. cbn [fst snd Effects.ui WorldSpec.prompted].
  split; [reflexivity|]. now rewrite <- app_assoc.
Qed.

Lemma removeWorktree_refusal_message_witness :
  Effects.ui
    (snd (WorktreeManager.removeWorktree
            (H := Sample.host) (B := Sample.builtins) Sample.dirty_record
            (Sample.world_of Sample.broken_repo [Some "Remove"]
                             TerminalTracker.initial))) =
  [WarningPrompt
     (RemovalTexts.question (B := Sample.builtins) Sample.dirty_record)
     ["Remove"; "Cancel"];
   Progress (RemovalTexts.title (B := Sample.builtins) Sample.dirty_record);
   ErrorMessage "Failed to remove worktree: spawn git ENOENT"].
Proof.
  exact (proj2 (removeWorktree_refusal_message
                  Sample.Repo Sample.host Sample.builtins Sample.dirty_record
                  (Sample.world_of Sample.broken_repo [Some "Remove"]
                                   TerminalTracker.initial)
                  Sample.tool_error Sample.broken_repo eq_refl eq_refl)).
Defined.

(** X10.  [validateCreateOptions] resolves to the empty list exactly when
    the name matches the pattern, a new branch is asked for or the branch
    is a local one, and nothing can be read at the destination path; it
    passes nothing to [git.raw], asks the user nothing and leaves the
    repository and the registry as they are. *)
Theorem validateCreateOptions_passes (Env : Type) (H : Host Env)
  (B : Builtins) (rootPath : string) (options : WorktreeCreateOptions)
  (w : Effects.World Env) :
  (fst (WorktreeManager.validateCreateOptions rootPath options w) = inr [] <->
   WorktreeManager.name_matches (name options) = true /\
   (createBranch options = true \/
    GitSpec.is_local_branch (Effects.env w) (opt_branch options) = true) /\
   exists e,
     fs_stat (path_join [rootPath; basePath options; name options])
             (Effects.env w) = inl e) /\
  Effects.gitlog (snd (WorktreeManager.validateCreateOptions rootPath options w))
  = Effects.gitlog w /\
  Effects.env (snd (WorktreeManager.validateCreateOptions rootPath options w))
  = Effects.env w /\
  Effects.tracker (snd (WorktreeManager.validateCreateOptions rootPath options w))
  = Effects.tracker w /\
  Effects.ui (snd (WorktreeManager.validateCreateOptions rootPath options w))
  = Effects.ui w /\
  Effects.answers (snd (WorktreeManager.validateCreateOptions rootPath options w))
  = Effects.answers w.
Proof.
  split.
  - rewrite ManagerFacts.validateCreateOptions_value.
    destruct (WorktreeManager.name_matches (name options));
      destruct (createBranch options);
      destruct (GitSpec.is_local_branch (Effects.env w) (opt_branch options));
      destruct (fs_stat _ (Effects.env w)) as [e|[]]; cbn [app];
      (split; [intros Heq; try discriminate Heq;
               (split; [reflexivity|]); (split; [tauto|]); now exists e
              |intros (Hname & Hbranch & e' & Hstat);
               try discriminate Hname; try discriminate Hstat;
               try (destruct Hbranch; discriminate); reflexivity]).
  - destruct (fs_stat (path_join [rootPath; basePath options; name options])
                      (Effects.env w)) as [e'|[]] eqn:Hstat;
      destruct (git_branchLocal (Effects.env w)) as [e|branches] eqn:Hlocal;
      unfold WorktreeManager.validateCreateOptions, GitService.branchExists,
        GitService.handleGitError, Effects.console_error,
        Effects.try_catch, Effects.bind, Effects.query, Effects.ret;
      destruct (createBranch options); cbn [negb];
      rewrite ?Hlocal; cbn [Effects.env fst snd];
      try destruct (JsString.includes branches (opt_branch options));
      cbn [negb Effects.env fst snd]; rewrite ?Hstat; cbn;
      repeat split; reflexivity.
Qed.

Lemma validateCreateOptions_passes_witness :
  fst (WorktreeManager.validateCreateOptions
         (H := Sample.host) (B := Sample.builtins) "/wt"
         (mkWorktreeCreateOptions "hotfix" "main" "" false [] false false)
         (Sample.world_of Sample.repo [] TerminalTracker.initial))
  = inr [].
Proof.
  apply (proj1 (validateCreateOptions_passes
                  Sample.Repo Sample.host Sample.builtins "/wt"
                  (mkWorktreeCreateOptions "hotfix" "main" "" false [] false
                                           false)
                  (Sample.world_of Sample.repo [] TerminalTracker.initial))).
  split; [reflexivity|]. split; [now right|].
  now exists (ErrorObj "Error" "ENOENT: no such file or directory").
Defined.

(** ** Further facts about the registry *)

Module LookupFacts.
Import JsArray TerminalTracker Registry RegistryCount.

Lemma map_get_set_same (p : string) (v : list TrackedTerminal)
  (m : TerminalMap) :
  map_get p (map_set p v m) = Some v.
Proof.
  induction m as [|[k u] m IH]; cbn [map_set map_get].
  - now rewrite String.eqb_refl.
  - destruct (String.eqb k p) eqn:Hk; cbn [map_get]; now rewrite Hk.
Qed.

Lemma map_get_set_other (p q : string) (v : list TrackedTerminal)
  (m : TerminalMap) :
  q <> p -> map_get q (map_set p v m) = map_get q m.
Proof.
  intros Hne. induction m as [|[k u] m IH]; cbn [map_set map_get].
  - destruct (String.eqb_spec p q); [congruence | reflexivity].
  - destruct (String.eqb_spec k p) as [->|Hkp]; cbn [map_get].
    + destruct (String.eqb_spec p q); [congruence | reflexivity].
    + now rewrite IH.
Qed.

Lemma map_get_None (p : string) (m : TerminalMap) :
  map_get p m = None <-> ~ In p (map fst m).
Proof.
  induction m as [|[k u] m IH]; cbn [map_get map fst In]; [tauto|].
  destruct (String.eqb_spec k p) as [->|Hne].
  - split; [discriminate | tauto].
  - rewrite IH. tauto.
Qed.

Lemma map_get_Some (p : string) (l : list TrackedTerminal) (m : TerminalMap) :
  map_get p m = Some l ->
  exists before after,
    m = before ++ (p, l) :: after /\ ~ In p (map fst before).
Proof.
  induction m as [|[k u] m IH]; cbn [map_get]; [discriminate|].
  destruct (String.eqb_spec k p) as [->|Hne].
  - intros [= ->]. exists [], m. split; [reflexivity | intros []].
  - intros Hget. destruct (IH Hget) as (before & after & -> & Hnotin).
    exists ((k, u) :: before), after. split; [reflexivity|].
    cbn [map fst In]. tauto.
Qed.

Lemma map_set_new (p : string) (v : list TrackedTerminal) (m : TerminalMap) :
  ~ In p (map fst m) -> map_set p v m = m ++ [(p, v)].
Proof.
  induction m as [|[k u] m IH]; cbn [map_set map fst In app]; [reflexivity|].
  intros Hnotin. destruct (String.eqb_spec k p) as [->|Hne]; [tauto|].
  f_equal. apply IH. tauto.
Qed.

Lemma lacks_app (h : Terminal) (m1 m2 : TerminalMap) :
  lacks h (m1 ++ m2) <-> lacks h m1 /\ lacks h m2.
Proof. unfold lacks. apply Forall_app. Qed.

(** The first session attached to a tracked terminal. *)
Lemma tracked_first (h : Terminal) (m : TerminalMap) :
  existsb (fun e => existsb (fun x => Nat.eqb (terminal x) h) (snd e)) m
  = true ->
  exists before p pre s post after,
    m = before ++ (p, pre ++ s :: post) :: after /\
    lacks h before /\ bucket_lacks h pre /\ terminal s = h.
Proof.
  induction m as [|[k ts] m IH]; cbn [existsb snd]; [discriminate|].
  destruct (existsb (fun x => Nat.eqb (terminal x) h) ts) eqn:Hts.
  - intros _. clear IH.
    assert (Hfirst : exists pre s post,
               ts = pre ++ s :: post /\ bucket_lacks h pre /\ terminal s = h).
    { induction ts as [|x ts IHts]; cbn [existsb] in Hts; [discriminate|].
      destruct (Nat.eqb_spec (terminal x) h) as [Hx|Hx].
      - exists [], x, ts. repeat split; [constructor | exact Hx].
      - cbn [orb] in Hts.
        destruct (IHts Hts) as (pre & s & post & -> & Hpre & Hs).
        exists (x :: pre), s, post. repeat split; [now constructor | exact Hs]. }
    destruct Hfirst as (pre & s & post & -> & Hpre & Hs).
    exists [], k, pre, s, post, m. repeat split; [constructor | exact Hpre | exact Hs].
  - cbn [orb]. intros Hm.
    destruct (IH Hm) as (before & p & pre & s & post & after & -> & Hb & Hpre & Hs).
    exists ((k, ts) :: before), p, pre, s, post, after.
    repeat split; try assumption. constructor; [|exact Hb].
    cbn [snd]. unfold bucket_lacks. apply Forall_forall. intros x Hx Heq.
    assert (existsb (fun x => Nat.eqb (terminal x) h) ts = true); [|congruence].
    apply existsb_exists. exists x. split; [exact Hx | now apply Nat.eqb_eq].
Qed.

Lemma untracked_lacks (h : Terminal) (m : TerminalMap) :
  existsb (fun e => existsb (fun x => Nat.eqb (terminal x) h) (snd e)) m
  = false -> lacks h m.
Proof.
  intros Hm. unfold lacks, bucket_lacks. apply Forall_forall. intros e He.
  apply Forall_forall. intros x Hx Heq.
  assert (existsb (fun e => existsb (fun x => Nat.eqb (terminal x) h) (snd e)) m
          = true); [|congruence].
  apply existsb_exists. exists e. split; [exact He|].
  apply existsb_exists. exists x. split; [exact Hx | now apply Nat.eqb_eq].
Qed.

Lemma sessions_set (p : string) (t0 : TrackedTerminal) (m : TerminalMap) :
  length (flat_map snd
            (map_set p (match map_get p m with Some l => l | None => [] end
                        ++ [t0]) m))
  = S (length (flat_map snd m)).
Proof.
  induction m as [|[k u] m IH]; cbn [map_get map_set flat_map snd];
    [reflexivity|].
  destruct (String.eqb k p); cbn [flat_map snd].
  - rewrite !length_app. cbn [length]. lia.
  - rewrite !length_app, IH. lia.
Qed.

End LookupFacts.

(** ** Further properties of the registry *)

(** X11.  Tracking then looking up: after [trackTerminal] on a worktree
    path, the labels of that path are the labels it had followed by the
    new one, the sessions of every other path are the same, and the path
    has been fired once more. *)
Theorem trackTerminal_lookup (now : Z) (h : TerminalTracker.Terminal)
  (p cli : string) (st : TerminalTracker.t) :
  TerminalTracker.getActiveCLIs p (TerminalTracker.trackTerminal now h p cli st)
  = TerminalTracker.getActiveCLIs p st ++ [cli] /\
  TerminalTracker.hasActiveCLIs p (TerminalTracker.trackTerminal now h p cli st)
  = true /\
  (forall q, q <> p ->
             TerminalTracker.getTerminals
               q (TerminalTracker.trackTerminal now h p cli st)
             = TerminalTracker.getTerminals q st) /\
  TerminalTracker.fired (TerminalTracker.trackTerminal now h p cli st)
  = TerminalTracker.fired st ++ [p].
Proof.
  unfold TerminalTracker.getActiveCLIs, TerminalTracker.hasActiveCLIs,
    TerminalTracker.getTerminals, TerminalTracker.trackTerminal,
    TerminalTracker.fire.
  cbn [TerminalTracker.terminals TerminalTracker.fired].
  rewrite LookupFacts.map_get_set_same. repeat split.
  - rewrite map_app. reflexivity.
  - rewrite length_app. cbn [length]. now rewrite Nat.add_1_r.
  - intros q Hq. now rewrite LookupFacts.map_get_set_other.
Qed.

(** X12.  After any sequence of track and untrack calls,
    [hasActiveCLIs] holds of exactly the paths [getAllActiveWorktrees]
    lists, and that list has no repetition. *)
Theorem hasActiveCLIs_getAllActiveWorktrees
  (cs : list TerminalTracker.command) (p : string) :
  (TerminalTracker.hasActiveCLIs p (TerminalTracker.run_all cs) = true <->
   In p (TerminalTracker.getAllActiveWorktrees (TerminalTracker.run_all cs))) /\
  NoDup (TerminalTracker.getAllActiveWorktrees (TerminalTracker.run_all cs)).
Proof.
  destruct (TrackerFacts.run_all_invariant cs) as [Hkeys Hne].
  split; [|exact Hkeys].
  unfold TerminalTracker.hasActiveCLIs, TerminalTracker.getTerminals,
    TerminalTracker.getAllActiveWorktrees.
  destruct (TerminalTracker.map_get p _) as [l|] eqn:Hget.
  - apply LookupFacts.map_get_Some in Hget as (before & after & Hm & _).
    rewrite Hm. split.
    + intros _. rewrite map_app. apply in_or_app. right. now left.
    + intros _. unfold Registry.no_empty_bucket in Hne.
      rewrite Hm in Hne. apply Forall_app in Hne as [_ Hne].
      apply Forall_cons_iff in Hne as [Hl _]. cbn [snd] in Hl.
      now destruct l.
  - apply LookupFacts.map_get_None in Hget. split; [discriminate|].
    intros Hin. contradiction.
Qed.

(** X13.  Round trip: in a registry with distinct keys and no empty
    bucket, tracking a terminal that no session is attached to and then
    closing it gives back the same buckets, in the same order; the path
    has been fired twice. *)
Theorem track_then_untrack (now : Z) (h : TerminalTracker.Terminal)
  (p cli : string) (st : TerminalTracker.t) :
  Registry.invariant st ->
  Registry.lacks h (TerminalTracker.terminals st) ->
  TerminalTracker.removeTerminal
    h (TerminalTracker.trackTerminal now h p cli st)
  = TerminalTracker.mkTracker (TerminalTracker.terminals st)
                              (TerminalTracker.fired st ++ [p; p]).
Proof.
  intros Hinv Hlacks.
  pose proof (TrackerFacts.trackTerminal_invariant now h p cli st Hinv)
    as [Hkeys' _].
  destruct Hinv as [Hkeys Hne].
  set (t0 := TerminalTracker.mkTracked h cli p now).
  destruct (TerminalTracker.map_get p (TerminalTracker.terminals st))
    as [l|] eqn:Hget.
  - destruct (LookupFacts.map_get_Some _ _ _ Hget)
      as (before & after & Hm & Hnotin).
    assert (Hl : l <> []).
    { unfold Registry.no_empty_bucket in Hne. rewrite Hm in Hne.
      apply Forall_app in Hne as [_ Hne].
      now apply Forall_cons_iff in Hne as [Hl _]. }
    rewrite Hm in Hlacks. apply LookupFacts.lacks_app in Hlacks as [Hb Hrest].
    apply Forall_cons_iff in Hrest as [Hbucket _]. cbn [snd] in Hbucket.
    rewrite (TrackerFacts.removeTerminal_present h _ before after p l [] t0).
    + unfold TerminalTracker.trackTerminal, TerminalTracker.fire.
      cbn [TerminalTracker.fired]. rewrite <- app_assoc. cbn [app].
      rewrite app_nil_r, Hm. destruct l; [contradiction | reflexivity].
    + exact Hkeys'.
    + unfold TerminalTracker.trackTerminal, TerminalTracker.fire.
      cbn [TerminalTracker.terminals]. rewrite Hget, Hm.
      now apply TrackerFacts.map_set_middle.
    + exact Hb.
    + exact Hbucket.
    + reflexivity.
  - pose proof (proj1 (LookupFacts.map_get_None _ _) Hget) as Hnotin.
    rewrite (TrackerFacts.removeTerminal_present
               h _ (TerminalTracker.terminals st) [] p [] [] t0).
    + unfold TerminalTracker.trackTerminal, TerminalTracker.fire.
      cbn [TerminalTracker.fired app]. rewrite <- app_assoc.
      now rewrite app_nil_r.
    + exact Hkeys'.
    + unfold TerminalTracker.trackTerminal, TerminalTracker.fire.
      cbn [TerminalTracker.terminals]. rewrite Hget.
      now apply LookupFacts.map_set_new.
    + exact Hlacks.
    + constructor.
    + reflexivity.
Qed.

Lemma track_then_untrack_witness :
  TerminalTracker.removeTerminal
    3%nat (TerminalTracker.trackTerminal 102 3%nat "/wt/other" "gemini-cli"
                                         Sample.two_sessions)
  = TerminalTracker.mkTracker
      (TerminalTracker.terminals Sample.two_sessions)
      (TerminalTracker.fired Sample.two_sessions ++ ["/wt/other"; "/wt/other"]).
Proof.
  apply track_then_untrack.
  - apply (TrackerFacts.run_all_invariant
             [TerminalTracker.Track 100 1%nat "/wt/feature" "claude";
              TerminalTracker.Track 101 2%nat "/wt/feature" "aider"]).
  - repeat constructor; cbn; discriminate.
Defined.

(** X14.  Counting sessions: [trackTerminal] adds exactly one session;
    in a registry with distinct keys, closing a terminal takes away
    exactly one session when some session is attached to it (also when
    several are) and none otherwise. *)
Theorem sessions_counted (st : TerminalTracker.t) :
  (forall now h p cli,
      length (RegistryCount.sessions
                (TerminalTracker.trackTerminal now h p cli st))
      = S (length (RegistryCount.sessions st))) /\
  (Registry.well_keyed (TerminalTracker.terminals st) ->
   forall h,
     length (RegistryCount.sessions (TerminalTracker.removeTerminal h st))
     = (length (RegistryCount.sessions st)
        - (if RegistryCount.tracked h st then 1 else 0))%nat).
Proof.
  split.
  - intros now h p cli. unfold RegistryCount.sessions,
      TerminalTracker.trackTerminal, TerminalTracker.fire.
    cbn [TerminalTracker.terminals]. apply LookupFacts.sessions_set.
  - intros Hkeys h. unfold RegistryCount.tracked.
    destruct (existsb _ (TerminalTracker.terminals st)) eqn:Htracked.
    + destruct (LookupFacts.tracked_first _ _ Htracked)
        as (before & p & pre & s & post & after & Hm & Hb & Hpre & Hs).
      rewrite (TrackerFacts.removeTerminal_present
                 h st before after p pre post s Hkeys Hm Hb Hpre Hs).
      unfold RegistryCount.sessions. cbn [TerminalTracker.terminals].
      rewrite Hm, !flat_map_app. cbn [flat_map snd].
      rewrite !length_app. cbn [length].
      destruct (pre ++ post) as [|x l] eqn:Hrest.
      * apply app_eq_nil in Hrest as [-> ->]. cbn [flat_map length app]. lia.
      * cbn [flat_map snd app]. rewrite app_nil_r, <- Hrest.
        rewrite !length_app. lia.
    + rewrite TrackerFacts.removeTerminal_absent;
        [lia | now apply LookupFacts.untracked_lacks].
Qed.

Lemma sessions_counted_witness :
  length (RegistryCount.sessions
            (TerminalTracker.removeTerminal 1%nat Sample.two_sessions)) = 1%nat.
Proof.
  destruct (sessions_counted Sample.two_sessions) as [_ Hremove].
  apply (Hremove ltac:(repeat constructor; intros []) 1%nat).
Defined.

(** ** Further facts about the views *)

Module FrameFacts.
Import JsString Effects WorldSpec Frames.

Section WithHost.
Context {Env : Type} {H : Host Env}.

Lemma bind_nested {A B C : Type} (m : M Env A) (k : A -> M Env B)
  (k2 : B -> M Env C) (w : World Env) :
  bind m (fun a => bind (k a) k2) w
  = match bind m k w with
    | (inr b, w') => k2 b w'
    | (inl e, w') => (inl e, w')
    end.
Proof.
  unfold bind. destruct (m w) as [[e|a] w1]; [reflexivity|].
  now destruct (k a w1) as [[e|b] w2].
Qed.

Lemma same_but_console_refl (w : World Env) : same_but_console w w.
Proof. repeat split. Qed.

Lemma getChangesCount_quiet (p : string) (w : World Env) :
  same_but_console w (snd (GitService.getChangesCount p w)).
Proof.
  unfold GitService.getChangesCount, try_catch, bind, query.
  destruct (git_status p (env w)) as [e|files]; cbn; repeat split.
Qed.

Lemma listWorktrees_frame (w : World Env) :
  exists listed,
    fst (GitService.listWorktrees w) = inr listed /\
    tracker (snd (GitService.listWorktrees w)) = tracker w /\
    ui (snd (GitService.listWorktrees w)) = ui w /\
    answers (snd (GitService.listWorktrees w)) = answers w /\
    gitlog (snd (GitService.listWorktrees w)) = gitlog w ++ [list_args].
Proof.
  unfold GitService.listWorktrees, try_catch, bind, raw, list_args.
  destruct (git_raw _ _) as [[e|text] env']; cbn; eauto 10.
Qed.

Lemma changes_tasks_quiet (w0 : World Env) (worktrees : list WorktreeInfo) :
  Forall2 (fulfils (same_but_console w0))
    (map (fun wt =>
            bind (GitService.getChangesCount (path wt))
                 (fun changes => ret (WorktreeManager.with_changes wt changes)))
         worktrees)
    (map (fun wt =>
            WorktreeManager.with_changes
              wt (GitSpec.changes_of (env w0) (path wt)))
         worktrees).
Proof.
  induction worktrees as [|wt worktrees IH]; cbn [map]; constructor;
    [|exact IH].
  intros w (He & Htr & Hui & Hlog & Hans). unfold bind, ret.
  destruct (GatewayFacts.getChangesCount_value (path wt) w) as (Hv & _).
  destruct (getChangesCount_quiet (path wt) w) as (He' & Htr' & Hui' & Hlog' & Hans').
  destruct (GitService.getChangesCount (path wt) w) as [[err|n] w'];
    cbn [fst snd] in *; [discriminate|].
  injection Hv as ->. rewrite He.
  split; [reflexivity|]. repeat split; congruence.
Qed.

Context {B : Builtins}.

Lemma enrich_tasks_quiet (w0 : World Env) (worktrees : list WorktreeInfo) :
  Forall2 (fulfils (same_but_console w0))
    (map (fun wt =>
            bind (GitService.getChangesCount (path wt))
              (fun changes =>
                 bind (read_tracker (TerminalTracker.getActiveCLIs (path wt)))
                   (fun activeCLIs =>
                      ret (WorktreeProvider.enrich wt changes activeCLIs))))
         worktrees)
    (map (fun wt =>
            WorktreeProvider.enrich wt (GitSpec.changes_of (env w0) (path wt))
              (TerminalTracker.getActiveCLIs (path wt) (tracker w0)))
         worktrees).
Proof.
  induction worktrees as [|wt worktrees IH]; cbn [map]; constructor;
    [|exact IH].
  intros w (He & Htr & Hui & Hlog & Hans). unfold bind, read_tracker, ret.
  destruct (GatewayFacts.getChangesCount_value (path wt) w) as (Hv & _).
  destruct (getChangesCount_quiet (path wt) w) as (He' & Htr' & Hui' & Hlog' & Hans').
  destruct (GitService.getChangesCount (path wt) w) as [[err|n] w'];
    cbn [fst snd] in *; [discriminate|].
  injection Hv as ->. rewrite He, Htr', Htr.
  split; [reflexivity|]. repeat split; congruence.
Qed.

(** The listing and the lookups of [getChildren], up to the sort. *)
Lemma enriched_run (sched : list nat) (w : World Env) :
  exists listed w2,
    fst (GitService.listWorktrees w) = inr listed /\
    bind GitService.listWorktrees
         (fun worktrees =>
            promise_all sched
              (map (fun wt =>
                      bind (GitService.getChangesCount (path wt))
                        (fun changes =>
                           bind (read_tracker
                                   (TerminalTracker.getActiveCLIs (path wt)))
                             (fun activeCLIs =>
                                ret (WorktreeProvider.enrich
                                       wt changes activeCLIs))))
                   worktrees)) w
    = (inr (map (fun wt =>
                   WorktreeProvider.enrich wt
                     (GitSpec.changes_of
                        (env (snd (GitService.listWorktrees w))) (path wt))
                     (TerminalTracker.getActiveCLIs (path wt) (tracker w)))
                listed), w2) /\
    same_but_console (snd (GitService.listWorktrees w)) w2.
Proof.
  destruct (listWorktrees_frame w) as (listed & Hlist & Htr & _).
  exists listed. unfold bind at 1.
  destruct (GitService.listWorktrees w) as [[e|l] w1]; cbn [fst snd] in *;
    [discriminate|]. injection Hlist as ->.
  destruct (PromiseFacts.promise_all_values
              (same_but_console w1) _ _
              (enrich_tasks_quiet w1 listed) sched w1)
    as (w2 & Hall & Hquiet); [apply same_but_console_refl|].
  exists w2. rewrite Hall, Htr. repeat split; apply Hquiet.
Qed.

End WithHost.
End FrameFacts.

Module ItemFacts.
Import TreeView.

Section WithBuiltins.
Context {B : Builtins}.

Lemma new_items_missing_commit (wts : list WorktreeInfo) :
  Exists (fun wt => commit wt = None) wts ->
  new_items wts = inl (undefined_read "substring").
Proof.
  induction 1 as [wt wts Hwt|wt wts _ IH]; cbn [new_items];
    unfold new_item, buildTooltip.
  - now rewrite Hwt.
  - destruct (commit wt); [|reflexivity]. now rewrite IH.
Qed.

End WithBuiltins.
End ItemFacts.

(** ** The tree view with the constructor of its items *)

Module TreeFacts.
Import JsString Effects WorldSpec Frames.

Section WithHost.
Context {Env : Type} {H : Host Env} {B : Builtins}.

Lemma new_items_built (wts : list WorktreeInfo) :
  Forall (fun wt => commit wt <> None) wts ->
  exists items,
    TreeView.new_items wts = inr items /\
    map TreeView.worktree items = wts /\
    Forall (fun i => TreeView.new_item (TreeView.worktree i) = inr i) items.
Proof.
  induction 1 as [|wt wts Hwt _ IH]; [exists []; repeat split; constructor|].
  destruct IH as (items & Hitems & Hmap & Hbuilt).
  cbn [TreeView.new_items].
  destruct (TreeView.new_item wt) as [e|item] eqn:Hitem.
  - unfold TreeView.new_item, TreeView.buildTooltip in Hitem.
    destruct (commit wt); [discriminate | contradiction].
  - rewrite Hitems. exists (item :: items).
    assert (Hw : TreeView.worktree item = wt).
    { unfold TreeView.new_item in Hitem.
      destruct (TreeView.buildTooltip wt); [discriminate|].
      now injection Hitem as <-. }
    repeat split.
    + cbn [map]. now rewrite Hw, Hmap.
    + constructor; [now rewrite Hw | exact Hbuilt].
Qed.

Lemma item_label (i : TreeView.TreeItem) :
  TreeView.new_item (TreeView.worktree i) = inr i ->
  TreeView.label i = path_basename (path (TreeView.worktree i)).
Proof.
  unfold TreeView.new_item.
  destruct (TreeView.buildTooltip _); [discriminate|].
  intros [= Hi]. now rewrite <- Hi at 1.
Qed.

Lemma enriched_commits (listed : list WorktreeInfo)
  (n : WorktreeInfo -> Z) (clis : WorktreeInfo -> list string)
  (P : option string -> Prop) :
  Forall (fun wt => P (commit wt)) listed ->
  Forall (fun wt => P (commit wt))
    (JsArray.sort WorktreeProvider.compare_items
       (map (fun wt => WorktreeProvider.enrich wt (n wt) (clis wt)) listed)).
Proof.
  intros Hall.
  eapply Permutation_Forall;
    [apply Permutation_sym, SortFacts.sort_Permutation|].
  apply Forall_map. eapply Forall_impl; [|exact Hall]. now intros wt.
Qed.

Lemma enriched_some_commit (listed : list WorktreeInfo)
  (n : WorktreeInfo -> Z) (clis : WorktreeInfo -> list string)
  (P : option string -> Prop) :
  Exists (fun wt => P (commit wt)) listed ->
  Exists (fun wt => P (commit wt))
    (JsArray.sort WorktreeProvider.compare_items
       (map (fun wt => WorktreeProvider.enrich wt (n wt) (clis wt)) listed)).
Proof.
  intros Hex. apply Exists_exists in Hex as (wt & Hin & Hwt).
  apply Exists_exists.
  exists (WorktreeProvider.enrich wt (n wt) (clis wt)). split; [|exact Hwt].
  eapply Permutation_in;
    [apply Permutation_sym, SortFacts.sort_Permutation|].
  apply (in_map (fun wt => WorktreeProvider.enrich wt (n wt) (clis wt))).
  exact Hin.
Qed.

(** The run of [getChildren] on a listing whose records all have a
    commit. *)
Lemma getChildren_run (sched : list nat) (w : World Env)
  (listed : list WorktreeInfo) :
  fst (GitService.listWorktrees w) = inr listed ->
  Forall (fun wt => commit wt <> None) listed ->
  exists items w2,
    TreeView.getChildren sched None w = (inr items, w2) /\
    map TreeView.worktree items
    = JsArray.sort WorktreeProvider.compare_items
        (map (fun wt =>
                WorktreeProvider.enrich wt
                  (GitSpec.changes_of
                     (env (snd (GitService.listWorktrees w))) (path wt))
                  (TerminalTracker.getActiveCLIs (path wt) (tracker w)))
             listed) /\
    Forall (fun i => TreeView.new_item (TreeView.worktree i) = inr i) items /\
    ui w2 = ui w.
Proof.
  intros Hlisted Hcommits.
  destruct (FrameFacts.listWorktrees_frame w) as (l0 & Hl0 & _ & Hui & _).
  destruct (FrameFacts.enriched_run sched w)
    as (listed' & w2 & Hl & Hrun & (_ & _ & Hui2 & _)).
  rewrite Hlisted in Hl. injection Hl as <-.
  destruct (new_items_built _
              (enriched_commits listed
                 (fun wt => GitSpec.changes_of
                              (env (snd (GitService.listWorktrees w)))
                              (path wt))
                 (fun wt => TerminalTracker.getActiveCLIs
                              (path wt) (tracker w))
                 (fun c => c <> None) Hcommits))
    as (items & Hitems & Hmap & Hbuilt).
  exists items, w2. repeat split; try assumption; [|congruence].
  unfold TreeView.getChildren, try_catch.
  rewrite FrameFacts.bind_nested, Hrun.
  cbv beta iota zeta. now rewrite Hitems.
Qed.

(** The run of [getChildren] on a listing with a record that has no
    commit. *)
Lemma getChildren_thrown (sched : list nat) (w : World Env)
  (listed : list WorktreeInfo) :
  fst (GitService.listWorktrees w) = inr listed ->
  Exists (fun wt => commit wt = None) listed ->
  fst (TreeView.getChildren sched None w) = inr [] /\
  ui (snd (TreeView.getChildren sched None w))
  = ui w
    ++ [ErrorMessage
          ("Failed to load worktrees: "
           +++ Exn_toString (TreeView.undefined_read "substring"))].
Proof.
  intros Hlisted Hmissing.
  destruct (FrameFacts.listWorktrees_frame w) as (l0 & Hl0 & _ & Hui & _).
  destruct (FrameFacts.enriched_run sched w)
    as (listed' & w2 & Hl & Hrun & (_ & _ & Hui2 & _)).
  rewrite Hlisted in Hl. injection Hl as <-.
  pose proof (ItemFacts.new_items_missing_commit _
                (enriched_some_commit listed
                   (fun wt => GitSpec.changes_of
                                (env (snd (GitService.listWorktrees w)))
                                (path wt))
                   (fun wt => TerminalTracker.getActiveCLIs
                                (path wt) (tracker w))
                   (fun c => c = None) Hmissing)) as Hthrow.
  unfold TreeView.getChildren, try_catch.
  rewrite FrameFacts.bind_nested, Hrun. cbv beta iota zeta.
  rewrite Hthrow. unfold bind, show, ret.
  cbn [fst snd ui]. split; [reflexivity | congruence].
Qed.

End WithHost.
End TreeFacts.

(** X15.  The tree view when every listed record has a commit: the
    children are one item per listed record, built by the constructor from
    the record with its change count and the labels of its sessions, in
    the sorted order; every item is labelled with the final segment of the
    path of its record; nothing is shown to the user. *)
Theorem getChildren_items_built (Env : Type) (H : Host Env) (B : Builtins)
  (sched : list nat) (w : Effects.World Env) (listed : list WorktreeInfo) :
  fst (GitService.listWorktrees w) = inr listed ->
  Forall (fun wt => commit wt <> None) listed ->
  exists items,
    fst (TreeView.getChildren sched None w) = inr items /\
    map TreeView.worktree items
    = JsArray.sort WorktreeProvider.compare_items
        (map (fun wt =>
                WorktreeProvider.enrich wt
                  (GitSpec.changes_of
                     (Effects.env (snd (GitService.listWorktrees w)))
                     (path wt))
                  (TerminalTracker.getActiveCLIs (path wt) (Effects.tracker w)))
             listed) /\
    Forall (fun i => TreeView.new_item (TreeView.worktree i) = inr i) items /\
    Effects.ui (snd (TreeView.getChildren sched None w)) = Effects.ui w /\
    Forall (fun i => TreeView.label i
                     = path_basename (path (TreeView.worktree i))) items.
Proof.
  intros Hlisted Hcommits.
  destruct (TreeFacts.getChildren_run sched w listed Hlisted Hcommits)
    as (items & w2 & Hfull & Hmap & Hbuilt & Hui).
  exists items. rewrite Hfull. cbn [fst snd]. repeat split; try assumption.
  eapply Forall_impl; [|exact Hbuilt]. apply TreeFacts.item_label.
Qed.

Lemma getChildren_items_built_witness :
  exists items,
    fst (TreeView.getChildren
           (H := Sample.host) (B := Sample.builtins) [1%nat] None
           (Sample.world_of SampleDesk.checked_out [] Sample.two_sessions))
    = inr items /\
    map TreeView.label items = ["repo"; "feature"] /\
    map TreeView.description items
    = ["refs/heads/main";
       "refs/heads/feature " +++ JsText.bullet +++ " 1 change "
       +++ JsText.bullet +++ " " +++ JsText.robot +++ " claude, aider"].
Proof.
  destruct (getChildren_items_built
              Sample.Repo Sample.host Sample.builtins [1%nat]
              (Sample.world_of SampleDesk.checked_out [] Sample.two_sessions)
              _ eq_refl)
    as (items & Hitems & _).
  - repeat constructor; discriminate.
  - exists items. split; [exact Hitems|].
    vm_compute in Hitems. injection Hitems as <-. split; reflexivity.
Defined.

(** X16.  The tree view when some listed record has no commit (the entry
    of a bare repository has none): the constructor of its item throws
    while the tooltip is built, so the view has no children at all, and
    one error message is shown. *)
Theorem getChildren_missing_commit (Env : Type) (H : Host Env) (B : Builtins)
  (sched : list nat) (w : Effects.World Env) (listed : list WorktreeInfo) :
  fst (GitService.listWorktrees w) = inr listed ->
  Exists (fun wt => commit wt = None) listed ->
  fst (TreeView.getChildren sched None w) = inr [] /\
  Effects.ui (snd (TreeView.getChildren sched None w))
  = Effects.ui w
    ++ [ErrorMessage
          ("Failed to load worktrees: "
           +++ Exn_toString (TreeView.undefined_read "substring"))].
Proof.
  intros Hlisted Hmissing.
  exact (TreeFacts.getChildren_thrown sched w listed Hlisted Hmissing).
Qed.

Lemma getChildren_missing_commit_witness :
  fst (TreeView.getChildren
         (H := Sample.host) (B := Sample.builtins) [] None
         (Sample.world_of Sample.repo [] Sample.two_sessions))
  = inr [] /\
  Effects.ui (snd (TreeView.getChildren
                     (H := Sample.host) (B := Sample.builtins) [] None
                     (Sample.world_of Sample.repo [] Sample.two_sessions)))
  = [ErrorMessage
       ("Failed to load worktrees: TypeError: Cannot read properties of "
        +++ "undefined (reading 'substring')")].
Proof.
  apply (getChildren_missing_commit
           Sample.Repo Sample.host Sample.builtins []
           (Sample.world_of Sample.repo [] Sample.two_sessions) _ eq_refl).
  apply Exists_cons_hd. reflexivity.
Defined.

(** ** The tree view against the read-model of the specification *)

(** C8.  The tree view of a listing in which some record has no commit -
    the entry of a bare main repository has none: [getChildren] resolves
    to no item at all, whatever the order in which the lookups settle,
    although worktrees are listed; for the same repository the sibling
    [getWorktrees] resolves to one record per listed worktree. *)
Theorem getChildren_without_commit (Env : Type) (H : Host Env) (B : Builtins)
  (sched : list nat) (w : Effects.World Env) (listed : list WorktreeInfo) :
  fst (GitService.listWorktrees w) = inr listed ->
  Exists (fun wt => commit wt = None) listed ->
  fst (TreeView.getChildren sched None w) = inr [] /\
  (0 < length listed)%nat /\
  exists enriched : list WorktreeInfo,
    fst (WorktreeManager.getWorktrees sched w) = inr enriched /\
    length enriched = length listed.
Proof.
  intros Hlisted Hmissing.
  split; [exact (proj1 (TreeFacts.getChildren_thrown
                          sched w listed Hlisted Hmissing))|].
  split.
  - destruct listed; [inversion Hmissing | cbn [length]; lia].
  - destruct (ViewFacts.getWorktrees_value sched w) as (l & Hl & Hout).
    rewrite Hlisted in Hl. injection Hl as <-.
    eexists. split; [exact Hout | apply length_map].
Qed.

Lemma getChildren_without_commit_witness :
  fst (GitService.listWorktrees
         (H := Sample.host)
         (Sample.world_of Sample.repo [] Sample.two_sessions))
  = inr [mkWorktreeInfo "/repo" None None true false None None;
         mkWorktreeInfo "/wt/feature" (Some "refs/heads/feature")
                        (Some "1a2b3c4") false true None None] /\
  fst (TreeView.getChildren
         (H := Sample.host) (B := Sample.builtins) [1%nat; 0%nat] None
         (Sample.world_of Sample.repo [] Sample.two_sessions))
  = inr [].
Proof.
  split; [reflexivity|].
  apply (getChildren_without_commit
           Sample.Repo Sample.host Sample.builtins [1%nat; 0%nat]
           (Sample.world_of Sample.repo [] Sample.two_sessions) _ eq_refl).
  apply Exists_cons_hd. reflexivity.
Defined.

(** X23.  The tree view when every listed record has a commit and
    [localeCompare] is a consistent comparison: the children are the listed
    records in some order, one item each, every item carrying the path,
    branch, commit, [isMain] and [isLocked] of its record, the change
    count of its path and the labels of the sessions of its path, and
    labelled with the final segment of the path; the main records come
    first and the others follow in the order of the final segment of
    their paths; and the items do not depend on the order in which the
    lookups settle. *)
Theorem getChildren_sorted_enriched (Env : Type) (H : Host Env)
  (B : Builtins) (sched : list nat) (w : Effects.World Env)
  (listed : list WorktreeInfo) :
  localeCompare_consistent B ->
  fst (GitService.listWorktrees w) = inr listed ->
  Forall (fun wt => commit wt <> None) listed ->
  exists (items : list TreeView.TreeItem) (order : list WorktreeInfo),
    fst (TreeView.getChildren sched None w) = inr items /\
    Permutation order listed /\
    Forall2 (fun wt i =>
               let out := TreeView.worktree i in
               path out = path wt /\ branch out = branch wt /\
               commit out = commit wt /\ isMain out = isMain wt /\
               isLocked out = isLocked wt /\
               changes out =
               Some (GitSpec.changes_of
                       (Effects.env (snd (GitService.listWorktrees w)))
                       (path wt)) /\
               activeCLIs out =
               Some (TerminalTracker.getActiveCLIs
                       (path wt) (Effects.tracker w)) /\
               TreeView.label i = path_basename (path wt))
            order items /\
    ViewSpec.main_first (map TreeView.worktree items) /\
    (forall sched' : list nat,
        fst (TreeView.getChildren sched' None w) = inr items).
Proof.
  intros Hcons Hlisted Hcommits.
  destruct (TreeFacts.getChildren_run sched w listed Hlisted Hcommits)
    as (items & w2 & Hfull & Hmap & Hbuilt & _).
  destruct (Permutation_map_inv _ _
              (SortFacts.sort_Permutation
                 WorktreeProvider.compare_items
                 (map (fun wt =>
                         WorktreeProvider.enrich wt
                           (GitSpec.changes_of
                              (Effects.env (snd (GitService.listWorktrees w)))
                              (path wt))
                           (TerminalTracker.getActiveCLIs
                              (path wt) (Effects.tracker w)))
                      listed)))
    as (order & Horder & Hperm).
  exists items, order. rewrite Hfull. cbn [fst].
  split; [reflexivity|]. split; [now apply Permutation_sym|].
  rewrite <- Hmap in Horder. split; [|split].
  - clear - Horder Hbuilt. revert items Horder Hbuilt.
    induction order as [|wt order IH]; intros [|i items] Horder Hbuilt;
      cbn [map] in Horder; try discriminate; constructor.
    + injection Horder as Hi _. apply Forall_cons_iff in Hbuilt as [Hb _].
      cbv zeta. rewrite (TreeFacts.item_label i Hb), Hi.
      now repeat split.
    + injection Horder as _ Hrest. apply Forall_cons_iff in Hbuilt as [_ Hb].
      now apply IH.
  - rewrite Hmap. now apply SortFacts.sort_main_first.
  - intros sched'.
    destruct (TreeFacts.getChildren_run sched' w listed Hlisted Hcommits)
      as (items' & w2' & Hfull' & Hmap' & Hbuilt' & _).
    rewrite Hfull'. cbn [fst]. f_equal.
    clear - Hmap Hmap' Hbuilt Hbuilt'. rewrite <- Hmap in Hmap'. clear Hmap.
    revert items Hmap' Hbuilt.
    induction items' as [|i' items' IH]; intros [|i items] Hmap Hbuilt;
      cbn [map] in Hmap; try discriminate; [reflexivity|].
    injection Hmap as Hi Hrest.
    apply Forall_cons_iff in Hbuilt as [Hb Hbs].
    apply Forall_cons_iff in Hbuilt' as [Hb' Hbs'].
    f_equal; [|now apply IH].
    rewrite Hi in Hb'. rewrite Hb in Hb'. now injection Hb'.
Qed.

Lemma getChildren_sorted_enriched_witness :
  exists items,
    fst (TreeView.getChildren
           (H := Sample.host) (B := Sample.builtins) [1%nat; 0%nat] None
           (Sample.world_of SampleDesk.checked_out [] Sample.two_sessions))
    = inr items /\
    map (fun i => (TreeView.label i, changes (TreeView.worktree i),
                   activeCLIs (TreeView.worktree i))) items
    = [("repo", Some 0, Some []);
       ("feature", Some 1, Some ["claude"; "aider"])].
Proof.
  destruct (getChildren_sorted_enriched
              Sample.Repo Sample.host Sample.builtins [1%nat; 0%nat]
              (Sample.world_of SampleDesk.checked_out [] Sample.two_sessions)
              _ SampleFacts.localeCompare_consistent_shortlex eq_refl)
    as (items & order & Hitems & _).
  - repeat constructor; discriminate.
  - exists items. split; [exact Hitems|].
    vm_compute in Hitems. injection Hitems as <-. reflexivity.
Defined.

(** ** Tasks that settle in the order they are made *)

Module OrderedFacts.
Import JsArray Effects WindowSpec.

Lemma set_at_end {A : Type} (pre : list (option A)) (o : option A)
  (rest : list (option A)) (v : A) :
  set_at (length pre) v (pre ++ o :: rest) = (pre ++ [Some v]) ++ rest.
Proof.
  induction pre as [|x pre IH]; cbn [length set_at app]; [reflexivity|].
  now rewrite IH.
Qed.

Section WithWindow.
Context {Env : Type} {H : Host Env} {W : Window Env} {A : Type}.

Lemma settle_in_order (tasks : list (M Env A)) :
  forall (pre : list (option A)) (w : World Env) (vs : list A),
    fst (in_order tasks w) = inr vs ->
    settle (length tasks) []
           (combine (seq (length pre) (length tasks)) tasks)
           (pre ++ repeat None (length tasks)) None w
    = (pre ++ map Some vs, None, snd (in_order tasks w)).
Proof.
  induction tasks as [|task tasks IH]; intros pre w vs.
  - cbn. now intros [= <-].
  - cbn [in_order length seq combine repeat settle hd tl].
    rewrite Nat.Div0.mod_0_l. cbn [nth_error remove_at].
    unfold bind at 1 3. destruct (task w) as [[e|v] w1]; [discriminate|].
    rewrite set_at_end.
    replace (S (length pre)) with (length (pre ++ [Some v]))
      by (rewrite length_app; cbn [length]; lia).
    unfold bind. intros Hvs.
    destruct (in_order tasks w1) as [[e|vs'] w2] eqn:Hrest;
      cbn [fst snd] in Hvs |- *; [discriminate|].
    injection Hvs as <-.
    rewrite (IH (pre ++ [Some v]) w1 vs'), Hrest by now rewrite Hrest.
    cbn [snd map]. now rewrite <- app_assoc.
Qed.

(** [Promise.all] over calls that each run to their end when made. *)
Lemma promise_all_in_order (tasks : list (M Env A)) (w : World Env)
  (vs : list A) :
  fst (in_order tasks w) = inr vs ->
  promise_all [] tasks w = (inr vs, snd (in_order tasks w)).
Proof.
  intros Hvs. unfold promise_all.
  pose proof (settle_in_order tasks [] w vs Hvs) as Hsettle.
  cbn [app length] in Hsettle. rewrite Hsettle.
  now rewrite ArrayFacts.filled_map_Some.
Qed.

End WithWindow.
End OrderedFacts.

(** ** Facts about the sessions the orchestrator starts *)

Module SessionFacts.
Import JsString Effects WindowSpec.

Section WithWindow.
Context {Env : Type} {H : Host Env} {W : Window Env} {B : Builtins}.
Hypothesis open : terminals_open.
Hypothesis kept : settings_kept.

Lemma startAICLI_named (p name : string) (w : World Env) :
  truthy name = true ->
  exists w', Sessions.startAICLI p (Some name) w = (inr tt, w') /\
             started p name w w'.
Proof.
  intros Hname. unfold started. cbv zeta.
  unfold Sessions.startAICLI, bind at 1, Desk.peek, tool_enabled.
  cbn [truthy_opt JsText.join_opt]. rewrite Hname.
  destruct (Sessions.tool_named name (win_cliTools (env w))) as [cfg|];
    [destruct (Vscode.enabled cfg)|].
  - unfold Sessions.launch, bind, Desk.act, Desk.act_, Desk.peek,
      Desk.update_tracker.
    set (o := Vscode.mkTerminalOptions _ _ _).
    destruct (open o (env w)) as (t & Ht).
    destruct (kept (env w)) as (Hcreate & _). specialize (Hcreate o).
    destruct (win_createTerminal o (env w)) as [[e|t'] e1];
      cbn [fst snd] in Ht, Hcreate; [discriminate|].
    injection Ht as ->.
    cbn [env answers ui console gitlog tracker].
    eexists. split; [reflexivity|].
    cbn [env answers ui console gitlog tracker].
    destruct (kept e1) as (_ & Hshow & _).
    destruct (kept (win_show t e1)) as (_ & _ & Hsend).
    repeat split.
    + unfold TerminalTracker.getActiveCLIs, TerminalTracker.getTerminals,
        TerminalTracker.trackTerminal, TerminalTracker.fire.
      cbn [TerminalTracker.terminals].
      rewrite LookupFacts.map_get_set_same, map_app. reflexivity.
    + intros q Hq.
      unfold TerminalTracker.getTerminals, TerminalTracker.trackTerminal,
        TerminalTracker.fire.
      cbn [TerminalTracker.terminals].
      now rewrite LookupFacts.map_get_set_other.
    + now rewrite app_nil_r.
    + now rewrite Hsend, Hshow, Hcreate.
  - unfold show. eexists. split; [reflexivity|].
    cbn [env answers ui console gitlog tracker].
    repeat split. now rewrite app_nil_r.
  - unfold show. eexists. split; [reflexivity|].
    cbn [env answers ui console gitlog tracker].
    repeat split. now rewrite app_nil_r.
Qed.

Lemma started_in_order (p : string) (names : list string) :
  Forall (fun name => truthy name = true) names ->
  forall w : World Env,
    let tools := win_cliTools (env w) in
    let w' := snd (in_order
                     (map (fun name => Sessions.startAICLI p (Some name))
                          names) w) in
    fst (in_order (map (fun name => Sessions.startAICLI p (Some name)) names)
                  w)
    = inr (map (fun _ => tt) names) /\
    TerminalTracker.getActiveCLIs p (tracker w')
    = TerminalTracker.getActiveCLIs p (tracker w)
      ++ filter (tool_enabled tools) names /\
    (forall q, q <> p ->
               TerminalTracker.getTerminals q (tracker w')
               = TerminalTracker.getTerminals q (tracker w)) /\
    ui w' = ui w
            ++ map not_enabled
                 (filter (fun name => negb (tool_enabled tools name)) names) /\
    win_cliTools (env w') = tools /\
    gitlog w' = gitlog w.
Proof.
  induction 1 as [|name names Hname _ IH]; intros w; cbv zeta.
  - cbn. rewrite !app_nil_r. repeat split.
  - cbn [map filter].
    destruct (startAICLI_named p name w Hname)
      as (w1 & Hrun & Hcli & Hother & Hui & Hcfg & Hlog).
    specialize (IH w1). cbv zeta in IH.
    destruct IH as (Hvs & Hcli' & Hother' & Hui' & Hcfg' & Hlog').
    destruct (in_order _ w1) as [[e|vs] w2] eqn:Hrest; cbn [fst snd] in *;
      [discriminate|].
    injection Hvs as ->. rewrite Hcfg in *.
    assert (Hfull :
              in_order (Sessions.startAICLI p (Some name)
                        :: map (fun name => Sessions.startAICLI p (Some name))
                               names) w
              = (inr (tt :: map (fun _ => tt) names), w2)).
    { cbn [in_order]. unfold bind at 1. rewrite Hrun.
      unfold bind. now rewrite Hrest. }
    rewrite Hfull. cbn [fst snd].
    repeat split.
    + rewrite Hcli', Hcli, <- app_assoc. f_equal.
      now destruct (tool_enabled _ name).
    + intros q Hq. now rewrite Hother', Hother.
    + rewrite Hui', Hui, <- app_assoc. f_equal.
      now destruct (tool_enabled _ name).
    + exact Hcfg'.
    + congruence.
Qed.

Lemma startCLITools_run (p : string) (names : list string)
  (w : World Env) :
  Forall (fun name => truthy name = true) names ->
  exists w',
    Sessions.startCLITools p names w = (inr (map (fun _ => tt) names), w') /\
    TerminalTracker.getActiveCLIs p (tracker w')
    = TerminalTracker.getActiveCLIs p (tracker w)
      ++ filter (tool_enabled (win_cliTools (env w))) names /\
    (forall q, q <> p ->
               TerminalTracker.getTerminals q (tracker w')
               = TerminalTracker.getTerminals q (tracker w)) /\
    ui w' = ui w
            ++ map not_enabled
                 (filter (fun name =>
                            negb (tool_enabled (win_cliTools (env w)) name))
                         names) /\
    gitlog w' = gitlog w.
Proof.
  intros Hnames.
  destruct (started_in_order p names Hnames w)
    as (Hvs & Hcli & Hother & Hui & _ & Hlog).
  unfold Sessions.startCLITools.
  rewrite (OrderedFacts.promise_all_in_order _ w _ Hvs).
  eexists. split; [reflexivity|]. repeat split; assumption.
Qed.

Hypothesis tool_kept : tool_keeps_settings.

Lemma createWorktree_accepted (rootPath : string)
  (options : WorktreeCreateOptions) (w : World Env) (out : string) :
  fst (git_raw (CreationTexts.add_args rootPath options) (env w)) = inr out ->
  openInNewWindow options = false ->
  Forall (fun name => truthy name = true) (cliTools options) ->
  exists w',
    Sessions.createWorktree rootPath options w = (inr true, w') /\
    TerminalTracker.getActiveCLIs (CreationTexts.fullPath rootPath options)
                                  (tracker w')
    = TerminalTracker.getActiveCLIs (CreationTexts.fullPath rootPath options)
                                    (tracker w)
      ++ filter (tool_enabled (win_cliTools (env w)))
                (if autoStartTerminal options then cliTools options else []) /\
    ui w'
    = ui w
      ++ [Progress (CreationTexts.title options);
          Progress "Creating Git worktree..."]
      ++ (match (if autoStartTerminal options then cliTools options else [])
          with
          | [] => []
          | _ => Progress "Starting AI CLI tools..."
                 :: map not_enabled
                      (filter (fun name =>
                                 negb (tool_enabled (win_cliTools (env w))
                                                    name))
                              (cliTools options))
          end)
      ++ [Information (CreationTexts.created options)] /\
    gitlog w' = gitlog w ++ [CreationTexts.add_args rootPath options].
Proof.
  intros Hraw Hwindow Hnames.
  pose proof (tool_kept (CreationTexts.add_args rootPath options) (env w))
    as Hsettings.
  unfold CreationTexts.add_args, CreationTexts.fullPath, CreationTexts.title,
    CreationTexts.created in *.
  unfold Sessions.createWorktree, GitService.createWorktree,
    try_catch, withProgress.
  rewrite Hwindow.
  set (fullPath := path_join [rootPath; basePath options; name options]) in *.
  unfold bind at 1 2 3 4. unfold show at 1 2.
  unfold try_catch, bind at 1, raw, ret at 1 2.
  destruct (createBranch options); cbn [negb app] in *;
    cbn [env answers ui console gitlog tracker];
    destruct (git_raw _ (env w)) as [[e'|out'] env'];
    cbn [fst snd] in Hraw, Hsettings; try discriminate;
    cbn [success negb];
    (destruct (autoStartTerminal options); cbn [andb];
     [destruct (cliTools options) as [|name0 names0] eqn:Hnames0;
      cbn [length Nat.eqb negb filter]|]).
  all: unfold bind, show, ret;
    cbn [env answers ui console gitlog tracker].
  all: try (eexists; split; [reflexivity|];
            cbn [env answers ui console gitlog tracker];
            rewrite ?app_nil_r, <- ?app_assoc; cbn [app];
            repeat split; reflexivity).
  all: match goal with
       | |- context [Sessions.startCLITools ?p ?names ?w1] =>
           destruct (startCLITools_run p names w1 Hnames)
             as (w2 & Hrun & Hcli & _ & Hui & Hlog)
       end;
    rewrite Hrun;
    cbn [env answers ui console gitlog tracker] in Hcli, Hui, Hlog;
    rewrite Hsettings in Hcli, Hui;
    eexists; (split; [reflexivity|]);
    cbn [env answers ui console gitlog tracker];
    rewrite Hcli, Hui, Hlog, <- ?app_assoc; cbn [app];
    repeat split; reflexivity.
Qed.

End WithWindow.
End SessionFacts.

(** ** Further properties of the sessions and of creation *)

(** X17.  [startCLITools] on names that are not empty, when the window
    gives a terminal for every request and terminals leave the [cliTools]
    setting alone: the call resolves; the sessions of the worktree are the
    ones it had followed by the names that are enabled in the setting, in
    the order of the names; the sessions of the other worktrees are the
    same; every name that is missing from the setting or disabled gets one
    error message, in order; nothing is passed to the tool. *)
Theorem startCLITools_enabled_in_order (Env : Type) (W : Window Env)
  (B : Builtins) (p : string) (names : list string)
  (w : Effects.World Env) :
  WindowSpec.terminals_open ->
  WindowSpec.settings_kept ->
  Forall (fun name => JsString.truthy name = true) names ->
  let tools := win_cliTools (Effects.env w) in
  let w' := snd (Sessions.startCLITools p names w) in
  fst (Sessions.startCLITools p names w) = inr (map (fun _ => tt) names) /\
  TerminalTracker.getActiveCLIs p (Effects.tracker w')
  = TerminalTracker.getActiveCLIs p (Effects.tracker w)
    ++ filter (WindowSpec.tool_enabled tools) names /\
  (forall q, q <> p ->
             TerminalTracker.getTerminals q (Effects.tracker w')
             = TerminalTracker.getTerminals q (Effects.tracker w)) /\
  Effects.ui w'
  = Effects.ui w
    ++ map WindowSpec.not_enabled
         (filter (fun name => negb (WindowSpec.tool_enabled tools name))
                 names) /\
  Effects.gitlog w' = Effects.gitlog w.
Proof.
  intros Hopen Hkept Hnames. cbv zeta.
  destruct (SessionFacts.startCLITools_run Hopen Hkept p names w Hnames)
    as (w' & Hrun & Hcli & Hother & Hui & Hlog).
  rewrite Hrun. cbn [fst snd]. repeat split; assumption.
Qed.

Lemma startCLITools_enabled_in_order_witness :
  TerminalTracker.getActiveCLIs
    "/wt/feature"
    (Effects.tracker
       (snd (Sessions.startCLITools
               (W := SampleWindow.desk_window) (B := Sample.builtins)
               "/wt/feature" ["claude"; "gemini"; "aider"; "codex"]
               (SampleWindow.desk_world SampleDesk.checked_out [] []))))
  = ["claude"; "aider"] /\
  Effects.ui
    (snd (Sessions.startCLITools
            (W := SampleWindow.desk_window) (B := Sample.builtins)
            "/wt/feature" ["claude"; "gemini"; "aider"; "codex"]
            (SampleWindow.desk_world SampleDesk.checked_out [] [])))
  = [WindowSpec.not_enabled "gemini"; WindowSpec.not_enabled "codex"].
Proof.
  destruct (startCLITools_enabled_in_order
              SampleWindow.Desk SampleWindow.desk_window Sample.builtins
              "/wt/feature" ["claude"; "gemini"; "aider"; "codex"]
              (SampleWindow.desk_world SampleDesk.checked_out [] []))
    as (_ & Hcli & _ & Hui & _).
  - intros o e. eexists. reflexivity.
  - intros e. repeat split.
  - repeat constructor.
  - split; [exact Hcli | exact Hui].
Defined.

(** X18.  [createWorktree] when the tool refuses the [worktree add]: the
    call resolves to [false]; the user sees the two progress messages and
    one error message that carries what the tool threw (or the fixed text
    when that message is empty); no window is opened, no terminal is
    created, no session is tracked and nothing is written to the
    console. *)
Theorem createWorktree_refused (Env : Type) (H : Host Env) (W : Window Env)
  (B : Builtins) (rootPath : string) (options : WorktreeCreateOptions)
  (w : Effects.World Env) (e : Exn) :
  fst (git_raw (CreationTexts.add_args rootPath options) (Effects.env w))
  = inl e ->
  Sessions.createWorktree rootPath options w
  = (inr false,
     Effects.mkWorld
       (snd (git_raw (CreationTexts.add_args rootPath options)
                     (Effects.env w)))
       (Effects.answers w)
       (Effects.ui w
        ++ [Progress (CreationTexts.title options);
            Progress "Creating Git worktree...";
            ErrorMessage (CreationTexts.refused e)])
       (Effects.console w)
       (Effects.gitlog w ++ [CreationTexts.add_args rootPath options])
       (Effects.tracker w)).
Proof.
  unfold CreationTexts.add_args, CreationTexts.fullPath, CreationTexts.title,
    CreationTexts.refused.
  unfold Sessions.createWorktree, GitService.createWorktree,
    Effects.try_catch, Effects.withProgress, Effects.bind, Effects.show,
    Effects.raw, Effects.ret, Effects.throw.
  destruct (createBranch options); cbn [negb app];
    cbn [Effects.env Effects.answers Effects.ui Effects.console
         Effects.gitlog Effects.tracker];
    destruct (git_raw _ (Effects.env w)) as [[e'|out] env'];
    cbn [fst snd]; intros Hraw; try discriminate; injection Hraw as ->;
    cbn [success error negb WorktreeManager.error_or
         WorktreeManager.error_text Effects.env Effects.answers Effects.ui
         Effects.console Effects.gitlog Effects.tracker];
    rewrite <- ?app_assoc; cbn [app];
    destruct (JsString.truthy (GitService.getErrorMessage e)); reflexivity.
Qed.

Lemma createWorktree_refused_witness :
  Sessions.createWorktree
    (H := SampleWindow.desk_host) (W := SampleWindow.desk_window)
    (B := Sample.builtins) "/repo"
    (mkWorktreeCreateOptions "fix-login" "feature/fix-login" "worktrees"
                             true ["claude"] true true)
    (SampleWindow.desk_world Sample.broken_repo [] [])
  = (inr false,
     Effects.mkWorld
       (SampleWindow.desk Sample.broken_repo [])
       []
       [Progress ("Creating worktree " +++ JsString.dquote +++ "fix-login"
                  +++ JsString.dquote +++ "...");
        Progress "Creating Git worktree...";
        ErrorMessage "Failed to create worktree: spawn git ENOENT"]
       []
       [["worktree"; "add"; "-b"; "feature/fix-login";
         "/repo/worktrees/fix-login"]]
       TerminalTracker.initial).
Proof.
  apply (createWorktree_refused
           SampleWindow.Desk SampleWindow.desk_host
           SampleWindow.desk_window Sample.builtins "/repo"
           (mkWorktreeCreateOptions "fix-login" "feature/fix-login"
                                    "worktrees" true ["claude"] true true)
           (SampleWindow.desk_world Sample.broken_repo [] [])
           Sample.tool_error eq_refl).
Defined.

(** X19.  [createWorktree] when the tool accepts the [worktree add] and no
    new window is asked for, on tool names that are not empty (the window
    gives a terminal for every request; neither terminals nor the tool
    touch the [cliTools] setting): the call resolves to [true] and ends on
    the notification of success, also when some of the names are not
    enabled; with [autoStartTerminal] the new worktree gets one session
    per enabled name, in order, and one error message per other name;
    without it no session is started; one argument vector is passed to the
    tool. *)
Theorem createWorktree_starts_sessions (Env : Type) (H : Host Env)
  (W : Window Env) (B : Builtins) (rootPath : string)
  (options : WorktreeCreateOptions) (w : Effects.World Env) (out : string) :
  WindowSpec.terminals_open ->
  WindowSpec.settings_kept ->
  WindowSpec.tool_keeps_settings ->
  fst (git_raw (CreationTexts.add_args rootPath options) (Effects.env w))
  = inr out ->
  openInNewWindow options = false ->
  Forall (fun name => JsString.truthy name = true) (cliTools options) ->
  let tools := win_cliTools (Effects.env w) in
  let started := if autoStartTerminal options then cliTools options else [] in
  let w' := snd (Sessions.createWorktree rootPath options w) in
  fst (Sessions.createWorktree rootPath options w) = inr true /\
  TerminalTracker.getActiveCLIs (CreationTexts.fullPath rootPath options)
                                (Effects.tracker w')
  = TerminalTracker.getActiveCLIs (CreationTexts.fullPath rootPath options)
                                  (Effects.tracker w)
    ++ filter (WindowSpec.tool_enabled tools) started /\
  Effects.ui w'
  = Effects.ui w
    ++ [Progress (CreationTexts.title options);
        Progress "Creating Git worktree..."]
    ++ (match started with
        | [] => []
        | _ => Progress "Starting AI CLI tools..."
               :: map WindowSpec.not_enabled
                    (filter (fun name =>
                               negb (WindowSpec.tool_enabled tools name))
                            started)
        end)
    ++ [Information (CreationTexts.created options)] /\
  Effects.gitlog w'
  = Effects.gitlog w ++ [CreationTexts.add_args rootPath options].
Proof.
  intros Hopen Hkept Hgit Hraw Hwindow Hnames. cbv zeta.
  destruct (SessionFacts.createWorktree_accepted
              Hopen Hkept Hgit rootPath options w out Hraw Hwindow Hnames)
    as (w' & Hrun & Hcli & Hui & Hlog).
  rewrite Hrun. cbn [fst snd]. repeat split; [exact Hcli | | exact Hlog].
  rewrite Hui. now destruct (autoStartTerminal options).
Qed.

Lemma createWorktree_starts_sessions_witness :
  fst (Sessions.createWorktree
         (H := SampleWindow.desk_host) (W := SampleWindow.desk_window)
         (B := Sample.builtins) "/repo"
         (mkWorktreeCreateOptions "fix-login" "feature/fix-login" "worktrees"
                                  true ["claude"; "gemini"] false true)
         (SampleWindow.desk_world SampleDesk.checked_out [] []))
  = inr true /\
  TerminalTracker.getActiveCLIs
    "/repo/worktrees/fix-login"
    (Effects.tracker
       (snd (Sessions.createWorktree
               (H := SampleWindow.desk_host) (W := SampleWindow.desk_window)
               (B := Sample.builtins) "/repo"
               (mkWorktreeCreateOptions "fix-login" "feature/fix-login"
                                        "worktrees" true ["claude"; "gemini"]
                                        false true)
               (SampleWindow.desk_world SampleDesk.checked_out [] []))))
  = ["claude"].
Proof.
  destruct (createWorktree_starts_sessions
              SampleWindow.Desk SampleWindow.desk_host
              SampleWindow.desk_window Sample.builtins "/repo"
              (mkWorktreeCreateOptions "fix-login" "feature/fix-login"
                                       "worktrees" true ["claude"; "gemini"]
                                       false true)
              (SampleWindow.desk_world SampleDesk.checked_out [] []) "")
    as (Hvalue & Hcli & _).
  - intros o e. eexists. reflexivity.
  - intros e. repeat split.
  - intros args e. unfold git_raw, SampleWindow.desk_host.
    destruct (git_raw (Host := Sample.host) args (SampleWindow.repository e)).
    reflexivity.
  - reflexivity.
  - reflexivity.
  - repeat constructor.
  - split; [exact Hvalue | exact Hcli].
Defined.

(** ** Facts about the commands of the palette *)

Module PaletteFacts.
Import JsString Effects Frames.

Section WithWindow.
Context {Env : Type} {H : Host Env} {W : Window Env} {B : Builtins}.

Lemma listed_fresh (w : World Env) (listed : list WorktreeInfo) :
  fst (GitService.listWorktrees w) = inr listed ->
  Forall (fun wt => changes wt = None) listed.
Proof.
  unfold GitService.listWorktrees, try_catch, bind, raw,
    GitService.handleGitError, console_error, ret.
  destruct (git_raw _ (env w)) as [[e|text] env']; cbn [fst];
    intros [= <-]; [constructor|].
  rewrite ParserFacts.parseWorktreeList_blocks.
  eapply Forall_impl; [|apply ListingFacts.records_have_path].
  now intros wt (_ & Hchanges & _).
Qed.

(** A removal of a record without a change count: it resolves, and the
    tool is passed nothing, or the removal of the record's path, not
    forced. *)
Lemma removeWorktree_unforced (wt : WorktreeInfo) (w : World Env) :
  changes wt = None ->
  (exists done, fst (WorktreeManager.removeWorktree wt w) = inr done) /\
  (gitlog (snd (WorktreeManager.removeWorktree wt w)) = gitlog w \/
   gitlog (snd (WorktreeManager.removeWorktree wt w))
   = gitlog w ++ [["worktree"; "remove"; path wt]]).
Proof.
  intros Hchanges.
  assert (Hargs : GitService.remove_args
                    (path wt) (WorktreeManager.hasChanges wt)
                  = ["worktree"; "remove"; path wt]).
  { unfold WorktreeManager.hasChanges. now rewrite Hchanges. }
  assert (Hdec : WorldSpec.next_answer w = Some "Remove" \/
                 WorldSpec.next_answer w <> Some "Remove").
  { destruct (WorldSpec.next_answer w) as [a|]; [|right; discriminate].
    destruct (String.eqb_spec a "Remove") as [->|Hne];
      [now left | right; congruence]. }
  destruct Hdec as [Hyes|Hno].
  - pose proof (MutationFacts.removeWorktree_run wt w Hyes) as Hrun.
    cbv zeta in Hrun. rewrite Hargs in Hrun. rewrite Hrun.
    destruct (git_raw _ (env w)) as [[e|out] env']; cbn [fst snd gitlog];
      split; eauto.
  - rewrite (MutationFacts.removeWorktree_cancelled wt w Hno).
    cbn [fst snd]. split; [eauto | now left].
Qed.

Lemma palette_removal_run (w : World Env) :
  exists listed w',
    fst (GitService.listWorktrees w) = inr listed /\
    Commands.removeWorktreeFromPalette w = (inr tt, w') /\
    (gitlog w' = gitlog w ++ [list_args] \/
     exists wt,
       In wt listed /\ isMain wt = false /\
       gitlog w' = gitlog w ++ [list_args; ["worktree"; "remove"; path wt]]).
Proof.
  destruct (FrameFacts.listWorktrees_frame w)
    as (listed & Hlisted & _ & _ & _ & Hlog).
  pose proof (listed_fresh w listed Hlisted) as Hfresh.
  exists listed.
  unfold Commands.removeWorktreeFromPalette. unfold bind at 1.
  destruct (GitService.listWorktrees w) as [[e|l] w1]; cbn [fst snd] in *;
    [discriminate|]. injection Hlisted as ->.
  destruct (Nat.eqb _ 0).
  - unfold show. eexists. split; [reflexivity|]. split; [reflexivity|].
    now left.
  - unfold bind at 1, Desk.showQuickPick, bind at 1, Desk.act.
    destruct (win_showQuickPick _ _ (env w1)) as [choice env2].
    unfold ret at 1.
    set (w2 := mkWorld env2 _ _ _ _ _).
    assert (Hlog2 : gitlog w2 = gitlog w ++ [list_args]) by exact Hlog.
    clearbody w2.
    destruct (match choice with
              | Some i => nth_error _ i
              | None => None
              end) as [wt|] eqn:Hchoice.
    + assert (Hin : In wt (filter (fun wt => negb (isMain wt)) listed)).
      { destruct choice as [i|]; [|discriminate].
        eapply nth_error_In. exact Hchoice. }
      apply filter_In in Hin as [Hin Hmain].
      apply Bool.negb_true_iff in Hmain.
      pose proof (proj1 (Forall_forall _ _) Hfresh wt Hin) as Hchanges.
      cbv beta in Hchanges.
      destruct (removeWorktree_unforced wt w2 Hchanges)
        as ((done & Hdone) & Hcases).
      unfold bind.
      destruct (WorktreeManager.removeWorktree wt w2) as [[e|b] w3];
        cbn [fst snd] in Hdone, Hcases; [discriminate|].
      assert (Hgoal : gitlog w3 = gitlog w ++ [list_args]
                      \/ gitlog w3
                         = gitlog w
                           ++ [list_args; ["worktree"; "remove"; path wt]]).
      { destruct Hcases as [Hsame|Hmore]; [left | right].
        - now rewrite Hsame.
        - rewrite Hmore, Hlog2, <- app_assoc. reflexivity. }
      destruct b; unfold Desk.act_, ret;
        (eexists; split; [reflexivity|]; split; [reflexivity|]);
        cbn [gitlog];
        (destruct Hgoal as [Hsame|Hmore];
         [now left | right; exists wt; now repeat split]).
    + eexists. split; [reflexivity|]. split; [reflexivity|]. now left.
Qed.

Lemma listing_items_missing_commit (wts : list WorktreeInfo) :
  Exists (fun wt => commit wt = None) wts ->
  Commands.listing_items wts = inl (TreeView.undefined_read "substring").
Proof.
  induction 1 as [wt wts Hwt|wt wts _ IH]; cbn [Commands.listing_items];
    unfold Commands.listing_item.
  - now rewrite Hwt.
  - destruct (commit wt); [|reflexivity]. now rewrite IH.
Qed.

End WithWindow.
End PaletteFacts.

(** ** Properties of the commands of the palette *)

(** X20.  The removal command of the palette never reaches the main
    record: the command resolves, and after the listing the tool is passed
    nothing more, or one [worktree remove <path>] without [--force] where
    the path is the one of a listed record that is not the main one. *)
Theorem removeWorktreeFromPalette_spares_main (Env : Type) (H : Host Env)
  (W : Window Env) (B : Builtins) (w : Effects.World Env) :
  exists listed,
    fst (GitService.listWorktrees w) = inr listed /\
    fst (Commands.removeWorktreeFromPalette w) = inr tt /\
    (Effects.gitlog (snd (Commands.removeWorktreeFromPalette w))
     = Effects.gitlog w ++ [Frames.list_args] \/
     exists wt,
       In wt listed /\ isMain wt = false /\
       Effects.gitlog (snd (Commands.removeWorktreeFromPalette w))
       = Effects.gitlog w
         ++ [Frames.list_args; ["worktree"; "remove"; path wt]]).
Proof.
  destruct (PaletteFacts.palette_removal_run w)
    as (listed & w' & Hlisted & Hrun & Hcases).
  exists listed. rewrite Hrun. cbn [fst snd]. now repeat split.
Qed.

(** X21.  The listing command of the palette when some listed record has
    no commit (the entry of a bare repository has none): building the
    items throws, so the command rejects with that [TypeError]; no picker
    is opened and nothing is shown. *)
Theorem listWorktrees_command_rejects (Env : Type) (H : Host Env)
  (W : Window Env) (w : Effects.World Env) (listed : list WorktreeInfo) :
  fst (GitService.listWorktrees w) = inr listed ->
  Exists (fun wt => commit wt = None) listed ->
  Commands.listWorktrees w
  = (inl (TreeView.undefined_read "substring"),
     snd (GitService.listWorktrees w)).
Proof.
  intros Hlisted Hmissing.
  unfold Commands.listWorktrees. unfold Effects.bind at 1.
  destruct (GitService.listWorktrees w) as [[e|l] w1]; cbn [fst snd] in *;
    [discriminate|]. injection Hlisted as ->.
  rewrite (PaletteFacts.listing_items_missing_commit _ Hmissing).
  destruct listed as [|wt listed]; [inversion Hmissing|].
  reflexivity.
Qed.

Lemma listWorktrees_command_rejects_witness :
  fst (Commands.listWorktrees
         (H := SampleWindow.desk_host) (W := SampleWindow.desk_window)
         (SampleWindow.desk_world Sample.repo [Some 0%nat] []))
  = inl (ErrorObj "TypeError"
                  "Cannot read properties of undefined (reading 'substring')")
  /\
  SampleWindow.picks
    (Effects.env
       (snd (Commands.listWorktrees
               (H := SampleWindow.desk_host) (W := SampleWindow.desk_window)
               (SampleWindow.desk_world Sample.repo [Some 0%nat] []))))
  = [Some 0%nat].
Proof.
  rewrite (listWorktrees_command_rejects
             SampleWindow.Desk SampleWindow.desk_host SampleWindow.desk_window
             (SampleWindow.desk_world Sample.repo [Some 0%nat] [])
             _ eq_refl).
  - split; reflexivity.
  - apply Exists_cons_hd. reflexivity.
Defined.

(** ** Which tools a call of [startAICLI] can start *)

Module LaunchFacts.
Import JsString Effects WindowSpec.

Section WithWindow.
Context {Env : Type} {H : Host Env} {W : Window Env} {B : Builtins}.
Hypothesis open : terminals_open.

Lemma tool_named_In (toolName : string)
  (cliTools : list (string * Vscode.CLIToolConfig))
  (cfg : Vscode.CLIToolConfig) :
  Sessions.tool_named toolName cliTools = Some cfg ->
  In (toolName, cfg) cliTools.
Proof.
  induction cliTools as [|[k c] rest IH]; cbn [Sessions.tool_named];
    [discriminate|].
  destruct (String.eqb_spec k toolName) as [->|Hne].
  - intros [= ->]. now left.
  - intros Hrest. right. now apply IH.
Qed.

Lemma launch_run (p toolName : string) (cfg : Vscode.CLIToolConfig)
  (w : World Env) :
  exists now t w',
    Sessions.launch p toolName cfg w = (inr tt, w') /\
    tracker w' = TerminalTracker.trackTerminal now t p toolName (tracker w) /\
    ui w' = ui w /\ gitlog w' = gitlog w.
Proof.
  unfold Sessions.launch, bind, Desk.act, Desk.act_, Desk.peek,
    Desk.update_tracker.
  set (o := Vscode.mkTerminalOptions _ _ _).
  destruct (open o (env w)) as (t & Ht).
  destruct (win_createTerminal o (env w)) as [[e|t'] e1]; cbn [fst] in Ht;
    [discriminate|]. injection Ht as ->.
  cbn [env answers ui console gitlog tracker].
  do 3 eexists. split; [reflexivity|]. repeat split.
Qed.

Lemma startAICLI_run (p : string) (cliToolName : option string)
  (w : World Env) :
  exists w',
    Sessions.startAICLI p cliToolName w = (inr tt, w') /\
    gitlog w' = gitlog w /\
    (tracker w' = tracker w \/
     exists label cfg now t,
       In (label, cfg) (win_cliTools (env w)) /\
       Vscode.enabled cfg = true /\
       ui w' = ui w /\
       tracker w' = TerminalTracker.trackTerminal now t p label (tracker w)).
Proof.
  unfold Sessions.startAICLI, bind at 1, Desk.peek.
  destruct (truthy_opt cliToolName).
  - destruct (Sessions.tool_named _ _) as [cfg|] eqn:Hnamed;
      [destruct (Vscode.enabled cfg) eqn:Henabled|].
    + destruct (launch_run p (JsText.join_opt cliToolName) cfg w)
        as (now & t & w' & Hrun & Htr & Hui & Hlog).
      exists w'. repeat split; try assumption. right.
      exists (JsText.join_opt cliToolName), cfg, now, t.
      repeat split; try assumption. now apply tool_named_In.
    + unfold show. eexists. split; [reflexivity|]. split; [reflexivity|].
      now left.
    + unfold show. eexists. split; [reflexivity|]. split; [reflexivity|].
      now left.
  - unfold Sessions.pick_and_launch.
    destruct (Nat.eqb _ 0).
    + unfold show. eexists. split; [reflexivity|]. split; [reflexivity|].
      now left.
    + unfold bind at 1, Desk.showQuickPick, bind at 1, Desk.act.
      destruct (win_showQuickPick _ _ (env w)) as [choice env2].
      unfold ret at 1.
      set (w2 := mkWorld env2 _ _ _ _ _).
      destruct (match choice with
                | Some i => nth_error _ i
                | None => None
                end) as [[label cfg]|] eqn:Hchoice.
      * assert (Hin : In (label, cfg)
                         (filter (fun entry => Vscode.enabled (snd entry))
                                 (win_cliTools (env w)))).
        { destruct choice as [i|]; [|discriminate].
          eapply nth_error_In. exact Hchoice. }
        apply filter_In in Hin as [Hin Henabled]. cbn [snd] in Henabled.
        destruct (launch_run p label cfg w2)
          as (now & t & w' & Hrun & Htr & Hui & Hlog).
        exists w'. repeat split; try assumption. right.
        exists label, cfg, now, t. repeat split; assumption.
      * eexists. split; [reflexivity|]. split; [reflexivity|]. now left.
Qed.

End WithWindow.
End LaunchFacts.

(** X22.  [startAICLI], with a name or through the picker, when the window
    gives a terminal for every request: the call resolves and passes
    nothing to the tool; the registry is left as it was, or it has one
    more session, of the worktree, whose label is the key of an entry of
    the [cliTools] setting that is enabled, and then no message was
    shown. *)
Theorem startAICLI_only_enabled (Env : Type) (W : Window Env) (B : Builtins)
  (p : string) (cliToolName : option string) (w : Effects.World Env) :
  WindowSpec.terminals_open ->
  fst (Sessions.startAICLI p cliToolName w) = inr tt /\
  Effects.gitlog (snd (Sessions.startAICLI p cliToolName w))
  = Effects.gitlog w /\
  (Effects.tracker (snd (Sessions.startAICLI p cliToolName w))
   = Effects.tracker w \/
   exists label cfg now t,
     In (label, cfg) (win_cliTools (Effects.env w)) /\
     Vscode.enabled cfg = true /\
     Effects.ui (snd (Sessions.startAICLI p cliToolName w)) = Effects.ui w /\
     Effects.tracker (snd (Sessions.startAICLI p cliToolName w))
     = TerminalTracker.trackTerminal now t p label (Effects.tracker w)).
Proof.
  intros Hopen.
  destruct (LaunchFacts.startAICLI_run Hopen p cliToolName w)
    as (w' & Hrun & Hlog & Hcases).
  rewrite Hrun. cbn [fst snd]. now repeat split.
Qed.

Lemma startAICLI_only_enabled_witness :
  TerminalTracker.getActiveCLIs
    "/wt/feature"
    (Effects.tracker
       (snd (Sessions.startAICLI
               (W := SampleWindow.desk_window) (B := Sample.builtins)
               "/wt/feature" None
               (SampleWindow.desk_world SampleDesk.checked_out
                                        [Some 1%nat] []))))
  = ["aider"] /\
  (fst (Sessions.startAICLI
          (W := SampleWindow.desk_window) (B := Sample.builtins)
          "/wt/feature" None
          (SampleWindow.desk_world SampleDesk.checked_out [Some 1%nat] []))
   = inr tt /\
   Effects.gitlog
     (snd (Sessions.startAICLI
             (W := SampleWindow.desk_window) (B := Sample.builtins)
             "/wt/feature" None
             (SampleWindow.desk_world SampleDesk.checked_out [Some 1%nat] [])))
   = []).
Proof.
  split; [reflexivity|].
  destruct (startAICLI_only_enabled
              SampleWindow.Desk SampleWindow.desk_window Sample.builtins
              "/wt/feature" None
              (SampleWindow.desk_world SampleDesk.checked_out [Some 1%nat] []))
    as (Hvalue & Hlog & _).
  - intros o e. eexists. reflexivity.
  - split; [exact Hvalue | exact Hlog].
Defined.
